(** * ESEProject: camera stream supervisor, OCR normalisation and
      temporal consensus, embedded from the Python sources

    Sources embedded here:
    - [stream_control.py]  ([start_stream], [stop_stream] with a PID file)
    - [video_stream.py]    ([stop_stream] on a [Popen] handle)
    - [ocr_reader.py]      ([normalize_plate], [ocr_best], the body of [main])
    - [detector.py]        (the body of [main])

    Python [str] values are sequences of Unicode code points; integers that
    are lengths or counts are [nat], process ids and durations are [Z]. *)

From Stdlib Require Import ZArith NArith Lia Bool List Ascii String.
From stdpp Require Import base decidable option list gmap pretty.
Import ListNotations.
Local Open Scope N_scope.

(** ** Python strings *)

(** A Python [str]: the list of its code points. *)
Definition pystr : Type := list N.

(** A literal of the source, written as a Rocq string of ASCII characters. *)
Definition py (s : string) : pystr :=
  List.map N_of_ascii (list_ascii_of_string s).

(** [ch in s] for a one-character [ch]. *)
Definition in_str (ch : N) (s : pystr) : bool := existsb (N.eqb ch) s.

(** [str.isspace] on one code point (CPython's [_PyUnicode_IsWhitespace]). *)
Definition is_space (c : N) : bool :=
  ((0x09 <=? c) && (c <=? 0x0D)) || ((0x1C <=? c) && (c <=? 0x20))
  || (c =? 0x85) || (c =? 0xA0) || (c =? 0x1680)
  || ((0x2000 <=? c) && (c <=? 0x200A))
  || (c =? 0x2028) || (c =? 0x2029) || (c =? 0x202F)
  || (c =? 0x205F) || (c =? 0x3000).

(** [str.lstrip()], [str.rstrip()] and [str.strip()] without argument. *)
Fixpoint lstrip (s : pystr) : pystr :=
  match s with
  | [] => []
  | c :: r => if is_space c then lstrip r else s
  end.

Fixpoint rstrip (s : pystr) : pystr :=
  match s with
  | [] => []
  | c :: r =>
      match rstrip r with
      | [] => if is_space c then [] else [c]
      | r' => c :: r'
      end
  end.

Definition strip (s : pystr) : pystr := rstrip (lstrip s).

(** [s.replace(old, new)] where [old] is a single character. *)
Definition replace_char (old : N) (new : pystr) (s : pystr) : pystr :=
  flat_map (fun c => if c =? old then new else [c]) s.

(** [str(n)] and [int(s)] for integers.  [int] accepts surrounding white
    space, one sign and decimal digits, single underscores between digits
    allowed; the ASCII forms are modelled, any other text is a
    [ValueError]. *)
Definition str_of_int (n : Z) : pystr := py (pretty n).

Definition digit_val (c : N) : option Z :=
  if (0x30 <=? c) && (c <=? 0x39) then Some (Z.of_N (c - 0x30)) else None.

Fixpoint digits_val (acc : Z) (after_digit : bool) (s : pystr) : option Z :=
  match s with
  | [] => if after_digit then Some acc else None
  | c :: r =>
      if c =? 0x5F then
        if after_digit then digits_val acc false r else None
      else
        match digit_val c with
        | Some d => digits_val (acc * 10 + d)%Z true r
        | None => None
        end
  end.

Definition int_of_str (s : pystr) : option Z :=
  match strip s with
  | c :: r =>
      if c =? 0x2B then digits_val 0 false r
      else if c =? 0x2D then Z.opp <$> digits_val 0 false r
      else digits_val 0 false (c :: r)
  | [] => None
  end.

(** [str.upper()] maps each code point to its full upper-case expansion.
    The ASCII range is written out; the expansion of the code points from
    128 on is the Unicode case table, taken as a parameter. *)
Definition upper_char (unicode_upper : N -> pystr) (c : N) : pystr :=
  if (0x61 <=? c) && (c <=? 0x7A) then [c - 0x20]
  else if c <? 0x80 then [c]
  else unicode_upper c.

Definition upper (unicode_upper : N -> pystr) (s : pystr) : pystr :=
  flat_map (upper_char unicode_upper) s.

Local Close Scope N_scope.

(** ** The process, the file system and the console, as the scripts see them *)

Inductive exn : Set :=
  | KeyboardInterrupt
  | ProcessLookupError
  | PermissionError
  | FileNotFoundError
  | ValueError
  | OverflowError
  | cv2_error.

(** [except Exception] catches everything but [KeyboardInterrupt]. *)
Definition is_Exception (e : exn) : bool :=
  match e with KeyboardInterrupt => false | _ => true end.

#[global] Instance exn_eq_dec : EqDecision exn.
Proof. solve_decision. Defined.

Inductive signal : Set := SIGTERM | SIGKILL.

#[global] Instance signal_eq_dec : EqDecision signal.
Proof. solve_decision. Defined.

(** What a run leaves behind, in order.  [Call] marks the entry of a
    supervisor function; the others are the calls made to the outside. *)
Inductive event : Type :=
  | Call (fn : string)
  | Print (msg : pystr)
  | Popen (cmd : list pystr) (pid : Z)
  | WriteFile (path content : pystr)
  | RemoveFile (path : pystr)
  | Kill (pid : Z) (sig : signal)
  | Killpg (pgid : Z) (sig : signal)
  | Sleep (ms : Z)
  | Grab
  | Imshow (window label : pystr)
  | Imwrite (name : pystr)
  | Release
  | DestroyAllWindows.

#[global] Instance event_eq_dec : EqDecision event.
Proof. solve_decision. Defined.

(** A process other than the script itself. *)
Record process : Set := {
  pgid : Z;             (* its process group *)
  permitted : bool;     (* may the script signal it *)
  ignores_term : bool   (* does it survive SIGTERM *)
}.

Record world : Type := {
  fs : gmap pystr pystr;      (* regular files: path to contents *)
  procs : gmap Z process;     (* the live processes, by pid *)
  next_pid : Z;               (* the pid the next child gets *)
  installed : bool;           (* is rpicam-vid on the PATH *)
  self_pgid : Z;              (* the script's own process group *)
  trace : list event
}.

Definition set_fs (f : gmap pystr pystr) (w : world) : world :=
  {| fs := f; procs := procs w; next_pid := next_pid w;
     installed := installed w; self_pgid := self_pgid w; trace := trace w |}.

Definition set_procs (p : gmap Z process) (w : world) : world :=
  {| fs := fs w; procs := p; next_pid := next_pid w;
     installed := installed w; self_pgid := self_pgid w; trace := trace w |}.

Definition log (e : event) (w : world) : world :=
  {| fs := fs w; procs := procs w; next_pid := next_pid w;
     installed := installed w; self_pgid := self_pgid w;
     trace := trace w ++ [e] |}.

(** How a statement ends: normally, by an exception, or not at all because
    the recorded input ran out while it was still looping. *)
Inductive result (A : Type) : Type :=
  | Done (a : A)
  | Raise (e : exn)
  | Starved.
Arguments Done {A} a.
Arguments Raise {A} e.
Arguments Starved {A}.

Definition M (A : Type) : Type := world -> result A * world.

#[global] Instance M_ret : MRet M := fun A a w => (Done a, w).

#[global] Instance M_bind : MBind M := fun A B f m w =>
  match m w with
  | (Done a, w') => f a w'
  | (Raise e, w') => (Raise e, w')
  | (Starved, w') => (Starved, w')
  end.

Definition raise {A} (e : exn) : M A := fun w => (Raise e, w).
Definition starve {A} : M A := fun w => (Starved, w).
Definition emit (e : event) : M unit := fun w => (Done tt, log e w).

(** [try: body / except handled: handler] *)
Definition try_except {A} (body : M A) (handled : exn -> bool)
    (handler : exn -> M A) : M A := fun w =>
  match body w with
  | (Raise e, w') => if handled e then handler e w' else (Raise e, w')
  | r => r
  end.

(** [try: body / finally: fin] *)
Definition try_finally {A} (body : M A) (fin : M unit) : M A := fun w =>
  match body w with
  | (Done a, w') =>
      match fin w' with
      | (Done _, w'') => (Done a, w'')
      | (Raise e, w'') => (Raise e, w'')
      | (Starved, w'') => (Starved, w'')
      end
  | (Raise e, w') =>
      match fin w' with
      | (Done _, w'') => (Raise e, w'')
      | (Raise e', w'') => (Raise e', w'')
      | (Starved, w'') => (Starved, w'')
      end
  | (Starved, w') => (Starved, w')
  end.

Definition print (msg : pystr) : M unit := emit (Print msg).

(** An outside call that returns, or raises [fault]. *)
Definition fallible (e : event) (fault : option exn) : M unit :=
  emit e ;; match fault with Some x => raise x | None => mret tt end.

(** [time.sleep]: returns, or is interrupted by [fault]. *)
Definition sleep (ms : Z) (fault : option exn) : M unit :=
  fallible (Sleep ms) fault.

Definition path_exists (p : pystr) : M bool := fun w =>
  (Done (bool_decide (is_Some (fs w !! p))), w).

(** [open(p, "r").read()] *)
Definition read_file (p : pystr) : M pystr := fun w =>
  match fs w !! p with
  | Some c => (Done c, w)
  | None => (Raise FileNotFoundError, w)
  end.

(** [open(p, "w").write(c)], in a writable directory. *)
Definition write_file (p c : pystr) : M unit := fun w =>
  (Done tt, set_fs (<[p := c]> (fs w)) (log (WriteFile p c) w)).

(** [os.remove] *)
Definition os_remove (p : pystr) : M unit := fun w =>
  let w := log (RemoveFile p) w in
  match fs w !! p with
  | Some _ => (Done tt, set_fs (delete p (fs w)) w)
  | None => (Raise FileNotFoundError, w)
  end.

(** [subprocess.Popen(cmd, start_new_session=True)] (or with
    [preexec_fn=os.setsid]): the child leads a new process group. *)
Definition popen (cmd : list pystr) : M Z := fun w =>
  if installed w then
    let pid := next_pid w in
    let child := {| pgid := pid; permitted := true; ignores_term := false |} in
    (Done pid,
     {| fs := fs w; procs := <[pid := child]> (procs w);
        next_pid := (pid + 1)%Z; installed := installed w;
        self_pgid := self_pgid w; trace := trace w ++ [Popen cmd pid] |})
  else (Raise FileNotFoundError, w).

(** Does a signalled process end. *)
Definition dies (sig : signal) (p : process) : bool :=
  permitted p && (bool_decide (sig = SIGKILL) || negb (ignores_term p)).

(** The processes [kill(2)] addresses with [pid]. *)
Definition addressed (w : world) (pid : Z) (q : Z) (p : process) : bool :=
  if (0 <? pid)%Z then (q =? pid)%Z
  else if (pid =? 0)%Z then (pgid p =? self_pgid w)%Z
  else if (pid =? -1)%Z then true
  else (pgid p =? - pid)%Z.

Definition signal_all (w : world) (pid : Z) (sig : signal) : result unit * world :=
  let hit := filter (fun qp => addressed w pid qp.1 qp.2 = true) (procs w) in
  if bool_decide (hit = ∅) then
    if (pid =? 0)%Z then (Done tt, w) else (Raise ProcessLookupError, w)
  else if bool_decide (filter (fun qp => permitted qp.2 = true) hit = ∅) then
    (Raise PermissionError, w)
  else
    (Done tt,
     set_procs (filter (fun qp => negb (addressed w pid qp.1 qp.2 && dies sig qp.2) = true)
                       (procs w)) w).

Definition pid_t_ok (pid : Z) : bool := ((- 2 ^ 31 <=? pid) && (pid <? 2 ^ 31))%Z.

(** [os.kill(pid, sig)] *)
Definition os_kill (pid : Z) (sig : signal) : M unit := fun w =>
  if pid_t_ok pid then signal_all (log (Kill pid sig) w) pid sig
  else (Raise OverflowError, w).

(** [os.getpgid(pid)] *)
Definition os_getpgid (pid : Z) : M Z := fun w =>
  match procs w !! pid with
  | Some p => (Done (pgid p), w)
  | None => (Raise ProcessLookupError, w)
  end.

(** [os.killpg(pgid, sig)] for a group id above 1: [kill(-pgid, sig)]. *)
Definition os_killpg (g : Z) (sig : signal) : M unit := fun w =>
  if pid_t_ok g then signal_all (log (Killpg g sig) w) (- g) sig
  else (Raise OverflowError, w).

(** [cv2.imwrite(name, img)], in a writable directory: the file [name] is
    created or replaced.  [content] stands for the encoded image. *)
Definition cv2_imwrite (name content : pystr) : M unit := fun w =>
  (Done tt, set_fs (<[name := content]> (fs w)) (log (Imwrite name) w)).

(** ** collections.deque and collections.Counter *)

Section Collections.
Context {K : Type} `{EqDecision K}.

(** [d.append(x)] on a [deque(maxlen=maxlen)]: the item goes to the right
    end, then the left end is dropped if the length exceeds [maxlen]. *)
Definition deque_append (maxlen : nat) (d : list K) (x : K) : list K :=
  let d' := d ++ [x] in
  if (maxlen <? length d')%nat then List.tl d' else d'.

(** [Counter]: the distinct items in the order of their first occurrence,
    each with its count. *)
Fixpoint counter_add (c : list (K * nat)) (x : K) : list (K * nat) :=
  match c with
  | [] => [(x, 1%nat)]
  | (k, n) :: r =>
      if decide (k = x) then (k, S n) :: r else (k, n) :: counter_add r x
  end.

Definition Counter (l : list K) : list (K * nat) := fold_left counter_add l [].

(** [max(items, key=count)]: the first item among those of greatest count. *)
Fixpoint max_by_count (best : K * nat) (c : list (K * nat)) : K * nat :=
  match c with
  | [] => best
  | kn :: r => max_by_count (if (best.2 <? kn.2)%nat then kn else best) r
  end.

(** [c.most_common(1)], a list of at most one pair. *)
Definition most_common_1 (c : list (K * nat)) : list (K * nat) :=
  match c with
  | [] => []
  | kn :: r => [max_by_count kn r]
  end.

End Collections.

(** ** stream_control.py *)

Module stream_control.

Definition DEFAULT_URL : pystr := py "tcp://127.0.0.1:5800?listen".
Definition DEFAULT_W : pystr := py "1920".
Definition DEFAULT_H : pystr := py "1080".
Definition DEFAULT_FPS : pystr := py "15".
Definition DEFAULT_QUALITY : pystr := py "90".
Definition DEFAULT_PID : pystr := py "stream.pid".

(** The arguments of [start_stream]. *)
Record config : Type := {
  url : pystr;
  width : pystr;
  height : pystr;
  fps : pystr;
  quality : pystr;
  pid_file : pystr
}.

Definition defaults : config :=
  {| url := DEFAULT_URL; width := DEFAULT_W; height := DEFAULT_H;
     fps := DEFAULT_FPS; quality := DEFAULT_QUALITY; pid_file := DEFAULT_PID |}.

Definition command (c : config) : list pystr :=
  [py "rpicam-vid"; py "-t"; py "0"; py "-n"; py "--codec"; py "mjpeg";
   py "--quality"; quality c; py "--width"; width c;
   py "--height"; height c; py "--framerate"; fps c; py "-o"; url c].

(** [start_stream], lines 27-59. *)
Definition start_stream (c : config) : M unit :=
  emit (Call "start_stream") ;;
  running ← path_exists (pid_file c) ;
  if running : bool then
    print (py "Stream already running (pid file exists).")
  else
    pid ← popen (command c) ;
    write_file (pid_file c) (str_of_int pid) ;;
    print (py "Started stream (PID " ++ str_of_int pid ++ py ") -> " ++ url c).

(** [stop_stream], lines 62-86. *)
Definition stop_stream (pid_file : pystr) : M unit :=
  emit (Call "stop_stream") ;;
  present ← path_exists pid_file ;
  if negb present then
    print (py "No stream running (pid file missing).")
  else
    text ← read_file pid_file ;
    pid ← match int_of_str (strip text) with
          | Some n => mret n
          | None => raise ValueError
          end ;
    try_except
      (os_kill pid SIGTERM ;; print (py "Stopped stream."))
      (fun e => bool_decide (e = ProcessLookupError))
      (fun _ => print (py "Process not found; cleaning pid file.")) ;;
    try_except
      (os_remove pid_file)
      (fun e => bool_decide (e = FileNotFoundError))
      (fun _ => mret tt).

End stream_control.

(** ** video_stream.py *)

Module video_stream.

(** [str(exc)] for the errors the operating system reports. *)
Definition exn_text (e : exn) : pystr :=
  match e with
  | ProcessLookupError => py "[Errno 3] No such process"
  | PermissionError => py "[Errno 1] Operation not permitted"
  | _ => []
  end.

(** [proc.poll() is None]: the child has not ended. *)
Definition poll_is_None (pid : Z) : M bool := fun w =>
  (Done (bool_decide (is_Some (procs w !! pid))), w).

(** [stop_stream], lines 60-76; [proc] is the [Popen] handle, by its pid,
    or [None]. *)
Definition stop_stream (proc : option Z) : M unit :=
  match proc with
  | None => mret tt
  | Some pid =>
      running ← poll_is_None pid ;
      if running : bool then
        try_except
          (g ← os_getpgid pid ;
           os_killpg g SIGTERM ;;
           sleep 300 None ;;
           still ← poll_is_None pid ;
           if still : bool then
             g' ← os_getpgid pid ; os_killpg g' SIGKILL
           else mret tt)
          is_Exception
          (fun exc =>
             print (py "Warning: failed to stop rpicam-vid cleanly: "
                    ++ exn_text exc))
      else mret tt
  end.

Definition command : list pystr :=
  [py "rpicam-vid"; py "-t"; py "0"; py "-n"; py "--codec"; py "mjpeg";
   py "--width"; py "1280"; py "--height"; py "720"; py "--framerate"; py "20";
   py "-o"; py "udp://127.0.0.1:5800"].

(** [start_stream], lines 29-57; the [Popen] handle is given by its pid. *)
Definition start_stream : M Z := popen command.

(** One turn of the preview loop. *)
Inductive tick : Type :=
  | Fault (e : exn)   (* a call of this turn raises *)
  | NoFrame           (* [cap.read()] gives no frame *)
  | Frame (key : Z).  (* a frame is shown; [cv2.waitKey(1)] *)

(** What [main] prints of the first frame. *)
Record frame_info : Type := {
  frame_w : Z;
  frame_h : Z;
  frame_dtype : pystr
}.

(** What the outside decides in one run of [main]. *)
Record env : Type := {
  nap : option exn;          (* is the first sleep interrupted *)
  startup : list pystr;      (* what [readline] returns, call by call,
                                decoded; an empty one is the end of output *)
  warmup : option exn;       (* is the 2 s sleep interrupted *)
  capture : exn + bool;      (* [open_capture] raises, or [cap.isOpened()] *)
  first_read : exn + option frame_info;  (* the first [cap.read()] *)
  ticks : list tick;
  release_fault : option exn;
  destroy_fault : option exn;
  child_dies : bool          (* does rpicam-vid end by itself (no camera,
                                camera busy) while the script runs *)
}.

(** The child ends by itself.  The script does not look at the child
    before the [finally] block, so the moment does not matter; it is
    taken right after the start. *)
Definition child_may_end (pid : Z) (ended : bool) : M unit := fun w =>
  if ended then (Done tt, set_procs (delete pid (procs w)) w) else (Done tt, w).

(** Lines 111-115: up to [n] lines of the child are echoed; a call of
    [readline] that nothing answers blocks. *)
Fixpoint echo_startup (n : nat) (lines : list pystr) : M unit :=
  match n with
  | O => mret tt
  | S n' =>
      match lines with
      | [] => starve
      | [] :: _ => mret tt
      | line :: rest => print (rstrip line) ;; echo_startup n' rest
      end
  end.

(** The [while True] of lines 138-145. *)
Fixpoint loop (ts : list tick) : M unit :=
  match ts with
  | [] => starve
  | Fault e :: _ => raise e
  | NoFrame :: _ => print (py "Stream ended or frame not available.")
  | Frame key :: rest =>
      emit (Imshow (py "Over UDP (MJPEG)") []) ;;
      if (Z.land key 0xFF =? 113)%Z then mret tt else loop rest
  end.

(** The [try] block of [main], lines 109-148.  Its value is the exit
    status: no handler stands between a [sys.exit(n)] and the [finally]
    block, so [sys.exit(n)] is the end of the block with status [n]. *)
Definition body (e : env) : M Z :=
  sleep 200 (nap e) ;;
  echo_startup 6 (startup e) ;;
  sleep 2000 (warmup e) ;;
  opened ← match capture e with
           | inl x => raise x
           | inr b => mret b
           end ;
  if negb opened then
    print (py "ERROR: OpenCV could not open UDP stream.") ;;
    print (py "Check if rpicam-vid is running and camera is free.") ;;
    mret 1%Z
  else
    print (py "OpenCV capture is opened. Trying to grab one frame...") ;;
    got ← match first_read e with
          | inl x => raise x
          | inr f => mret f
          end ;
    match got with
    | None =>
        print (py "ERROR: Failed to read a frame from the UDP stream.") ;;
        print (py "If this persists, verify no other process owns the camera and that rpicam-vid is not printing errors.") ;;
        mret 2%Z
    | Some f =>
        print (py "Got one frame: " ++ str_of_int (frame_w f) ++ py "x"
               ++ str_of_int (frame_h f) ++ py ", dtype=" ++ frame_dtype f) ;;
        print (py "Press 'q' in the window to quit.") ;;
        loop (ticks e) ;;
        fallible Release (release_fault e) ;;
        fallible DestroyAllWindows (destroy_fault e) ;;
        mret 0%Z
    end.

(** [main], lines 92-152. *)
Definition main (e : env) : M Z :=
  print (py "Starting rpicam-vid; waiting 2 s for camera to come online...") ;;
  proc ← start_stream ;
  child_may_end proc (child_dies e) ;;
  try_finally (body e)
    (stop_stream (Some proc) ;; print (py "rpicam-vid stopped; exiting.")).

End video_stream.

(** ** ocr_reader.py *)

Module ocr_reader.

Definition TCP_URL : pystr := py "tcp://127.0.0.1:5800".
Definition OCR_EVERY : Z := 5.
Definition HISTORY : nat := 15.
Definition REQUIRED : nat := 4.
Definition PLATE_MIN : nat := 5.
Definition PLATE_MAX : nat := 8.

Definition allowed : pystr := py "ABCDEFGHIJKLMNOPQRSTUVWXYZ0123456789".

(** One turn of the capture loop, as the outside decides it. *)
Inductive tick : Type :=
  | Fault (e : exn)       (* [cap.read()] raises, after the grabs of this turn *)
  | NoFrame               (* [cap.read()] gives no frame *)
  | Frame (txt_a txt_b : pystr)  (* what the recogniser reads in the two variants *)
          (key : Z)              (* [cv2.waitKey(1)] *)
          (now : pystr).         (* the formatted time of this turn *)

(** Everything else the outside decides in one run of [main]. *)
Record env : Type := {
  tesseract : option pystr;  (* the version text, or the check failed *)
  warmup : option exn;       (* is the sleep after the start interrupted *)
  capture : exn + bool;      (* [open_capture] raises, or [cap.isOpened()] *)
  ticks : list tick;
  release_fault : option exn;  (* does [cap.release()] raise *)
  destroy_fault : option exn   (* does [cv2.destroyAllWindows()] raise *)
}.

(** [flush_frames], lines 68-77. *)
Fixpoint flush_frames (grabs : nat) : M unit :=
  match grabs with
  | O => mret tt
  | S n => emit Grab ;; flush_frames n
  end.

(** The acceptance test of line 202. *)
Definition accepts (plate : pystr) : bool :=
  (PLATE_MIN <=? length plate)%nat && (length plate <=? PLATE_MAX)%nat.

(** Lines 202-204: the candidate enters the window if its length fits. *)
Definition offer (hist : list pystr) (plate : pystr) : M (list pystr) :=
  if accepts plate then
    let hist := deque_append HISTORY hist plate in
    print (py "OCR: " ++ plate) ;; mret hist
  else mret hist.

(** Lines 206-211: the value of [stable]; the empty string stands for
    no stable reading. *)
Definition stable (hist : list pystr) : pystr :=
  match hist with
  | [] => []
  | _ =>
      match most_common_1 (Counter hist) with
      | (best, cnt) :: _ => if (REQUIRED <=? cnt)%nat then best else []
      | [] => []
      end
  end.

Section Recogniser.
Variable unicode_upper : N -> pystr.

(** [normalize_plate], lines 100-111. *)
Definition normalize_plate (s : pystr) : pystr :=
  let s := replace_char 0x20 [] (strip (upper unicode_upper s)) in
  let s := replace_char 0x7C (py "1") (replace_char 0x4F (py "0") s) in
  List.filter (fun ch => in_str ch allowed) s.

(** [ocr_best], lines 114-130.  The image operations and the two calls of
    the text recogniser are external; [txt_a] and [txt_b] are the raw
    strings the recogniser returns for the two binarised variants. *)
Definition ocr_best (txt_a txt_b : pystr) : pystr :=
  let norm_a := normalize_plate txt_a in
  let norm_b := normalize_plate txt_b in
  if (length norm_b <=? length norm_a)%nat then norm_a else norm_b.

(** The [while True] of lines 179-222, one turn per recorded tick.  It
    ends by [break] (giving the window as it stands), by an exception, or
    starves when the ticks run out.  The view that the s key saves is
    stood for by its label. *)
Fixpoint loop (ts : list tick) (hist : list pystr) (frame_id : Z)
    : M (list pystr) :=
  match ts with
  | [] => starve
  | t :: rest =>
      match t with
      | Fault e => flush_frames 4 ;; raise e
      | NoFrame =>
          flush_frames 4 ;; sleep 10 None ;; loop rest hist frame_id
      | Frame txt_a txt_b key now =>
          flush_frames 4 ;;
          let frame_id := (frame_id + 1)%Z in
          hist ← (if (frame_id mod OCR_EVERY =? 0)%Z
                  then offer hist (ocr_best txt_a txt_b)
                  else mret hist) ;
          let label := stable hist in
          emit (Imshow (py "LPR (low latency)")
                  (match label with [] => py "(reading...)" | _ => label end)) ;;
          let key := Z.land key 0xFF in
          if (key =? 113)%Z then mret hist
          else
            (if (key =? 115)%Z then
               let name := py "lpr_" ++ now ++ py ".jpg" in
               cv2_imwrite name
                 (match label with [] => py "(reading...)" | _ => label end) ;;
               print (py "Saved " ++ name)
             else mret tt) ;;
            loop rest hist frame_id
      end
  end.

(** [main], lines 152-227. *)
Definition main (e : env) : M unit :=
  match tesseract e with
  | Some v => print (py "Tesseract: " ++ v)
  | None => print (py "Tesseract check failed (continuing)...")
  end ;;
  stream_control.start_stream stream_control.defaults ;;
  sleep 700 (warmup e) ;;
  opened ← match capture e with
           | inl x => raise x
           | inr b => mret b
           end ;
  if negb opened then
    print (py "ERROR: cannot open TCP stream.") ;;
    stream_control.stop_stream stream_control.DEFAULT_PID
  else
    print (py "Press 'q' to quit, 's' to save.") ;;
    try_finally
      (loop (ticks e) [] 0 ;; mret tt)
      (fallible Release (release_fault e) ;;
       fallible DestroyAllWindows (destroy_fault e) ;;
       stream_control.stop_stream stream_control.DEFAULT_PID).

End Recogniser.

End ocr_reader.

(** ** detector.py *)

Module detector.

(** One turn of the detection loop. *)
Inductive tick : Type :=
  | Fault (e : exn)
  | NoFrame
  | Frame (key : Z).

Record env : Type := {
  warmup : option exn;
  capture : exn + bool;
  ticks : list tick;
  release_fault : option exn;
  destroy_fault : option exn
}.

(** The [while True] of lines 129-140. *)
Fixpoint loop (ts : list tick) : M unit :=
  match ts with
  | [] => starve
  | Fault e :: _ => raise e
  | NoFrame :: rest => sleep 20 None ;; loop rest
  | Frame key :: rest =>
      emit (Imshow (py "Detector") []) ;;
      if (Z.land key 0xFF =? 113)%Z then mret tt else loop rest
  end.

(** [main], lines 103-146. *)
Definition main (e : env) : M unit :=
  stream_control.start_stream stream_control.defaults ;;
  sleep 1000 (warmup e) ;;
  opened ← match capture e with
           | inl x => raise x
           | inr b => mret b
           end ;
  if negb opened then
    print (py "ERROR: cannot open UDP stream.") ;;
    stream_control.stop_stream stream_control.DEFAULT_PID
  else
    print (py "Press 'q' to quit.") ;;
    try_finally
      (loop (ticks e))
      (fallible Release (release_fault e) ;;
       fallible DestroyAllWindows (destroy_fault e) ;;
       stream_control.stop_stream stream_control.DEFAULT_PID).

End detector.

(** ** Notions the properties are stated with *)

(** [l.count(x)] *)
Definition occurrences {K : Type} `{EqDecision K} (x : K) (l : list K) : nat :=
  length (List.filter (fun y => bool_decide (y = x)) l).

(** [c[x]] on a [Counter]: the count of [x], zero if it has none. *)
Fixpoint counter_get {K : Type} `{EqDecision K} (c : list (K * nat)) (x : K) : nat :=
  match c with
  | [] => 0
  | (k, n) :: r => if decide (k = x) then n else counter_get r x
  end.

(** The recognition alphabet: upper-case letters and digits. *)
Definition is_plate_char (c : N) : bool :=
  ((0x41 <=? c) && (c <=? 0x5A))%N || ((0x30 <=? c) && (c <=? 0x39))%N.

(** What normalisation makes of one upper-cased character: the two
    substitutions, the alphabet kept, everything else dropped. *)
Definition normalized_char (c : N) : pystr :=
  if (c =? 0x4F)%N then py "0"
  else if (c =? 0x7C)%N then py "1"
  else if is_plate_char c then [c]
  else [].

(** The windows the capture loop can hold: [hist] starts as an empty
    [deque(maxlen=HISTORY)] and changes only through [offer]. *)
Inductive reachable : list pystr -> Prop :=
  | reachable_empty : reachable []
  | reachable_offer hist plate w hist' w' :
      reachable hist ->
      ocr_reader.offer hist plate w = (Done hist', w') ->
      reachable hist'.

(** A length the acceptance test lets through. *)
Definition plate_length (s : pystr) : Prop :=
  ocr_reader.PLATE_MIN <= length s <= ocr_reader.PLATE_MAX.

(** The upper-casing of a text without non-ASCII characters needs no
    table; the examples use the identity there. *)
Definition no_table (c : N) : pystr := [c].

(** A machine with rpicam-vid installed, no stream started and nothing
    else running. *)
Definition idle_world : world :=
  {| fs := ∅; procs := ∅; next_pid := 4242; installed := true;
     self_pgid := 100; trace := [] |}.

(** The calls a run added to the trace. *)
Definition new_events (before after : world) : list event :=
  drop (length (trace before)) (trace after).

(** Printing and removing a file: what [stop_stream] does besides
    signalling. *)
Definition is_bookkeeping (e : event) : bool :=
  match e with
  | Print _ | RemoveFile _ => true
  | _ => false
  end.

(** The stop protocol in the words of the specification, for a run of
    [stop] from [w] on the live process [pid]: the whole process group of
    [pid] is sent the graceful signal, then about 300 ms pass, and if the
    process is one that survives the graceful signal a forceful kill
    follows. *)
Definition graceful_group_stop (stop : M unit) (pid : Z) (w : world) : Prop :=
  forall p, procs w !! pid = Some p ->
    let evs := new_events w (stop w).2 in
    exists i j,
      evs !! i = Some (Killpg (pgid p) SIGTERM)
      /\ evs !! j = Some (Sleep 300)
      /\ i < j
      /\ (dies SIGTERM p = false ->
          exists k, j < k
            /\ (evs !! k = Some (Killpg (pgid p) SIGKILL)
                \/ evs !! k = Some (Kill pid SIGKILL))).

(** A machine on which a stream was started as pid 4242, with a helper
    process 4243 in its group; the streamer does not react to SIGTERM. *)
Definition hung_world : world :=
  {| fs := {[ stream_control.DEFAULT_PID := py "4242" ]};
     procs := {[ 4242%Z := {| pgid := 4242; permitted := true; ignores_term := true |};
                 4243%Z := {| pgid := 4242; permitted := true; ignores_term := false |} ]};
     next_pid := 4244; installed := true; self_pgid := 100; trace := [] |}.

(** A machine with a lock file left behind by a stream that is gone. *)
Definition stale_world : world :=
  {| fs := {[ stream_control.DEFAULT_PID := py "4242" ]};
     procs := ∅; next_pid := 4300; installed := true; self_pgid := 100;
     trace := [] |}.

(** A run of [ocr_reader.main] in which Ctrl-C arrives during the sleep
    that follows the start of the stream. *)
Definition interrupted_reader : ocr_reader.env :=
  {| ocr_reader.tesseract := Some (py "5.3.0");
     ocr_reader.warmup := Some KeyboardInterrupt;
     ocr_reader.capture := inr true;
     ocr_reader.ticks := [];
     ocr_reader.release_fault := None;
     ocr_reader.destroy_fault := None |}.

(** The same for [detector.main]. *)
Definition interrupted_detector : detector.env :=
  {| detector.warmup := Some KeyboardInterrupt;
     detector.capture := inr true;
     detector.ticks := [];
     detector.release_fault := None;
     detector.destroy_fault := None |}.

(** A statement that only adds to the trace. *)
Definition grows {A} (m : M A) : Prop :=
  forall w, trace w `prefix_of` trace (m w).2.

(** A run of [ocr_reader.main] on a machine without window support: the
    first [cv2.imshow] raises, and so does [cv2.destroyAllWindows]. *)
Definition headless_reader : ocr_reader.env :=
  {| ocr_reader.tesseract := Some (py "5.3.0");
     ocr_reader.warmup := None;
     ocr_reader.capture := inr true;
     ocr_reader.ticks := [ocr_reader.Fault cv2_error];
     ocr_reader.release_fault := None;
     ocr_reader.destroy_fault := Some cv2_error |}.

(** An ASCII decimal digit. *)
Definition is_digit (c : N) : Prop := (0x30 <= c <= 0x39)%N.

(** A machine whose lock file is empty, as an interrupted write leaves it. *)
Definition corrupt_world : world :=
  {| fs := {[ stream_control.DEFAULT_PID := [] ]};
     procs := ∅; next_pid := 4242; installed := true; self_pgid := 100;
     trace := [] |}.

(** A machine whose lock file names a process of somebody else. *)
Definition foreign_world : world :=
  {| fs := {[ stream_control.DEFAULT_PID := py "4242" ]};
     procs := {[ 4242%Z := {| pgid := 4000; permitted := false; ignores_term := false |} ]};
     next_pid := 4300; installed := true; self_pgid := 100; trace := [] |}.

(** A second supervisor, pointed at another URL and another lock file. *)
Definition second_stream : stream_control.config :=
  {| stream_control.url := py "tcp://127.0.0.1:5801?listen";
     stream_control.width := stream_control.DEFAULT_W;
     stream_control.height := stream_control.DEFAULT_H;
     stream_control.fps := stream_control.DEFAULT_FPS;
     stream_control.quality := stream_control.DEFAULT_QUALITY;
     stream_control.pid_file := py "other.pid" |}.

(** Two states of the machine that differ in the trace at most. *)
Definition same_system (w w' : world) : Prop :=
  fs w' = fs w /\ procs w' = procs w /\ next_pid w' = next_pid w
  /\ installed w' = installed w /\ self_pgid w' = self_pgid w.

(** The name of a view saved by ocr_reader.py: lpr_<time>.jpg. *)
Definition saved_view (path : pystr) : Prop :=
  exists stamp, path = py "lpr_" ++ stamp ++ py ".jpg".

(** Two states of the machine with the same processes, and the same files
    apart from saved views. *)
Definition saves_views (w w' : world) : Prop :=
  (procs w' = procs w /\ next_pid w' = next_pid w
   /\ installed w' = installed w /\ self_pgid w' = self_pgid w)
  /\ (forall path, ~ saved_view path -> fs w' !! path = fs w !! path).

(** A relation between the states before and after that holds when
    nothing happens, composes, and is not disturbed by the trace. *)
Class Quiet (sys : world -> world -> Prop) : Prop := {
  quiet_refl : forall w, sys w w;
  quiet_trans : forall w1 w2 w3, sys w1 w2 -> sys w2 w3 -> sys w1 w3;
  quiet_log : forall e w, sys w (log e w)
}.

(** A statement that changes the machine within [sys] only, adds to the
    trace only events that satisfy [Q], and returns only values that
    satisfy [R]. *)
Definition keeps {A} (sys : world -> world -> Prop)
    (Q : event -> Prop) (R : A -> Prop) (m : M A) : Prop :=
  forall w,
    sys w (m w).2
    /\ (exists evs, trace (m w).2 = trace w ++ evs /\ Forall Q evs)
    /\ (forall a, (m w).1 = Done a -> R a).

(** A signal sent to a process or to a process group. *)
Definition is_signal (e : event) : bool :=
  match e with
  | Kill _ _ | Killpg _ _ => true
  | _ => false
  end.

(** A window as the capture loop keeps it: at most HISTORY samples, each
    of an accepted length and over the recognition alphabet. *)
Definition window_ok (hist : list pystr) : Prop :=
  length hist <= ocr_reader.HISTORY
  /\ Forall (fun s => plate_length s /\ Forall (fun c => is_plate_char c = true) s)
       hist.

(** What the capture loop of ocr_reader.py may add to the trace: frame
    grabs, its 10 ms sleep, prints, views saved as lpr_<time>.jpg, and
    views labelled with the placeholder or with an accepted sample. *)
Definition reader_event (e : event) : Prop :=
  match e with
  | Grab | Print _ => True
  | Imwrite name => saved_view name
  | Sleep ms => ms = 10%Z
  | Imshow window label =>
      window = py "LPR (low latency)"
      /\ (label = py "(reading...)"
          \/ (plate_length label /\ Forall (fun c => is_plate_char c = true) label))
  | _ => False
  end.

(** An event that is not a view with a recognised plate. *)
Definition no_plate_shown (e : event) : Prop :=
  match e with
  | Imshow _ label => label = py "(reading...)"
  | _ => True
  end.

(** The number of turns of the capture loop in which a frame arrives. *)
Definition frames (ts : list ocr_reader.tick) : Z :=
  Z.of_nat (length (List.filter
    (fun t => match t with ocr_reader.Frame _ _ _ _ => true | _ => false end) ts)).

(** A run of [ocr_reader.main] in which the second frame cannot be
    decoded and the read raises. *)
Definition failing_reader : ocr_reader.env :=
  {| ocr_reader.tesseract := Some (py "5.3.0");
     ocr_reader.warmup := None;
     ocr_reader.capture := inr true;
     ocr_reader.ticks :=
       [ocr_reader.Frame (py "ab12cd") (py "a8") (-1) (py "t");
        ocr_reader.Fault cv2_error];
     ocr_reader.release_fault := None;
     ocr_reader.destroy_fault := None |}.

(** A run of [detector.main] that shows one frame and is ended with q. *)
Definition quitting_detector : detector.env :=
  {| detector.warmup := None;
     detector.capture := inr true;
     detector.ticks := [detector.NoFrame; detector.Frame 113];
     detector.release_fault := None;
     detector.destroy_fault := None |}.

(** A turn after which the capture loop of ocr_reader.py goes on: no
    exception, and no q among the keys. *)
Definition reader_goes_on (t : ocr_reader.tick) : Prop :=
  match t with
  | ocr_reader.Fault _ => False
  | ocr_reader.NoFrame => True
  | ocr_reader.Frame _ _ key _ => Z.land key 0xFF <> 113%Z
  end.

(** The same for the loop of detector.py. *)
Definition detector_goes_on (t : detector.tick) : Prop :=
  match t with
  | detector.Fault _ => False
  | detector.NoFrame => True
  | detector.Frame key => Z.land key 0xFF <> 113%Z
  end.

(** A run of [video_stream.main] in which Ctrl-C arrives during the 2 s
    sleep that follows the start of the stream. *)
Definition interrupted_preview : video_stream.env :=
  {| video_stream.nap := None;
     video_stream.startup := [py "[0:00:01] rpicam-vid starting "; []];
     video_stream.warmup := Some KeyboardInterrupt;
     video_stream.capture := inr true;
     video_stream.first_read := inr None;
     video_stream.ticks := [];
     video_stream.release_fault := None;
     video_stream.destroy_fault := None;
     video_stream.child_dies := false |}.

(** A run of [video_stream.main] without camera: rpicam-vid prints an
    error and ends by itself, the capture does not open and the script
    leaves through [sys.exit(1)]. *)
Definition no_camera_preview : video_stream.env :=
  {| video_stream.nap := None;
     video_stream.startup := [py "ERROR: *** no cameras available ***"; []];
     video_stream.warmup := None;
     video_stream.capture := inr false;
     video_stream.first_read := inr None;
     video_stream.ticks := [];
     video_stream.release_fault := None;
     video_stream.destroy_fault := None;
     video_stream.child_dies := true |}.

(** The world in which the process [pid], if there is one, answers
    SIGTERM as [stubborn] says: it ignores the signal, or ends on it. *)
Definition answering_term (pid : Z) (stubborn : bool) (w : world) : world :=
  set_procs
    (alter (fun p => {| pgid := pgid p; permitted := permitted p;
                        ignores_term := stubborn |}) pid (procs w)) w.

(** * Properties *)

(** ** Strings *)

(** A property of code points checked on the ASCII range by evaluation. *)
Lemma ascii_range_check (P : N -> bool) :
  forallb P (List.map N.of_nat (seq 0 128)) = true ->
  forall c : N, (c < 128)%N -> P c = true.
Proof.
  intros Hall c Hc. rewrite forallb_forall in Hall. apply Hall.
  apply in_map_iff. exists (N.to_nat c). split; [lia |].
  apply in_seq. lia.
Qed.

Lemma in_str_high (c : N) (s : pystr) :
  (128 <= c)%N -> Forall (fun k => (k < 128)%N) s -> in_str c s = false.
Proof.
  intros Hc Hs. unfold in_str. induction Hs as [| k r Hk _ IH]; [reflexivity |].
  cbn [existsb]. rewrite IH, orb_false_r. apply N.eqb_neq. lia.
Qed.

Lemma is_plate_char_high (c : N) : (128 <= c)%N -> is_plate_char c = false.
Proof.
  intros Hc. unfold is_plate_char.
  destruct (N.leb_spec c 0x5A); [lia |]. destruct (N.leb_spec c 0x39); [lia |].
  now rewrite !andb_false_r.
Qed.

Lemma in_str_allowed (c : N) : in_str c ocr_reader.allowed = is_plate_char c.
Proof.
  destruct (N.lt_ge_cases c 128) as [Hlo | Hhi].
  - apply eqb_prop.
    apply (ascii_range_check
             (fun c => eqb (in_str c ocr_reader.allowed) (is_plate_char c)));
      [vm_compute; reflexivity | exact Hlo].
  - rewrite is_plate_char_high by exact Hhi. apply in_str_high; [exact Hhi |].
    apply (bool_decide_unpack _). vm_compute. exact I.
Qed.

Lemma space_is_dropped (c : N) : is_space c = true -> normalized_char c = [].
Proof.
  intros Hs. destruct (N.lt_ge_cases c 128) as [Hlo | Hhi].
  - pose proof (ascii_range_check
      (fun c => implb (is_space c)
                  (match normalized_char c with [] => true | _ => false end))
      ltac:(vm_compute; reflexivity) c Hlo) as H.
    cbn beta in H. rewrite Hs in H. cbn [implb] in H.
    now destruct (normalized_char c).
  - unfold normalized_char. rewrite is_plate_char_high by exact Hhi.
    destruct (N.eqb_spec c 0x4F); [lia |]. destruct (N.eqb_spec c 0x7C); [lia |].
    reflexivity.
Qed.

Lemma flat_map_lstrip (s : pystr) :
  flat_map normalized_char (lstrip s) = flat_map normalized_char s.
Proof.
  induction s as [| c r IH]; [reflexivity |].
  cbn [lstrip]. destruct (is_space c) eqn:Hc; [| reflexivity].
  cbn [flat_map]. now rewrite (space_is_dropped c Hc), IH.
Qed.

Lemma flat_map_rstrip (s : pystr) :
  flat_map normalized_char (rstrip s) = flat_map normalized_char s.
Proof.
  induction s as [| c r IH]; [reflexivity |].
  cbn [rstrip flat_map]. rewrite <- IH.
  destruct (rstrip r) as [| d r']; [| reflexivity].
  destruct (is_space c) eqn:Hc; cbn [flat_map].
  - now rewrite (space_is_dropped c Hc).
  - reflexivity.
Qed.

Lemma substitute_then_filter (s : pystr) :
  List.filter (fun ch => in_str ch ocr_reader.allowed)
    (replace_char 0x7C (py "1") (replace_char 0x4F (py "0")
       (replace_char 0x20 [] s)))
  = flat_map normalized_char s.
Proof.
  induction s as [| c r IH]; [reflexivity |].
  unfold replace_char in *. cbn [flat_map].
  rewrite !List.flat_map_app, List.filter_app, IH. f_equal.
  unfold normalized_char.
  destruct (N.eqb_spec c 0x20) as [-> | H20]; [reflexivity |].
  cbn [flat_map app].
  destruct (N.eqb_spec c 0x4F) as [-> | H4F]; [reflexivity |].
  cbn [flat_map app].
  destruct (N.eqb_spec c 0x7C) as [-> | H7C]; [reflexivity |].
  cbn [List.filter app]. rewrite in_str_allowed.
  now destruct (is_plate_char c).
Qed.

(** ** Normalisation and candidate selection *)

Section RecogniserFacts.
Variable unicode_upper : N -> pystr.

Local Abbreviation normalize_plate := (ocr_reader.normalize_plate unicode_upper).
Local Abbreviation ocr_best := (ocr_reader.ocr_best unicode_upper).

Lemma normalize_plate_by_char (s : pystr) :
  normalize_plate s = flat_map normalized_char (upper unicode_upper s).
Proof.
  unfold ocr_reader.normalize_plate.
  rewrite substitute_then_filter. unfold strip.
  now rewrite flat_map_rstrip, flat_map_lstrip.
Qed.

Lemma normalize_plate_alphabet (s : pystr) :
  Forall (fun c => is_plate_char c = true) (normalize_plate s).
Proof.
  unfold ocr_reader.normalize_plate. apply List.Forall_forall.
  intros c Hc. apply List.filter_In in Hc as [_ Hc].
  now rewrite in_str_allowed in Hc.
Qed.

(** C6: [normalize_plate] is a function of its argument alone: the
    upper-cased text, character by character, has "O" replaced by "0" and
    "|" by "1", keeps the letters A-Z and the digits 0-9 as they are and
    loses every other character, white space included; what comes out is
    made of A-Z and 0-9 only; and [normalize("o1|b")] is "011B". *)
Theorem normalize_plate_spec (s : pystr) :
  normalize_plate s = flat_map normalized_char (upper unicode_upper s)
  /\ Forall (fun c => is_plate_char c = true) (normalize_plate s)
  /\ normalize_plate (py "o1|b") = py "011B".
Proof.
  split; [apply normalize_plate_by_char |].
  split; [apply normalize_plate_alphabet |].
  reflexivity.
Qed.

(** C7: [ocr_best] gives the longer of the two normalised readings: the
    first one when it is strictly longer, the second one when that is
    strictly longer. *)
Theorem ocr_best_longer (txt_a txt_b : pystr) :
  (length (normalize_plate txt_b) < length (normalize_plate txt_a) ->
   ocr_best txt_a txt_b = normalize_plate txt_a)
  /\ (length (normalize_plate txt_a) < length (normalize_plate txt_b) ->
      ocr_best txt_a txt_b = normalize_plate txt_b).
Proof.
  unfold ocr_reader.ocr_best. split; intros Hlt.
  - destruct (Nat.leb_spec (length (normalize_plate txt_b))
                           (length (normalize_plate txt_a))); [reflexivity | lia].
  - destruct (Nat.leb_spec (length (normalize_plate txt_b))
                           (length (normalize_plate txt_a))); [lia | reflexivity].
Qed.

(** On a tie the first variant wins. *)
Lemma ocr_best_tie (txt_a txt_b : pystr) :
  length (normalize_plate txt_a) = length (normalize_plate txt_b) ->
  ocr_best txt_a txt_b = normalize_plate txt_a.
Proof.
  intros Heq. unfold ocr_reader.ocr_best. rewrite Heq, Nat.leb_refl. reflexivity.
Qed.

End RecogniserFacts.

Lemma ocr_best_longer_witness :
  ocr_reader.ocr_best no_table (py "ab 1234") (py "a8")
    = ocr_reader.normalize_plate no_table (py "ab 1234")
  /\ ocr_reader.ocr_best no_table (py "7") (py "xy|99zz")
    = ocr_reader.normalize_plate no_table (py "xy|99zz").
Proof.
  split.
  - apply (proj1 (ocr_best_longer no_table (py "ab 1234") (py "a8"))).
    vm_compute. lia.
  - apply (proj2 (ocr_best_longer no_table (py "7") (py "xy|99zz"))).
    vm_compute. lia.
Defined.

(** ** Counting and voting *)

Section CounterFacts.
Context {K : Type} `{EqDecision K}.
Implicit Types (c : list (K * nat)) (l : list K) (x y : K).

Lemma occurrences_app x l1 l2 :
  occurrences x (l1 ++ l2) = occurrences x l1 + occurrences x l2.
Proof. unfold occurrences. now rewrite List.filter_app, length_app. Qed.

Lemma occurrences_cons x y l :
  occurrences x (y :: l) = (if decide (y = x) then 1 else 0) + occurrences x l.
Proof.
  unfold occurrences. cbn [List.filter].
  destruct (decide (y = x)) as [Heq | Hne].
  - now rewrite bool_decide_eq_true_2.
  - now rewrite bool_decide_eq_false_2.
Qed.

Lemma occurrences_le_length x l : occurrences x l <= length l.
Proof. unfold occurrences. apply List.filter_length_le. Qed.

Lemma counter_get_add c x y :
  counter_get (counter_add c x) y
  = (if decide (x = y) then 1 else 0) + counter_get c y.
Proof.
  induction c as [| [k n] r IH]; cbn [counter_add counter_get].
  - destruct (decide (x = y)); reflexivity.
  - destruct (decide (k = x)) as [-> | Hkx]; cbn [counter_get].
    + destruct (decide (x = y)); reflexivity.
    + destruct (decide (k = y)) as [-> | Hky]; [| exact IH].
      destruct (decide (x = y)); [congruence | reflexivity].
Qed.

(** The counter of a list holds, for every item, its number of occurrences. *)
Lemma counter_get_fold l c x :
  counter_get (fold_left counter_add l c) x = counter_get c x + occurrences x l.
Proof.
  revert c. induction l as [| y l IH]; intros c; cbn [fold_left].
  - unfold occurrences. cbn. lia.
  - rewrite IH, counter_get_add, occurrences_cons. lia.
Qed.

Lemma counter_get_Counter l x : counter_get (Counter l) x = occurrences x l.
Proof. unfold Counter. now rewrite counter_get_fold. Qed.

Lemma counter_add_keys c x :
  (counter_add c x).*1 = if bool_decide (x ∈ c.*1) then c.*1 else c.*1 ++ [x].
Proof.
  induction c as [| [k n] r IH]; cbn [counter_add fmap list_fmap fst].
  - rewrite bool_decide_eq_false_2; [reflexivity | apply not_elem_of_nil].
  - destruct (decide (k = x)) as [-> | Hkx]; cbn [fmap list_fmap fst].
    + rewrite bool_decide_eq_true_2; [reflexivity | apply list_elem_of_here].
    + fold (fmap (M := list) (@fst K nat)). rewrite IH.
      destruct (decide (x ∈ r.*1)) as [Hin | Hout].
      * rewrite !bool_decide_eq_true_2; [reflexivity | | exact Hin].
        now apply list_elem_of_further.
      * rewrite !bool_decide_eq_false_2; [reflexivity | | exact Hout].
        rewrite elem_of_cons. intros [-> | ?]; congruence.
Qed.

Lemma counter_add_NoDup c x : NoDup c.*1 -> NoDup (counter_add c x).*1.
Proof.
  intros Hnd. rewrite counter_add_keys. case_bool_decide as Hin; [exact Hnd |].
  apply NoDup_app. repeat split; [exact Hnd | | apply NoDup_singleton].
  intros y Hy Hy'. apply list_elem_of_singleton in Hy'. now subst.
Qed.

Lemma Counter_NoDup l : NoDup (Counter l).*1.
Proof.
  unfold Counter. generalize (NoDup_nil_2 (A := K)).
  change (@nil K) with ((@nil (K * nat)).*1).
  generalize (@nil (K * nat)). induction l as [| y l IH]; intros c Hc; cbn.
  - exact Hc.
  - apply IH. now apply counter_add_NoDup.
Qed.

Lemma counter_get_of_entry c k n :
  NoDup c.*1 -> (k, n) ∈ c -> counter_get c k = n.
Proof.
  induction c as [| [k' n'] r IH]; intros Hnd Hin.
  - now apply elem_of_nil in Hin.
  - cbn in Hnd. apply NoDup_cons in Hnd as [Hfresh Hnd].
    cbn [counter_get]. apply elem_of_cons in Hin as [Heq | Hin].
    + injection Heq as -> ->. now rewrite decide_True.
    + rewrite decide_False; [now apply IH |].
      intros ->. apply Hfresh. apply list_elem_of_fmap. now exists (k, n).
Qed.

Lemma counter_entry_of_get c x :
  0 < counter_get c x -> (x, counter_get c x) ∈ c.
Proof.
  induction c as [| [k n] r IH]; cbn [counter_get]; intros Hpos; [lia |].
  destruct (decide (k = x)) as [-> | Hne].
  - apply list_elem_of_here.
  - apply list_elem_of_further. now apply IH.
Qed.

Lemma max_by_count_spec (best : K * nat) c :
  max_by_count best c ∈ best :: c
  /\ (forall kn, kn ∈ best :: c -> kn.2 <= (max_by_count best c).2).
Proof.
  revert best. induction c as [| kn r IH]; intros best; cbn [max_by_count].
  - split; [apply list_elem_of_here |].
    intros kn Hkn. apply list_elem_of_singleton in Hkn. now subst.
  - destruct (IH (if (best.2 <? kn.2)%nat then kn else best)) as [Hin Hmax].
    split.
    + apply elem_of_cons in Hin as [-> | Hin].
      * destruct (best.2 <? kn.2)%nat;
          [apply list_elem_of_further |]; apply list_elem_of_here.
      * now do 2 apply list_elem_of_further.
    + intros kn' Hkn'.
      assert (Hpick : (if (best.2 <? kn.2)%nat then kn else best).2
                      <= (max_by_count (if (best.2 <? kn.2)%nat then kn else best) r).2)
        by (apply Hmax, list_elem_of_here).
      apply elem_of_cons in Hkn' as [-> | Hkn'].
      * destruct (Nat.ltb_spec best.2 kn.2); lia.
      * apply elem_of_cons in Hkn' as [-> | Hkn'].
        -- destruct (Nat.ltb_spec best.2 kn.2); lia.
        -- apply Hmax. now apply list_elem_of_further.
Qed.

(** [Counter(l).most_common(1)] is empty for an empty list only; otherwise
    it names an item of greatest count, with that count. *)
Lemma most_common_1_spec l :
  match most_common_1 (Counter l) with
  | [] => l = []
  | (best, cnt) :: _ =>
      cnt = occurrences best l /\ 0 < cnt
      /\ forall x, occurrences x l <= cnt
  end.
Proof.
  pose proof (Counter_NoDup l) as Hnd.
  pose proof (counter_get_Counter l) as Hget.
  destruct (Counter l) as [| kn r] eqn:Hc; cbn [most_common_1].
  - destruct l as [| y l]; [reflexivity |].
    specialize (Hget y). rewrite occurrences_cons, decide_True in Hget by reflexivity.
    cbn in Hget. lia.
  - destruct (max_by_count_spec kn r) as [Hin Hmax].
    destruct (max_by_count kn r) as [best cnt] eqn:Hbest. cbn in Hmax.
    assert (Hcnt : cnt = occurrences best l).
    { rewrite <- Hget. symmetry. now apply counter_get_of_entry. }
    assert (Hall : forall x, occurrences x l <= cnt).
    { intros x. rewrite <- Hget.
      destruct (Nat.eq_dec (counter_get (kn :: r) x) 0) as [-> | Hpos]; [lia |].
      apply (Hmax (x, counter_get (kn :: r) x)).
      apply counter_entry_of_get. lia. }
    split; [exact Hcnt |]. split; [| exact Hall].
    destruct l as [| y l].
    + unfold Counter in Hc. cbn in Hc. discriminate.
    + specialize (Hall y).
      rewrite occurrences_cons, decide_True in Hall by reflexivity. lia.
Qed.

End CounterFacts.

Lemma occurrences_elem_of {K : Type} `{EqDecision K} (x : K) (l : list K) :
  0 < occurrences x l -> x ∈ l.
Proof.
  induction l as [| y l IH]; [unfold occurrences; cbn; lia |].
  rewrite occurrences_cons. destruct (decide (y = x)) as [-> | Hne].
  - intros _. apply list_elem_of_here.
  - intros Hpos. apply list_elem_of_further, IH. lia.
Qed.

(** What [stable] returns, in terms of the counts in the window. *)
Lemma stable_cases (hist : list pystr) :
  (ocr_reader.stable hist = []
   /\ forall s, ocr_reader.REQUIRED <= occurrences s hist -> s = [])
  \/ (ocr_reader.REQUIRED <= occurrences (ocr_reader.stable hist) hist
      /\ forall s, occurrences s hist <= occurrences (ocr_reader.stable hist) hist).
Proof.
  unfold ocr_reader.stable. pose proof (most_common_1_spec hist) as Hmc.
  destruct hist as [| p hist'].
  - left. split; [reflexivity |]. intros s. unfold occurrences, ocr_reader.REQUIRED.
    cbn. lia.
  - destruct (most_common_1 (Counter (p :: hist'))) as [| [best cnt] rest];
      [discriminate Hmc |].
    destruct Hmc as (Hcnt & Hpos & Hmax).
    destruct (Nat.leb_spec ocr_reader.REQUIRED cnt) as [Hge | Hlt].
    + right. rewrite <- Hcnt. split; [exact Hge | exact Hmax].
    + left. split; [reflexivity |]. intros s Hs. specialize (Hmax s). lia.
Qed.

(** C1: [stable] gives a value only when the most frequent sample of the
    window occurs at least REQUIRED times, and that value is then a most
    frequent sample; when no sample reaches REQUIRED it gives the empty
    string, which stands for Absent.  With HISTORY = 15 and REQUIRED = 4
    the window "AB12CD", "AB12CD", "AB12CD", "XY99ZZ" gives Absent: its
    greatest count is 3. *)
Theorem stable_threshold (hist : list pystr) :
  (ocr_reader.stable hist <> [] ->
     ocr_reader.REQUIRED <= occurrences (ocr_reader.stable hist) hist
     /\ forall s, occurrences s hist <= occurrences (ocr_reader.stable hist) hist)
  /\ ((forall s, occurrences s hist < ocr_reader.REQUIRED) ->
      ocr_reader.stable hist = [])
  /\ (ocr_reader.HISTORY = 15 /\ ocr_reader.REQUIRED = 4
      /\ occurrences (py "AB12CD")
           [py "AB12CD"; py "AB12CD"; py "AB12CD"; py "XY99ZZ"] = 3
      /\ ocr_reader.stable
           [py "AB12CD"; py "AB12CD"; py "AB12CD"; py "XY99ZZ"] = []).
Proof.
  split; [| split].
  - intros Hval. destruct (stable_cases hist) as [[Hnone _] | Hsome];
      [contradiction | exact Hsome].
  - intros Hlow. destruct (stable_cases hist) as [[Hnone _] | [Hge _]];
      [exact Hnone |].
    specialize (Hlow (ocr_reader.stable hist)). lia.
  - repeat split; reflexivity.
Qed.

Lemma stable_threshold_witness :
  (ocr_reader.REQUIRED
     <= occurrences (py "AB12CD")
          [py "AB12CD"; py "XY99ZZ"; py "AB12CD"; py "AB12CD"; py "AB12CD"])
  /\ ocr_reader.stable [py "AB12CD"; py "XY99ZZ"] = [].
Proof.
  split.
  - apply (proj1 (stable_threshold
             [py "AB12CD"; py "XY99ZZ"; py "AB12CD"; py "AB12CD"; py "AB12CD"])).
    vm_compute. discriminate.
  - apply (proj1 (proj2 (stable_threshold [py "AB12CD"; py "XY99ZZ"]))).
    intros s. pose proof (occurrences_le_length s [py "AB12CD"; py "XY99ZZ"]) as Hle.
    cbn [length] in Hle. unfold ocr_reader.REQUIRED. lia.
Defined.

(** A sample that reaches REQUIRED makes [stable] name a most frequent
    sample (the other half of the threshold rule). *)
Lemma stable_found (hist : list pystr) (s : pystr) :
  s <> [] -> ocr_reader.REQUIRED <= occurrences s hist ->
  ocr_reader.REQUIRED <= occurrences (ocr_reader.stable hist) hist
  /\ forall x, occurrences x hist <= occurrences (ocr_reader.stable hist) hist.
Proof.
  intros Hne Hs. destruct (stable_cases hist) as [[_ Hnone] | Hsome];
    [| exact Hsome].
  now apply Hnone in Hs.
Qed.

(** ** The bounded window *)

Section DequeFacts.
Context {K : Type}.
Implicit Types (d : list K) (x : K).

Lemma deque_append_room maxlen d x :
  length d < maxlen -> deque_append maxlen d x = d ++ [x].
Proof.
  intros Hlt. unfold deque_append. rewrite length_app. cbn [length].
  destruct (Nat.ltb_spec maxlen (length d + 1)); [lia | reflexivity].
Qed.

Lemma deque_append_full maxlen d x :
  maxlen <= length d -> deque_append maxlen d x = List.tl (d ++ [x]).
Proof.
  intros Hge. unfold deque_append. rewrite length_app. cbn [length].
  destruct (Nat.ltb_spec maxlen (length d + 1)); [reflexivity | lia].
Qed.

Lemma deque_append_length maxlen d x :
  length d <= maxlen -> length (deque_append maxlen d x) <= maxlen.
Proof.
  intros Hle. unfold deque_append.
  destruct (Nat.ltb_spec maxlen (length (d ++ [x]))) as [Hover | Hfit];
    [| exact Hfit].
  rewrite length_app in Hover. cbn [length] in Hover.
  destruct d as [| y d]; cbn in *; [lia |]. rewrite length_app. cbn. lia.
Qed.

Lemma deque_append_Forall (P : K -> Prop) maxlen d x :
  Forall P d -> P x -> Forall P (deque_append maxlen d x).
Proof.
  intros Hd Hx. assert (Hall : Forall P (d ++ [x])).
  { apply Forall_app. split; [exact Hd | now apply Forall_singleton]. }
  unfold deque_append. destruct (maxlen <? length (d ++ [x]))%nat; [| exact Hall].
  destruct (d ++ [x]) as [| y r]; [exact Hall |]. cbn.
  now apply Forall_cons in Hall as [_ Hall].
Qed.

Lemma deque_append_last maxlen d x :
  0 < maxlen -> last (deque_append maxlen d x) = Some x.
Proof.
  intros Hpos. unfold deque_append. rewrite length_app. cbn [length].
  destruct (Nat.ltb_spec maxlen (length d + 1)) as [Hover | _];
    [| apply last_snoc].
  destruct d as [| y d]; cbn in *; [lia | apply last_snoc].
Qed.

End DequeFacts.

Lemma accepts_plate_length (plate : pystr) :
  ocr_reader.accepts plate = true <-> plate_length plate.
Proof.
  unfold ocr_reader.accepts, plate_length.
  rewrite andb_true_iff, !Nat.leb_le. reflexivity.
Qed.

Lemma offer_accepted hist plate w :
  ocr_reader.accepts plate = true ->
  ocr_reader.offer hist plate w
  = (Done (deque_append ocr_reader.HISTORY hist plate),
     log (Print (py "OCR: " ++ plate)) w).
Proof. intros Hacc. unfold ocr_reader.offer. now rewrite Hacc. Qed.

Lemma offer_rejected hist plate w :
  ocr_reader.accepts plate = false ->
  ocr_reader.offer hist plate w = (Done hist, w).
Proof. intros Hrej. unfold ocr_reader.offer. now rewrite Hrej. Qed.

(** The window after an accepted offer, written out: the candidate comes
    last, behind the whole old window if that has room, behind the old
    window without its oldest sample if it is full. *)
Lemma deque_append_spelled {K : Type} (maxlen : nat) (d : list K) (x : K) :
  0 < maxlen ->
  deque_append maxlen d x
  = if (length d <? maxlen)%nat then d ++ [x] else List.tl d ++ [x].
Proof.
  intros Hpos. destruct (Nat.ltb_spec (length d) maxlen) as [Hroom | Hfull].
  - now apply deque_append_room.
  - rewrite deque_append_full by exact Hfull.
    destruct d as [| y d]; [cbn in Hfull; lia | reflexivity].
Qed.

(** C2: [offer] appends the candidate to the bounded window (and reports
    it) exactly when its length lies within PLATE_MIN..PLATE_MAX: the new
    window is then the old one followed by the candidate, without its
    oldest sample if it was full; otherwise the window and the console
    stay as they were.  With PLATE_MIN = 5 and PLATE_MAX = 8 a candidate
    of length 4 is rejected and one of length 6 is accepted. *)
Theorem offer_length_filter (hist : list pystr) (plate : pystr) (w : world) :
  (plate_length plate ->
     ocr_reader.offer hist plate w
     = (Done (if (length hist <? ocr_reader.HISTORY)%nat
              then hist ++ [plate] else List.tl hist ++ [plate]),
        log (Print (py "OCR: " ++ plate)) w))
  /\ (~ plate_length plate -> ocr_reader.offer hist plate w = (Done hist, w))
  /\ (ocr_reader.PLATE_MIN = 5 /\ ocr_reader.PLATE_MAX = 8)
  /\ (length plate = 4 -> ocr_reader.offer hist plate w = (Done hist, w))
  /\ (length plate = 6 ->
      ocr_reader.offer hist plate w
      = (Done (if (length hist <? ocr_reader.HISTORY)%nat
               then hist ++ [plate] else List.tl hist ++ [plate]),
         log (Print (py "OCR: " ++ plate)) w)).
Proof.
  assert (Hacc : ocr_reader.accepts plate = true ->
            ocr_reader.offer hist plate w
            = (Done (if (length hist <? ocr_reader.HISTORY)%nat
                     then hist ++ [plate] else List.tl hist ++ [plate]),
               log (Print (py "OCR: " ++ plate)) w)).
  { intros Hyes. rewrite offer_accepted by exact Hyes.
    rewrite deque_append_spelled; [reflexivity |].
    unfold ocr_reader.HISTORY. lia. }
  split; [| split; [| split; [| split]]].
  - intros Hlen. now apply Hacc, accepts_plate_length.
  - intros Hlen. apply offer_rejected.
    destruct (ocr_reader.accepts plate) eqn:Hyes; [| reflexivity].
    now apply accepts_plate_length in Hyes.
  - split; reflexivity.
  - intros Hlen. apply offer_rejected. unfold ocr_reader.accepts.
    rewrite Hlen. reflexivity.
  - intros Hlen. apply Hacc. unfold ocr_reader.accepts.
    rewrite Hlen. reflexivity.
Qed.

(** An accepted candidate behind a window with room, a rejected one, and
    an accepted one that displaces the oldest sample of a full window. *)
Lemma offer_length_filter_witness :
  ocr_reader.offer [py "AB12CD"; py "AB12CE"] (py "XY99ZZ") idle_world
    = (Done [py "AB12CD"; py "AB12CE"; py "XY99ZZ"],
       log (Print (py "OCR: XY99ZZ")) idle_world)
  /\ ocr_reader.offer [py "AB12CD"] (py "AB12") idle_world
     = (Done [py "AB12CD"], idle_world)
  /\ ocr_reader.offer [py "AB12CD"] (py "7XYZ") idle_world
     = (Done [py "AB12CD"], idle_world)
  /\ ocr_reader.offer (py "FIRST" :: repeat (py "AB12CD") 14) (py "XY99ZZ")
       idle_world
     = (Done (repeat (py "AB12CD") 14 ++ [py "XY99ZZ"]),
        log (Print (py "OCR: XY99ZZ")) idle_world).
Proof.
  split; [| split; [| split]].
  - apply (proj1 (offer_length_filter [py "AB12CD"; py "AB12CE"] (py "XY99ZZ")
                    idle_world)).
    unfold plate_length. vm_compute. lia.
  - apply (proj1 (proj2 (offer_length_filter [py "AB12CD"] (py "AB12") idle_world))).
    unfold plate_length. vm_compute. lia.
  - apply (proj1 (proj2 (proj2 (proj2
             (offer_length_filter [py "AB12CD"] (py "7XYZ") idle_world))))).
    reflexivity.
  - apply (proj2 (proj2 (proj2 (proj2
             (offer_length_filter (py "FIRST" :: repeat (py "AB12CD") 14)
                (py "XY99ZZ") idle_world))))).
    reflexivity.
Defined.

Lemma reachable_length (hist : list pystr) :
  reachable hist -> length hist <= ocr_reader.HISTORY.
Proof.
  induction 1 as [| hist plate w hist' w' _ IH Hoffer]; [cbn; lia |].
  unfold ocr_reader.offer in Hoffer.
  destruct (ocr_reader.accepts plate); injection Hoffer as <- _;
    [now apply deque_append_length | exact IH].
Qed.

Lemma reachable_plate_lengths (hist : list pystr) :
  reachable hist -> Forall plate_length hist.
Proof.
  induction 1 as [| hist plate w hist' w' _ IH Hoffer]; [constructor |].
  unfold ocr_reader.offer in Hoffer.
  destruct (ocr_reader.accepts plate) eqn:Hacc; injection Hoffer as <- _;
    [| exact IH].
  apply deque_append_Forall; [exact IH | now apply accepts_plate_length].
Qed.

(** C5: the window is a bounded first-in first-out buffer: whatever has
    been offered, it holds at most HISTORY samples; and an accepted sample
    offered to a full window removes the oldest sample, keeps the others
    in their order and comes last. *)
Theorem window_bounded_fifo :
  (forall hist, reachable hist -> length hist <= ocr_reader.HISTORY)
  /\ (forall hist plate w,
        length hist = ocr_reader.HISTORY -> plate_length plate ->
        exists oldest rest w',
          hist = oldest :: rest
          /\ ocr_reader.offer hist plate w = (Done (rest ++ [plate]), w')
          /\ length (rest ++ [plate]) = ocr_reader.HISTORY).
Proof.
  split; [exact reachable_length |].
  intros hist plate w Hfull Hlen.
  destruct hist as [| oldest rest]; [discriminate Hfull |].
  exists oldest, rest, (log (Print (py "OCR: " ++ plate)) w).
  split; [reflexivity |].
  rewrite offer_accepted by now apply accepts_plate_length.
  rewrite deque_append_full by (rewrite Hfull; reflexivity).
  split; [reflexivity |].
  rewrite length_app. cbn in *. lia.
Qed.

(** A window filled to the brim, oldest sample first. *)
Lemma window_bounded_fifo_witness :
  length [py "AB12CD"] <= ocr_reader.HISTORY
  /\ exists oldest rest w',
       py "FIRST" :: repeat (py "AB12CD") 14 = oldest :: rest
       /\ ocr_reader.offer (py "FIRST" :: repeat (py "AB12CD") 14)
            (py "XY99ZZ") idle_world
          = (Done (rest ++ [py "XY99ZZ"]), w')
       /\ length (rest ++ [py "XY99ZZ"]) = ocr_reader.HISTORY.
Proof.
  split.
  - apply (proj1 window_bounded_fifo).
    apply (reachable_offer [] (py "AB12CD") idle_world _
             (log (Print (py "OCR: AB12CD")) idle_world) reachable_empty).
    reflexivity.
  - apply (proj2 window_bounded_fifo).
    + reflexivity.
    + unfold plate_length. vm_compute. lia.
Defined.

(** C10: every sample of a window the loop can hold has a length within
    PLATE_MIN..PLATE_MAX, none is the empty string, and a value given by
    [stable] is one of them, so its length is within these bounds too. *)
Theorem window_sample_lengths (hist : list pystr) :
  reachable hist ->
  Forall plate_length hist
  /\ ([] ∉ hist)
  /\ (ocr_reader.stable hist <> [] ->
      ocr_reader.stable hist ∈ hist /\ plate_length (ocr_reader.stable hist)).
Proof.
  intros Hreach. pose proof (reachable_plate_lengths hist Hreach) as Hall.
  rewrite Forall_forall in Hall. split; [now apply Forall_forall |]. split.
  - intros Hin. apply Hall in Hin. unfold plate_length, ocr_reader.PLATE_MIN in Hin.
    cbn in Hin. lia.
  - intros Hval. destruct (stable_cases hist) as [[Hnone _] | [Hge _]];
      [contradiction |].
    assert (Hin : ocr_reader.stable hist ∈ hist).
    { apply occurrences_elem_of. unfold ocr_reader.REQUIRED in Hge. lia. }
    split; [exact Hin | now apply Hall].
Qed.

(** A window of four accepted readings of one plate, reached offer by
    offer: [stable] gives that plate, which is a sample of the window and
    has a length within the bounds. *)
Lemma window_sample_lengths_witness :
  reachable (repeat (py "AB12CD") 4)
  /\ ocr_reader.stable (repeat (py "AB12CD") 4) = py "AB12CD"
  /\ Forall plate_length (repeat (py "AB12CD") 4)
  /\ ([] ∉ repeat (py "AB12CD") 4)
  /\ ocr_reader.stable (repeat (py "AB12CD") 4) ∈ repeat (py "AB12CD") 4
  /\ plate_length (ocr_reader.stable (repeat (py "AB12CD") 4)).
Proof.
  assert (Hreach : reachable (repeat (py "AB12CD") 4)).
  { pose (say := log (Print (py "OCR: AB12CD"))).
    apply (reachable_offer (repeat (py "AB12CD") 3) (py "AB12CD")
             (say (say (say idle_world))) _ (say (say (say (say idle_world)))));
      [| reflexivity].
    apply (reachable_offer (repeat (py "AB12CD") 2) (py "AB12CD")
             (say (say idle_world)) _ (say (say (say idle_world))));
      [| reflexivity].
    apply (reachable_offer (repeat (py "AB12CD") 1) (py "AB12CD")
             (say idle_world) _ (say (say idle_world)));
      [| reflexivity].
    apply (reachable_offer [] (py "AB12CD") idle_world _ (say idle_world)
             reachable_empty).
    reflexivity. }
  pose proof (window_sample_lengths (repeat (py "AB12CD") 4) Hreach)
    as (Hall & Hnot & Hval).
  assert (Hgiven : ocr_reader.stable (repeat (py "AB12CD") 4) <> [])
    by (vm_compute; discriminate).
  destruct (Hval Hgiven) as [Hin Hlen].
  split; [exact Hreach |]. split; [vm_compute; reflexivity |].
  split; [exact Hall |]. split; [exact Hnot |]. split; [exact Hin | exact Hlen].
Defined.

(** A sequence that ends normally went through both halves normally. *)
Lemma bind_Done_inv {A B} (m : M A) (f : A -> M B) w b w' :
  (m ≫= f) w = (Done b, w') ->
  exists a w1, m w = (Done a, w1) /\ f a w1 = (Done b, w').
Proof.
  unfold mbind, M_bind. destruct (m w) as [[a | e |] w1]; try discriminate.
  intros Hf. now exists a, w1.
Qed.

Ltac bind_inv H :=
  let a := fresh "a" in
  let w := fresh "w" in
  let Hm := fresh "Hm" in
  apply bind_Done_inv in H as (a & w & Hm & H).

(** The window of the capture loop is one of these: every turn of [loop]
    changes [hist] through [offer] only. *)
Lemma loop_window unicode_upper ts hist frame_id w hist' w' :
  reachable hist ->
  ocr_reader.loop unicode_upper ts hist frame_id w = (Done hist', w') ->
  reachable hist'.
Proof.
  revert hist frame_id w.
  induction ts as [| t rest IH]; intros hist frame_id w Hreach Hrun;
    cbn [ocr_reader.loop] in Hrun; [discriminate |].
  destruct t as [e | | txt_a txt_b key now]; [discriminate | |].
  - bind_inv Hrun. bind_inv Hrun. now apply IH in Hrun.
  - bind_inv Hrun. bind_inv Hrun. rename a0 into h1.
    assert (Hreach1 : reachable h1).
    { destruct (_ =? 0)%Z in Hm0.
      - exact (reachable_offer _ _ _ _ _ Hreach Hm0).
      - injection Hm0 as <- _. exact Hreach. }
    bind_inv Hrun. destruct (Z.land key 255 =? 113)%Z.
    + injection Hrun as <- _. exact Hreach1.
    + bind_inv Hrun. now apply IH in Hrun.
Qed.

(** ** The trace only grows *)

Lemma bind_Done {A B} (m : M A) (f : A -> M B) w a w1 :
  m w = (Done a, w1) -> (m ≫= f) w = f a w1.
Proof. intros Hm. unfold mbind, M_bind. now rewrite Hm. Qed.

Lemma bind_Raise {A B} (m : M A) (f : A -> M B) w e w1 :
  m w = (Raise e, w1) -> (m ≫= f) w = (Raise e, w1).
Proof. intros Hm. unfold mbind, M_bind. now rewrite Hm. Qed.

Lemma grows_ret {A} (a : A) : grows (mret a).
Proof. intros w. reflexivity. Qed.

Lemma grows_raise {A} (e : exn) : grows (raise (A := A) e).
Proof. intros w. reflexivity. Qed.

Lemma grows_starve {A} : grows (starve (A := A)).
Proof. intros w. reflexivity. Qed.

Lemma grows_emit (e : event) : grows (emit e).
Proof. intros w. cbn. now apply prefix_app_r. Qed.

Lemma grows_bind {A B} (m : M A) (f : A -> M B) :
  grows m -> (forall a, grows (f a)) -> grows (m ≫= f).
Proof.
  intros Hm Hf w. specialize (Hm w). unfold mbind, M_bind.
  destruct (m w) as [[a | e |] w1]; cbn in *; [| exact Hm | exact Hm].
  etransitivity; [exact Hm | apply Hf].
Qed.

Lemma grows_try_except {A} (body : M A) handled (handler : exn -> M A) :
  grows body -> (forall e, grows (handler e)) ->
  grows (try_except body handled handler).
Proof.
  intros Hb Hh w. specialize (Hb w). unfold try_except.
  destruct (body w) as [[a | e |] w1]; cbn in *; [exact Hb | | exact Hb].
  destruct (handled e); [| exact Hb].
  etransitivity; [exact Hb | apply Hh].
Qed.

Lemma grows_try_finally {A} (body : M A) (fin : M unit) :
  grows body -> grows fin -> grows (try_finally body fin).
Proof.
  intros Hb Hf w. specialize (Hb w). unfold try_finally.
  destruct (body w) as [[a | e |] w1]; cbn in *; [| | exact Hb];
    specialize (Hf w1); destruct (fin w1) as [[[] | e' |] w2]; cbn in *;
    etransitivity; eauto.
Qed.

Lemma grows_fallible (e : event) fault : grows (fallible e fault).
Proof.
  apply grows_bind; [apply grows_emit |]. intros _.
  destruct fault; [apply grows_raise | apply grows_ret].
Qed.

Lemma grows_path_exists p : grows (path_exists p).
Proof. intros w. reflexivity. Qed.

Lemma grows_read_file p : grows (read_file p).
Proof. intros w. unfold read_file. now destruct (fs w !! p). Qed.

Lemma grows_write_file p c : grows (write_file p c).
Proof. intros w. cbn. now apply prefix_app_r. Qed.

Lemma grows_os_remove p : grows (os_remove p).
Proof.
  intros w. unfold os_remove. cbn.
  destruct (fs w !! p); cbn; now apply prefix_app_r.
Qed.

Lemma grows_popen cmd : grows (popen cmd).
Proof.
  intros w. unfold popen. destruct (installed w); cbn; [| reflexivity].
  now apply prefix_app_r.
Qed.

Lemma signal_all_trace w pid sig : trace (signal_all w pid sig).2 = trace w.
Proof.
  unfold signal_all. repeat case_bool_decide; try reflexivity.
  now destruct (pid =? 0)%Z.
Qed.

Lemma grows_os_kill pid sig : grows (os_kill pid sig).
Proof.
  intros w. unfold os_kill. destruct (pid_t_ok pid); [| reflexivity].
  rewrite signal_all_trace. cbn. now apply prefix_app_r.
Qed.

Create HintDb grows.

#[local] Hint Resolve grows_ret grows_raise grows_starve grows_emit
  grows_fallible grows_path_exists grows_read_file grows_write_file
  grows_os_remove grows_popen grows_os_kill : grows.

Ltac grows_tac :=
  repeat first
    [ apply grows_bind; [| intros ?]
    | apply grows_try_except; [| intros ?]
    | apply grows_try_finally
    | progress auto with grows
    | match goal with
      | |- grows (if ?b then _ else _) => destruct b
      | |- grows (match ?o with Some _ => _ | None => _ end) => destruct o
      | |- grows (match ?o with inl _ => _ | inr _ => _ end) => destruct o
      end ].

Lemma grows_start_stream c : grows (stream_control.start_stream c).
Proof. unfold stream_control.start_stream, print. grows_tac. Qed.

Lemma grows_stop_stream p : grows (stream_control.stop_stream p).
Proof. unfold stream_control.stop_stream, print. grows_tac. Qed.

(** Whatever [stop_stream] goes on to do, the trace shows it was entered. *)
Lemma stop_stream_called p w :
  Call "stop_stream" ∈ trace (stream_control.stop_stream p w).2.
Proof.
  unfold stream_control.stop_stream.
  rewrite (bind_Done _ _ w tt (log (Call "stop_stream") w)) by reflexivity.
  cbv beta.
  match goal with
  | |- _ ∈ trace (?rest ?w1).2 =>
      assert (Hg : grows rest) by (unfold print; grows_tac);
      destruct (Hg w1) as [evs ->]
  end.
  cbn. rewrite !elem_of_app, list_elem_of_singleton. auto.
Qed.

(** ** stream_control.py: start and stop *)

Lemma new_events_app w w' evs :
  trace w' = trace w ++ evs -> new_events w w' = evs.
Proof. unfold new_events. intros ->. apply drop_app_length. Qed.

Lemma start_stream_locked (c : stream_control.config) (w : world) :
  is_Some (fs w !! stream_control.pid_file c) ->
  stream_control.start_stream c w
  = (Done tt,
     log (Print (py "Stream already running (pid file exists)."))
       (log (Call "start_stream") w)).
Proof.
  intros Hlock. unfold stream_control.start_stream.
  rewrite (bind_Done _ _ w tt (log (Call "start_stream") w)) by reflexivity.
  rewrite (bind_Done _ _ _ true (log (Call "start_stream") w)); [reflexivity |].
  unfold path_exists. cbn [fs log]. now rewrite bool_decide_eq_true_2.
Qed.

(** C4: a call of [start_stream] that finds the lock file spawns nothing,
    leaves the files (the lock file with them) and the processes as they
    are, reports that the stream is already running and returns without
    error. *)
Theorem start_stream_idempotent (c : stream_control.config) (w : world) :
  is_Some (fs w !! stream_control.pid_file c) ->
  exists w',
    stream_control.start_stream c w = (Done tt, w')
    /\ fs w' = fs w
    /\ procs w' = procs w
    /\ next_pid w' = next_pid w
    /\ new_events w w'
       = [Call "start_stream";
          Print (py "Stream already running (pid file exists).")].
Proof.
  intros Hlock. eexists. split; [now apply start_stream_locked |].
  repeat split. apply new_events_app. cbn. now rewrite <- app_assoc.
Qed.

Lemma start_stream_fresh (c : stream_control.config) (w : world) :
  fs w !! stream_control.pid_file c = None -> installed w = true ->
  exists w',
    stream_control.start_stream c w = (Done tt, w')
    /\ fs w' = <[stream_control.pid_file c := str_of_int (next_pid w)]> (fs w)
    /\ procs w'
       = <[next_pid w := {| pgid := next_pid w; permitted := true;
                            ignores_term := false |}]> (procs w)
    /\ new_events w w'
       = [Call "start_stream";
          Popen (stream_control.command c) (next_pid w);
          WriteFile (stream_control.pid_file c) (str_of_int (next_pid w));
          Print (py "Started stream (PID " ++ str_of_int (next_pid w)
                 ++ py ") -> " ++ stream_control.url c)].
Proof.
  intros Hfree Hinst. eexists. unfold stream_control.start_stream.
  rewrite (bind_Done _ _ w tt (log (Call "start_stream") w)) by reflexivity.
  rewrite (bind_Done _ _ _ false (log (Call "start_stream") w)).
  2:{ unfold path_exists. cbn [fs log]. rewrite bool_decide_eq_false_2;
        [reflexivity |]. rewrite Hfree. now intros [? ?]. }
  cbv beta iota. unfold popen, mbind, M_bind. cbn [installed log].
  rewrite Hinst. cbn. split; [reflexivity |]. repeat split.
  apply new_events_app. cbn. rewrite <- !app_assoc. reflexivity.
Qed.

(** X14: two calls of [start_stream] in a row, on a machine without lock
    file: the first launches the child and writes the lock file, the
    second only reports that the stream is running; one child, one lock
    file, holding the process id of the first call. *)
Lemma start_stream_twice (c : stream_control.config) (w : world) :
  fs w !! stream_control.pid_file c = None -> installed w = true ->
  exists w1 w2,
    stream_control.start_stream c w = (Done tt, w1)
    /\ stream_control.start_stream c w1 = (Done tt, w2)
    /\ fs w2 = <[stream_control.pid_file c := str_of_int (next_pid w)]> (fs w)
    /\ procs w2 = procs w1
    /\ new_events w1 w2
       = [Call "start_stream";
          Print (py "Stream already running (pid file exists).")].
Proof.
  intros Hfree Hinst.
  destruct (start_stream_fresh c w Hfree Hinst)
    as (w1 & Hrun1 & Hfs1 & Hprocs1 & Hev1).
  assert (Hlock : is_Some (fs w1 !! stream_control.pid_file c)).
  { rewrite Hfs1, lookup_insert_eq. now eexists. }
  exists w1. eexists. split; [exact Hrun1 |].
  split; [now apply start_stream_locked |].
  cbn. split; [exact Hfs1 |]. split; [reflexivity |].
  apply new_events_app. cbn. now rewrite <- app_assoc.
Qed.

Lemma start_stream_idempotent_witness :
  exists w',
    stream_control.start_stream stream_control.defaults hung_world = (Done tt, w')
    /\ fs w' = fs hung_world
    /\ procs w' = procs hung_world
    /\ next_pid w' = next_pid hung_world
    /\ new_events hung_world w'
       = [Call "start_stream";
          Print (py "Stream already running (pid file exists).")].
Proof.
  apply (start_stream_idempotent stream_control.defaults hung_world).
  vm_compute. eexists. reflexivity.
Defined.

(** [stop_stream] past its reading of the lock file. *)
Lemma stop_stream_locked (pid_file text : pystr) (pid : Z) (w : world) :
  fs w !! pid_file = Some text ->
  int_of_str (strip text) = Some pid ->
  stream_control.stop_stream pid_file w
  = (try_except
       (os_kill pid SIGTERM ;; print (py "Stopped stream."))
       (fun e => bool_decide (e = ProcessLookupError))
       (fun _ => print (py "Process not found; cleaning pid file.")) ;;
     try_except (os_remove pid_file)
       (fun e => bool_decide (e = FileNotFoundError))
       (fun _ => mret tt))
      (log (Call "stop_stream") w).
Proof.
  intros Hfile Hpid. unfold stream_control.stop_stream.
  rewrite (bind_Done _ _ w tt (log (Call "stop_stream") w)) by reflexivity.
  rewrite (bind_Done _ _ _ true (log (Call "stop_stream") w)).
  2:{ unfold path_exists. cbn [fs log]. rewrite bool_decide_eq_true_2;
        [reflexivity | now rewrite Hfile]. }
  cbn [negb].
  rewrite (bind_Done _ _ _ text (log (Call "stop_stream") w)).
  2:{ unfold read_file. cbn [fs log]. now rewrite Hfile. }
  rewrite Hpid.
  now rewrite (bind_Done _ _ _ pid (log (Call "stop_stream") w)).
Qed.

(** A signal to a single process that is gone finds nobody. *)
Lemma signal_all_gone (w : world) (pid : Z) (sig : signal) :
  (0 < pid)%Z -> procs w !! pid = None ->
  signal_all w pid sig = (Raise ProcessLookupError, w).
Proof.
  intros Hpos Hgone. unfold signal_all.
  rewrite bool_decide_eq_true_2.
  - destruct (Z.eqb_spec pid 0); [lia | reflexivity].
  - apply map_empty. intros q. apply map_lookup_filter_None. right.
    intros p Hq. cbn. unfold addressed.
    destruct (Z.ltb_spec 0 pid); [| lia].
    destruct (Z.eqb_spec q pid) as [-> | _]; [congruence | discriminate].
Qed.

(** A signal to a single process leaves every other process alone. *)
Lemma signal_all_single (w : world) (pid : Z) (sig : signal) (q : Z) :
  (0 < pid)%Z -> q <> pid ->
  procs (signal_all w pid sig).2 !! q = procs w !! q.
Proof.
  intros Hpos Hq. unfold signal_all.
  repeat case_bool_decide; cbn; try reflexivity.
  - now destruct (pid =? 0)%Z.
  - destruct (procs w !! q) as [p |] eqn:Hlook.
    + apply map_lookup_filter_Some. split; [exact Hlook |]. cbn.
      unfold addressed. destruct (Z.ltb_spec 0 pid); [| lia].
      destruct (Z.eqb_spec q pid); [contradiction | reflexivity].
    + apply map_lookup_filter_None. now left.
Qed.

Lemma signal_all_result (w : world) (pid : Z) (sig : signal) :
  (signal_all w pid sig).1 = Done tt
  \/ signal_all w pid sig = (Raise ProcessLookupError, w)
  \/ signal_all w pid sig = (Raise PermissionError, w).
Proof.
  unfold signal_all. repeat case_bool_decide; cbn; auto.
  destruct (pid =? 0)%Z; auto.
Qed.

Lemma signal_all_files (w : world) (pid : Z) (sig : signal) :
  fs (signal_all w pid sig).2 = fs w.
Proof.
  unfold signal_all. repeat case_bool_decide; cbn; try reflexivity.
  now destruct (pid =? 0)%Z.
Qed.

Lemma try_except_Done {A} (body : M A) handled handler w a w1 :
  body w = (Done a, w1) -> try_except body handled handler w = (Done a, w1).
Proof. intros Hb. unfold try_except. now rewrite Hb. Qed.

Lemma try_except_caught {A} (body : M A) handled handler w e w1 :
  body w = (Raise e, w1) -> handled e = true ->
  try_except body handled handler w = handler e w1.
Proof. intros Hb He. unfold try_except. now rewrite Hb, He. Qed.

Lemma try_except_passed {A} (body : M A) handled handler w e w1 :
  body w = (Raise e, w1) -> handled e = false ->
  try_except body handled handler w = (Raise e, w1).
Proof. intros Hb He. unfold try_except. now rewrite Hb, He. Qed.

Lemma pid_t_ok_range (pid : Z) : (0 < pid < 2 ^ 31)%Z -> pid_t_ok pid = true.
Proof.
  intros Hrange. unfold pid_t_ok.
  apply andb_true_iff. split; [apply Z.leb_le | apply Z.ltb_lt]; lia.
Qed.

Lemma os_kill_gone (w : world) (pid : Z) (sig : signal) :
  (0 < pid < 2 ^ 31)%Z -> procs w !! pid = None ->
  os_kill pid sig w = (Raise ProcessLookupError, log (Kill pid sig) w).
Proof.
  intros Hrange Hgone. unfold os_kill.
  rewrite pid_t_ok_range by exact Hrange.
  apply signal_all_gone; [lia | exact Hgone].
Qed.

(** The removal that ends [stop_stream] never raises. *)
Lemma remove_lock (pid_file : pystr) (w : world) :
  try_except (os_remove pid_file)
    (fun e => bool_decide (e = FileNotFoundError)) (fun _ => mret tt) w
  = (Done tt,
     set_fs (delete pid_file (fs w)) (log (RemoveFile pid_file) w)).
Proof.
  unfold try_except, os_remove. cbn [fs log].
  destruct (fs w !! pid_file) as [c |] eqn:Hlook; [reflexivity |].
  cbn. unfold set_fs, log. cbn. now rewrite delete_id.
Qed.

(** C8: when the lock file names a process that no longer exists,
    [stop_stream] does not raise: the failed lookup is only reported, the
    lock file is removed all the same and nothing else changes. *)
Theorem stop_stream_stale_lock (pid_file text : pystr) (pid : Z) (w : world) :
  fs w !! pid_file = Some text ->
  int_of_str (strip text) = Some pid ->
  (0 < pid < 2 ^ 31)%Z ->
  procs w !! pid = None ->
  exists w',
    stream_control.stop_stream pid_file w = (Done tt, w')
    /\ fs w' !! pid_file = None
    /\ fs w' = delete pid_file (fs w)
    /\ procs w' = procs w
    /\ new_events w w'
       = [Call "stop_stream"; Kill pid SIGTERM;
          Print (py "Process not found; cleaning pid file.");
          RemoveFile pid_file].
Proof.
  intros Hfile Hpid Hrange Hgone. eexists.
  rewrite (stop_stream_locked pid_file text pid w Hfile Hpid).
  set (w1 := log (Call "stop_stream") w).
  rewrite (bind_Done _ _ w1 tt
             (log (Print (py "Process not found; cleaning pid file."))
                (log (Kill pid SIGTERM) w1))).
  2:{ rewrite (try_except_caught _ _ _ w1 ProcessLookupError
                 (log (Kill pid SIGTERM) w1)); [reflexivity | | reflexivity].
      apply bind_Raise. now apply os_kill_gone. }
  rewrite remove_lock. subst w1. cbn.
  split; [reflexivity |]. split; [apply lookup_delete_eq |].
  split; [reflexivity |]. split; [reflexivity |].
  apply new_events_app. cbn. rewrite <- !app_assoc. reflexivity.
Qed.

Lemma stop_stream_stale_lock_witness :
  exists w',
    stream_control.stop_stream stream_control.DEFAULT_PID stale_world
      = (Done tt, w')
    /\ fs w' !! stream_control.DEFAULT_PID = None
    /\ fs w' = delete stream_control.DEFAULT_PID (fs stale_world)
    /\ procs w' = procs stale_world
    /\ new_events stale_world w'
       = [Call "stop_stream"; Kill 4242 SIGTERM;
          Print (py "Process not found; cleaning pid file.");
          RemoveFile stream_control.DEFAULT_PID].
Proof.
  apply (stop_stream_stale_lock stream_control.DEFAULT_PID (py "4242") 4242
           stale_world).
  - vm_compute. reflexivity.
  - vm_compute. reflexivity.
  - lia.
  - vm_compute. reflexivity.
Defined.

(** The run of [stop_stream] on the machine whose streamer ignores
    SIGTERM: one signal to one process, and both processes live on. *)
Lemma stop_stream_hung_run :
  exists w',
    stream_control.stop_stream stream_control.DEFAULT_PID hung_world
      = (Done tt, w')
    /\ new_events hung_world w'
       = [Call "stop_stream"; Kill 4242 SIGTERM;
          Print (py "Stopped stream."); RemoveFile stream_control.DEFAULT_PID]
    /\ procs w' = procs hung_world
    /\ fs w' = ∅.
Proof.
  exists (stream_control.stop_stream stream_control.DEFAULT_PID hung_world).2.
  split; [| split; [| split]]; vm_compute; reflexivity.
Qed.

(** C3, as the specification words it, fails on [stream_control]: for the
    lock file of [hung_world], [stop_stream] signals no process group,
    does not wait and does not escalate. *)
Lemma stop_stream_not_graceful_group_stop :
  ~ graceful_group_stop
      (stream_control.stop_stream stream_control.DEFAULT_PID) 4242 hung_world.
Proof.
  unfold graceful_group_stop. intros Hclaim.
  assert (Hlive : procs hung_world !! 4242%Z
                  = Some {| pgid := 4242; permitted := true; ignores_term := true |})
    by (vm_compute; reflexivity).
  destruct (Hclaim _ Hlive) as (i & j & Hi & _).
  destruct stop_stream_hung_run as (w' & Hrun & Hevs & _).
  rewrite Hrun in Hi. cbn [snd] in Hi. rewrite Hevs in Hi.
  destruct i as [| [| [| [| i]]]]; discriminate Hi.
Qed.

(** The handle-based [stop_stream] of video_stream.py is the one that
    follows that protocol: on the same machine it signals the group,
    waits 300 ms and kills the group, and no process of it is left. *)
Lemma video_stop_stream_hung_run :
  exists w',
    video_stream.stop_stream (Some 4242%Z) hung_world = (Done tt, w')
    /\ new_events hung_world w'
       = [Killpg 4242 SIGTERM; Sleep 300; Killpg 4242 SIGKILL]
    /\ procs w' = ∅.
Proof.
  exists (video_stream.stop_stream (Some 4242%Z) hung_world).2.
  split; [| split]; vm_compute; reflexivity.
Qed.

Lemma video_stop_stream_graceful_group_stop :
  graceful_group_stop (video_stream.stop_stream (Some 4242%Z)) 4242 hung_world.
Proof.
  intros p Hp.
  assert (Hpg : pgid p = 4242%Z /\ dies SIGTERM p = false).
  { vm_compute in Hp. injection Hp as <-. split; reflexivity. }
  destruct Hpg as [Hpg Hdies].
  destruct video_stop_stream_hung_run as (w' & Hrun & Hevs & _).
  cbv zeta. rewrite Hrun. cbn [snd]. rewrite Hevs, Hpg.
  exists 0, 1. repeat split; [lia |].
  intros _. exists 2. split; [lia |]. now left.
Qed.

(** C3, amended: on a lock file that holds a process id, [stop_stream]
    of stream_control.py sends SIGTERM once, to that one process; apart
    from that it only prints and removes the lock file: no signal to a
    process group, no waiting, no SIGKILL; and no other process is
    affected. *)
Theorem stop_stream_single_sigterm
    (pid_file text : pystr) (pid : Z) (w : world) :
  fs w !! pid_file = Some text ->
  int_of_str (strip text) = Some pid ->
  (0 < pid < 2 ^ 31)%Z ->
  exists r w' rest,
    stream_control.stop_stream pid_file w = (r, w')
    /\ r <> Starved
    /\ new_events w w' = Call "stop_stream" :: Kill pid SIGTERM :: rest
    /\ forallb is_bookkeeping rest = true
    /\ (forall q, q <> pid -> procs w' !! q = procs w !! q).
Proof.
  intros Hfile Hpid Hrange.
  rewrite (stop_stream_locked pid_file text pid w Hfile Hpid).
  set (w1 := log (Call "stop_stream") w).
  set (w2 := log (Kill pid SIGTERM) w1).
  assert (Hkill : os_kill pid SIGTERM w1 = signal_all w2 pid SIGTERM).
  { unfold os_kill. now rewrite pid_t_ok_range. }
  pose proof (signal_all_trace w2 pid SIGTERM) as Htr.
  pose proof (fun q => signal_all_single w2 pid SIGTERM q (proj1 Hrange)) as Hothers.
  destruct (signal_all_result w2 pid SIGTERM) as [Hdone | [Hgone | Hperm]].
  - destruct (signal_all w2 pid SIGTERM) as [r0 w3] eqn:Hsig.
    cbn [fst snd] in *. subst r0.
    rewrite (bind_Done _ _ w1 tt (log (Print (py "Stopped stream.")) w3)).
    2:{ apply try_except_Done. rewrite (bind_Done _ _ w1 tt w3); [reflexivity |].
        now rewrite Hkill. }
    rewrite remove_lock.
    eexists _, _, [Print (py "Stopped stream."); RemoveFile pid_file].
    split; [reflexivity |]. split; [discriminate |].
    split; [| split; [reflexivity | exact Hothers]].
    apply new_events_app. cbn. rewrite Htr. subst w2 w1. cbn.
    rewrite <- !app_assoc. reflexivity.
  - rewrite (bind_Done _ _ w1 tt
               (log (Print (py "Process not found; cleaning pid file.")) w2)).
    2:{ rewrite (try_except_caught _ _ _ w1 ProcessLookupError w2);
          [reflexivity | | reflexivity].
        apply bind_Raise. now rewrite Hkill. }
    rewrite remove_lock.
    eexists _, _, [Print (py "Process not found; cleaning pid file.");
                   RemoveFile pid_file].
    split; [reflexivity |]. split; [discriminate |].
    split; [| split; [reflexivity | intros q _; reflexivity]].
    apply new_events_app. subst w2 w1. cbn. rewrite <- !app_assoc. reflexivity.
  - rewrite (bind_Raise _ _ w1 PermissionError w2).
    2:{ apply try_except_passed; [| reflexivity].
        apply bind_Raise. now rewrite Hkill. }
    eexists _, _, [].
    split; [reflexivity |]. split; [discriminate |].
    split; [| split; [reflexivity | intros q _; reflexivity]].
    apply new_events_app. subst w2 w1. cbn. rewrite <- !app_assoc. reflexivity.
Qed.

Lemma stop_stream_single_sigterm_witness :
  exists r w' rest,
    stream_control.stop_stream stream_control.DEFAULT_PID hung_world = (r, w')
    /\ r <> Starved
    /\ new_events hung_world w'
       = Call "stop_stream" :: Kill 4242 SIGTERM :: rest
    /\ forallb is_bookkeeping rest = true
    /\ (forall q, q <> 4242%Z -> procs w' !! q = procs hung_world !! q).
Proof.
  apply (stop_stream_single_sigterm stream_control.DEFAULT_PID (py "4242") 4242
           hung_world).
  - vm_compute. reflexivity.
  - vm_compute. reflexivity.
  - lia.
Defined.

(** ** The orchestration loops and the teardown of the stream *)

Lemma start_stream_returns (c : stream_control.config) (w : world) :
  installed w = true \/ is_Some (fs w !! stream_control.pid_file c) ->
  exists w', stream_control.start_stream c w = (Done tt, w').
Proof.
  intros Hcan. destruct (fs w !! stream_control.pid_file c) as [text |] eqn:Hlock.
  - eexists. apply start_stream_locked. now rewrite Hlock.
  - destruct Hcan as [Hinst | [? ?]]; [| discriminate].
    destruct (start_stream_fresh c w Hlock Hinst) as (w' & Hrun & _).
    now exists w'.
Qed.

(** The [finally] block of both scripts reaches [stop_stream] whenever the
    two calls before it return. *)
Lemma finally_stops {A} (body : M A) (w : world) :
  let guarded :=
    try_finally body
      (fallible Release None ;; fallible DestroyAllWindows None ;;
       stream_control.stop_stream stream_control.DEFAULT_PID) in
  (guarded w).1 <> Starved ->
  Call "stop_stream" ∈ trace (guarded w).2.
Proof.
  cbv zeta. unfold try_finally.
  destruct (body w) as [[a | e |] w1]; [| | intros Hrun; now elim Hrun];
    intros _;
    rewrite (bind_Done _ _ w1 tt (log Release w1)) by reflexivity;
    rewrite (bind_Done _ _ _ tt (log DestroyAllWindows (log Release w1)))
      by reflexivity;
    pose proof (stop_stream_called stream_control.DEFAULT_PID
                  (log DestroyAllWindows (log Release w1))) as Hcalled;
    destruct (stream_control.stop_stream _ _) as [[[] | e' |] w2];
    exact Hcalled.
Qed.

(** X12: where [ocr_reader.main] does reach [stop_stream]: once the
    stream is started, the warm-up sleep and the opening of the capture
    have returned, every way out of [ocr_reader.main] (capture not opened,
    quit key, exception in the loop) passes through [stop_stream],
    provided the two release calls of the [finally] block return. *)
Lemma reader_exit_stops unicode_upper (e : ocr_reader.env) (w : world) :
  installed w = true \/ is_Some (fs w !! stream_control.DEFAULT_PID) ->
  ocr_reader.warmup e = None ->
  (exists opened, ocr_reader.capture e = inr opened) ->
  ocr_reader.release_fault e = None ->
  ocr_reader.destroy_fault e = None ->
  (ocr_reader.main unicode_upper e w).1 <> Starved ->
  Call "stop_stream" ∈ trace (ocr_reader.main unicode_upper e w).2.
Proof.
  intros Hcan Hwarm [opened Hcap] Hrel Hdes. unfold ocr_reader.main.
  rewrite Hwarm, Hcap, Hrel, Hdes.
  set (w0 := match ocr_reader.tesseract e with
             | Some v => log (Print (py "Tesseract: " ++ v)) w
             | None => log (Print (py "Tesseract check failed (continuing)...")) w
             end).
  rewrite (bind_Done _ _ w tt w0) by (subst w0; now destruct (ocr_reader.tesseract e)).
  destruct (start_stream_returns stream_control.defaults w0) as [w1 Hstart].
  { subst w0. now destruct (ocr_reader.tesseract e). }
  rewrite (bind_Done _ _ w0 tt w1 Hstart).
  rewrite (bind_Done _ _ w1 tt (log (Sleep 700) w1)) by reflexivity.
  rewrite (bind_Done _ _ _ opened (log (Sleep 700) w1)) by reflexivity.
  destruct opened; cbn [negb].
  - rewrite (bind_Done _ _ _ tt
               (log (Print (py "Press 'q' to quit, 's' to save."))
                  (log (Sleep 700) w1))) by reflexivity.
    apply finally_stops.
  - intros _.
    rewrite (bind_Done _ _ _ tt
               (log (Print (py "ERROR: cannot open TCP stream."))
                  (log (Sleep 700) w1))) by reflexivity.
    apply stop_stream_called.
Qed.

(** X13: where [detector.main] does reach [stop_stream]: once the stream
    is started, the warm-up sleep and the opening of the capture have
    returned, every way out (capture not opened, quit key, exception in
    the loop) passes through [stop_stream], provided the two release
    calls of the [finally] block return. *)
Lemma detector_exit_stops (e : detector.env) (w : world) :
  installed w = true \/ is_Some (fs w !! stream_control.DEFAULT_PID) ->
  detector.warmup e = None ->
  (exists opened, detector.capture e = inr opened) ->
  detector.release_fault e = None ->
  detector.destroy_fault e = None ->
  (detector.main e w).1 <> Starved ->
  Call "stop_stream" ∈ trace (detector.main e w).2.
Proof.
  intros Hcan Hwarm [opened Hcap] Hrel Hdes. unfold detector.main.
  rewrite Hwarm, Hcap, Hrel, Hdes.
  destruct (start_stream_returns stream_control.defaults w Hcan) as [w1 Hstart].
  rewrite (bind_Done _ _ w tt w1 Hstart).
  rewrite (bind_Done _ _ w1 tt (log (Sleep 1000) w1)) by reflexivity.
  rewrite (bind_Done _ _ _ opened (log (Sleep 1000) w1)) by reflexivity.
  destruct opened; cbn [negb].
  - rewrite (bind_Done _ _ _ tt
               (log (Print (py "Press 'q' to quit.")) (log (Sleep 1000) w1)))
      by reflexivity.
    apply finally_stops.
  - intros _.
    rewrite (bind_Done _ _ _ tt
               (log (Print (py "ERROR: cannot open UDP stream."))
                  (log (Sleep 1000) w1))) by reflexivity.
    apply stop_stream_called.
Qed.

(** C9 fails on the code: a Ctrl-C during the sleep that follows
    [start_stream] ends [ocr_reader.main] and [detector.main] with the
    exception, without any call of [stop_stream]: the streaming child is
    still running and its lock file is still there. *)
Theorem main_interrupted_leaves_stream :
  (exists w',
     ocr_reader.main no_table interrupted_reader idle_world
       = (Raise KeyboardInterrupt, w')
     /\ Call "start_stream" ∈ trace w'
     /\ (Call "stop_stream" ∉ trace w')
     /\ last (trace w') = Some (Sleep 700)
     /\ procs w' !! 4242%Z
        = Some {| pgid := 4242; permitted := true; ignores_term := false |}
     /\ fs w' !! stream_control.DEFAULT_PID = Some (py "4242"))
  /\ (exists w',
        detector.main interrupted_detector idle_world
          = (Raise KeyboardInterrupt, w')
        /\ Call "start_stream" ∈ trace w'
        /\ (Call "stop_stream" ∉ trace w')
        /\ last (trace w') = Some (Sleep 1000)
        /\ procs w' !! 4242%Z
           = Some {| pgid := 4242; permitted := true; ignores_term := false |}
        /\ fs w' !! stream_control.DEFAULT_PID = Some (py "4242")).
Proof.
  split; eexists; (split; [vm_compute; reflexivity |]);
    repeat split; try (vm_compute; reflexivity);
    apply (bool_decide_unpack _); vm_compute; exact I.
Qed.

(** A second way past [stop_stream]: when [cv2.destroyAllWindows] raises
    inside the [finally] block, the call after it is never made. *)
Lemma main_headless_leaves_stream :
  exists w',
    ocr_reader.main no_table headless_reader idle_world = (Raise cv2_error, w')
    /\ (Call "stop_stream" ∉ trace w')
    /\ last (trace w') = Some DestroyAllWindows
    /\ is_Some (procs w' !! 4242%Z).
Proof.
  eexists. split; [vm_compute; reflexivity |]. split; [| split].
  - apply (bool_decide_unpack _). vm_compute. exact I.
  - vm_compute. reflexivity.
  - vm_compute. eexists. reflexivity.
Qed.

Lemma flush_frames_returns (grabs : nat) (w : world) :
  exists w', ocr_reader.flush_frames grabs w = (Done tt, w').
Proof.
  revert w. induction grabs as [| n IH]; intros w; cbn [ocr_reader.flush_frames].
  - now exists w.
  - rewrite (bind_Done _ _ w tt (log Grab w)) by reflexivity. apply IH.
Qed.

(** A failed read is no way out of either loop: the turn sleeps and the
    loop goes on, so a stream that has ended keeps both scripts waiting. *)
Lemma reader_read_failure_retries unicode_upper (n : nat) hist frame_id w :
  (ocr_reader.loop unicode_upper (repeat ocr_reader.NoFrame n) hist frame_id w).1
  = Starved.
Proof.
  revert w. induction n as [| n IH]; intros w; [reflexivity |].
  cbn [repeat ocr_reader.loop].
  destruct (flush_frames_returns 4 w) as [w1 Hflush].
  rewrite (bind_Done _ _ w tt w1 Hflush).
  rewrite (bind_Done _ _ w1 tt (log (Sleep 10) w1)) by reflexivity.
  apply IH.
Qed.

Lemma detector_read_failure_retries (n : nat) w :
  (detector.loop (repeat detector.NoFrame n) w).1 = Starved.
Proof.
  revert w. induction n as [| n IH]; intros w; [reflexivity |].
  cbn [repeat detector.loop].
  rewrite (bind_Done _ _ w tt (log (Sleep 20) w)) by reflexivity.
  apply IH.
Qed.

(** ** Worked examples *)

Example strip_example : strip (py "  ab 12  ") = py "ab 12".
Proof. reflexivity. Qed.

Example normalize_inner_space :
  ocr_reader.normalize_plate no_table (py " ab-12 cd ") = py "AB12CD".
Proof. vm_compute. reflexivity. Qed.

Example normalize_letter_o :
  ocr_reader.normalize_plate no_table (py "foo|") = py "F001".
Proof. vm_compute. reflexivity. Qed.

Example int_of_str_pid_file : int_of_str (py "4242 ") = Some 4242%Z.
Proof. vm_compute. reflexivity. Qed.

Example int_of_str_garbage : int_of_str (py "42x") = None.
Proof. vm_compute. reflexivity. Qed.

Example int_of_str_of_int : int_of_str (str_of_int 4242) = Some 4242%Z.
Proof. vm_compute. reflexivity. Qed.

Example deque_append_full_example :
  deque_append 3 [1; 2; 3] 4 = [2; 3; 4].
Proof. reflexivity. Qed.

(** Among equally frequent samples the one seen first wins. *)
Example most_common_first_wins :
  most_common_1 (Counter [py "XY99ZZ"; py "AB12CD"; py "AB12CD"; py "XY99ZZ"])
  = [(py "XY99ZZ", 2)].
Proof. vm_compute. reflexivity. Qed.

Example stable_reached :
  ocr_reader.stable
    [py "AB12CD"; py "XY99ZZ"; py "AB12CD"; py "AB12CD"; py "AB12CD"]
  = py "AB12CD".
Proof. vm_compute. reflexivity. Qed.

(** A whole run of [ocr_reader.main]: four frames pass without OCR, the
    fifth is read as "AB12CD" in one variant and the quit key is pressed.
    The stream is started once, stopped once, and nothing is left. *)
Example reader_quit_run :
  let frame key := ocr_reader.Frame (py "ab12cd") (py "a8") key (py "t") in
  let e := {| ocr_reader.tesseract := None;
              ocr_reader.warmup := None;
              ocr_reader.capture := inr true;
              ocr_reader.ticks :=
                [frame (-1); ocr_reader.NoFrame; frame (-1); frame (-1);
                 frame (-1); frame 113]%Z;
              ocr_reader.release_fault := None;
              ocr_reader.destroy_fault := None |} in
  let run := ocr_reader.main no_table e idle_world in
  run.1 = Done tt
  /\ List.filter is_bookkeeping (trace run.2)
     = [Print (py "Tesseract check failed (continuing)...");
        Print (py "Started stream (PID 4242) -> tcp://127.0.0.1:5800?listen");
        Print (py "Press 'q' to quit, 's' to save.");
        Print (py "OCR: AB12CD");
        Print (py "Stopped stream.");
        RemoveFile stream_control.DEFAULT_PID]
  /\ procs run.2 = ∅
  /\ fs run.2 = ∅.
Proof.
  cbv zeta. split; [| split; [| split]]; vm_compute; reflexivity.
Qed.

(** * More of the code *)

(** ** The process id written by [start_stream] is the one [stop_stream] reads *)

Lemma py_String (c : ascii) (s : string) : py (String c s) = N_of_ascii c :: py s.
Proof. reflexivity. Qed.

Lemma digit_char_code (d : N) :
  (d < 10)%N -> N_of_ascii (pretty_N_char d) = (0x30 + d)%N.
Proof.
  intros Hd.
  assert (Hcases : (d = 0 \/ d = 1 \/ d = 2 \/ d = 3 \/ d = 4 \/ d = 5
                    \/ d = 6 \/ d = 7 \/ d = 8 \/ d = 9)%N) by lia.
  repeat destruct Hcases as [-> | Hcases]; try reflexivity.
  now subst d.
Qed.

Lemma digits_val_digit (acc : Z) (b : bool) (d : N) (r : pystr) :
  (d < 10)%N ->
  digits_val acc b (N_of_ascii (pretty_N_char d) :: r)
  = digits_val (acc * 10 + Z.of_N d) true r.
Proof.
  intros Hd. cbn [digits_val]. rewrite (digit_char_code d Hd).
  destruct (N.eqb_spec (0x30 + d) 0x5F) as [Heq | _]; [lia |].
  unfold digit_val.
  destruct (N.leb_spec 0x30 (0x30 + d)); [| lia].
  destruct (N.leb_spec (0x30 + d) 0x39); [| lia].
  cbn [andb]. do 3 f_equal. lia.
Qed.

(** Reading back the decimal digits of a positive number. *)
Lemma digits_val_pretty (x : N) :
  (0 < x)%N ->
  forall s, exists k : Z,
    (0 <= k)%Z
    /\ forall acc b,
         digits_val acc b (py (pretty_N_go x s))
         = digits_val (acc * 10 ^ k + Z.of_N x) true (py s).
Proof.
  induction (N.lt_wf_0 x) as [x _ IH]. intros Hpos s.
  rewrite pretty_N_go_step by exact Hpos.
  assert (Hd : (N.modulo x 10 < 10)%N) by (apply N.mod_lt; lia).
  pose proof (N.div_mod x 10%N ltac:(lia)) as Hdm.
  destruct (N.eq_dec (N.div x 10) 0%N) as [Hz | Hnz].
  - rewrite Hz, pretty_N_go_0. exists 1%Z. split; [lia |]. intros acc b.
    rewrite py_String, digits_val_digit by exact Hd. f_equal. lia.
  - destruct (IH (N.div x 10) ltac:(apply N.div_lt; lia) ltac:(lia)
                (String (pretty_N_char (N.modulo x 10)) s)) as (k & Hk & Hval).
    exists (k + 1)%Z. split; [lia |]. intros acc b.
    rewrite Hval, py_String, digits_val_digit by exact Hd. f_equal.
    rewrite Z.pow_add_r by lia. lia.
Qed.

Lemma pretty_digits (x : N) (s : string) :
  Forall is_digit (py s) -> Forall is_digit (py (pretty_N_go x s)).
Proof.
  revert s. induction (N.lt_wf_0 x) as [x _ IH]. intros s Hs.
  destruct (N.eq_dec x 0%N) as [-> | Hnz]; [now rewrite pretty_N_go_0 |].
  rewrite pretty_N_go_step by lia. apply IH; [apply N.div_lt; lia |].
  rewrite py_String. constructor; [| exact Hs].
  unfold is_digit. rewrite digit_char_code by (apply N.mod_lt; lia).
  pose proof (N.mod_lt x 10%N ltac:(lia)) as Hlt.
  revert Hlt. generalize (N.modulo x 10). intros d Hlt.
  lia.
Qed.

Lemma digit_not_space (c : N) : is_digit c -> is_space c = false.
Proof.
  unfold is_digit. intros Hc.
  apply not_true_is_false. intros Hs.
  pose proof (ascii_range_check
    (fun c => implb (is_space c) (negb ((0x30 <=? c) && (c <=? 0x39))%N))
    ltac:(vm_compute; reflexivity) c ltac:(lia)) as H.
  cbn beta in H. rewrite Hs in H. cbn [implb] in H.
  apply negb_true_iff, andb_false_iff in H as [H | H];
    [apply N.leb_gt in H | apply N.leb_gt in H]; lia.
Qed.

Lemma lstrip_no_space (s : pystr) :
  Forall (fun c => is_space c = false) s -> lstrip s = s.
Proof.
  destruct 1 as [| c r Hc _]; [reflexivity |]. cbn [lstrip]. now rewrite Hc.
Qed.

Lemma rstrip_no_space (s : pystr) :
  Forall (fun c => is_space c = false) s -> rstrip s = s.
Proof.
  induction 1 as [| c r Hc _ IH]; [reflexivity |].
  cbn [rstrip]. rewrite IH, Hc. now destruct r.
Qed.

Lemma strip_no_space (s : pystr) :
  Forall (fun c => is_space c = false) s -> strip s = s.
Proof.
  intros Hs. unfold strip. now rewrite lstrip_no_space, rstrip_no_space.
Qed.

(** [int(str(pid).strip())] is [pid], for the process ids there are. *)
Lemma int_of_str_of_pid (pid : Z) :
  (0 < pid)%Z -> int_of_str (strip (str_of_int pid)) = Some pid.
Proof.
  intros Hpos. destruct pid as [| p | p]; try lia.
  unfold str_of_int, pretty, pretty_Z, pretty, pretty_positive, pretty, pretty_N.
  rewrite decide_False by discriminate.
  assert (Hdig : Forall is_digit (py (pretty_N_go (N.pos p) ""))).
  { apply pretty_digits. constructor. }
  assert (Hns : Forall (fun c => is_space c = false) (py (pretty_N_go (N.pos p) ""))).
  { eapply Forall_impl; [exact Hdig | exact digit_not_space]. }
  destruct (digits_val_pretty (N.pos p) ltac:(lia) "") as (k & _ & Hval).
  rewrite strip_no_space by exact Hns. unfold int_of_str.
  rewrite strip_no_space by exact Hns.
  specialize (Hval 0%Z false). cbn [py list_ascii_of_string List.map digits_val] in Hval.
  destruct (py (pretty_N_go (N.pos p) "")) as [| c r] eqn:Hstr;
    [discriminate Hval |].
  apply Forall_cons in Hdig as [Hc _]. unfold is_digit in Hc.
  destruct (N.eqb_spec c 0x2B); [lia |]. destruct (N.eqb_spec c 0x2D); [lia |].
  rewrite Hval. f_equal.
Qed.

(** ** stream_control.py: the other ways through start and stop *)

(** A signal to one live process the caller may signal: it is delivered,
    and the process ends if that signal ends it. *)
Lemma os_kill_live (w : world) (pid : Z) (sig : signal) (p : process) :
  (0 < pid < 2 ^ 31)%Z -> procs w !! pid = Some p -> permitted p = true ->
  os_kill pid sig w
  = (Done tt,
     set_procs (if dies sig p then delete pid (procs w) else procs w)
       (log (Kill pid sig) w)).
Proof.
  intros Hrange Hlive Hperm. unfold os_kill.
  rewrite pid_t_ok_range by exact Hrange. unfold signal_all. cbn [procs log].
  assert (Haddr : forall q x, addressed (log (Kill pid sig) w) pid q x = (q =? pid)%Z).
  { intros q x. unfold addressed. destruct (Z.ltb_spec 0 pid); [reflexivity | lia]. }
  rewrite bool_decide_eq_false_2.
  2:{ intros Hempty. apply (f_equal (fun m => m !! pid)) in Hempty.
      rewrite lookup_empty in Hempty.
      apply map_lookup_filter_None in Hempty as [Hnone | Hnot]; [congruence |].
      apply (Hnot p Hlive). cbn. rewrite Haddr. apply Z.eqb_refl. }
  rewrite bool_decide_eq_false_2.
  2:{ intros Hempty. apply (f_equal (fun m => m !! pid)) in Hempty.
      rewrite lookup_empty in Hempty.
      apply map_lookup_filter_None in Hempty as [Hnone | Hnot].
      - apply map_lookup_filter_None in Hnone as [Hnone | Hnot]; [congruence |].
        apply (Hnot p Hlive). cbn. rewrite Haddr. apply Z.eqb_refl.
      - apply (Hnot p); [| exact Hperm].
        apply map_lookup_filter_Some. split; [exact Hlive |].
        cbn. rewrite Haddr. apply Z.eqb_refl. }
  f_equal. unfold set_procs. cbn [procs log fs next_pid installed self_pgid trace].
  f_equal. apply map_eq. intros q.
  destruct (decide (q = pid)) as [-> | Hq].
  - destruct (dies sig p) eqn:Hd.
    + rewrite lookup_delete_eq. apply map_lookup_filter_None. right.
      intros x Hx. cbn. rewrite Haddr, Z.eqb_refl.
      assert (x = p) by congruence. subst x. now rewrite Hd.
    + rewrite Hlive. apply map_lookup_filter_Some. split; [exact Hlive |].
      cbn. now rewrite Haddr, Z.eqb_refl, Hd.
  - assert (Hkeep : filter
              (fun qp : Z * process =>
                 negb (addressed (log (Kill pid sig) w) pid qp.1 qp.2
                       && dies sig qp.2) = true) (procs w) !! q = procs w !! q).
    { destruct (procs w !! q) as [x |] eqn:Hx.
      - apply map_lookup_filter_Some. split; [exact Hx |]. cbn. rewrite Haddr.
        destruct (Z.eqb_spec q pid); [contradiction | reflexivity].
      - apply map_lookup_filter_None. now left. }
    rewrite Hkeep. destruct (dies sig p); [now rewrite lookup_delete_ne |].
    reflexivity.
Qed.

Lemma os_kill_forbidden (w : world) (pid : Z) (sig : signal) (p : process) :
  (0 < pid < 2 ^ 31)%Z -> procs w !! pid = Some p -> permitted p = false ->
  os_kill pid sig w = (Raise PermissionError, log (Kill pid sig) w).
Proof.
  intros Hrange Hlive Hperm. unfold os_kill.
  rewrite pid_t_ok_range by exact Hrange. unfold signal_all. cbn [procs log].
  assert (Haddr : forall q x, addressed (log (Kill pid sig) w) pid q x = (q =? pid)%Z).
  { intros q x. unfold addressed. destruct (Z.ltb_spec 0 pid); [reflexivity | lia]. }
  rewrite bool_decide_eq_false_2.
  2:{ intros Hempty. apply (f_equal (fun m => m !! pid)) in Hempty.
      rewrite lookup_empty in Hempty.
      apply map_lookup_filter_None in Hempty as [Hnone | Hnot]; [congruence |].
      apply (Hnot p Hlive). cbn. rewrite Haddr. apply Z.eqb_refl. }
  rewrite bool_decide_eq_true_2; [reflexivity |].
  apply map_empty. intros q. apply map_lookup_filter_None. right.
  intros x Hx Hpx. cbn in Hpx.
  apply map_lookup_filter_Some in Hx as [Hx Hq]. cbn in Hq. rewrite Haddr in Hq.
  apply Z.eqb_eq in Hq. subst q. congruence.
Qed.

(** X1: [stop_stream] on a path without lock file is a no-op: it reports
    that no stream is running, signals nobody, leaves files and processes
    as they are and returns normally. *)
Theorem stop_stream_missing_lock (pid_file : pystr) (w : world) :
  fs w !! pid_file = None ->
  exists w',
    stream_control.stop_stream pid_file w = (Done tt, w')
    /\ fs w' = fs w
    /\ procs w' = procs w
    /\ new_events w w'
       = [Call "stop_stream"; Print (py "No stream running (pid file missing).")].
Proof.
  intros Hnone. eexists. unfold stream_control.stop_stream.
  rewrite (bind_Done _ _ w tt (log (Call "stop_stream") w)) by reflexivity.
  rewrite (bind_Done _ _ _ false (log (Call "stop_stream") w)).
  2:{ unfold path_exists. cbn [fs log]. rewrite bool_decide_eq_false_2;
        [reflexivity |]. rewrite Hnone. now intros [? ?]. }
  cbn [negb]. split; [reflexivity |]. repeat split.
  apply new_events_app. cbn. now rewrite <- app_assoc.
Qed.

Lemma stop_stream_missing_lock_witness :
  exists w',
    stream_control.stop_stream stream_control.DEFAULT_PID idle_world = (Done tt, w')
    /\ fs w' = fs idle_world
    /\ procs w' = procs idle_world
    /\ new_events idle_world w'
       = [Call "stop_stream"; Print (py "No stream running (pid file missing).")].
Proof.
  apply (stop_stream_missing_lock stream_control.DEFAULT_PID idle_world).
  vm_compute. reflexivity.
Defined.

(** X2: on a machine without lock file, [start_stream] launches exactly
    one child, which leads a process group of its own, and the lock file
    it writes reads back (the way [stop_stream] reads it) as the process
    id of that child. *)
Theorem start_stream_records_child (c : stream_control.config) (w : world) :
  fs w !! stream_control.pid_file c = None ->
  installed w = true ->
  (0 < next_pid w)%Z ->
  exists w' text,
    stream_control.start_stream c w = (Done tt, w')
    /\ List.filter (fun e => match e with Popen _ _ => true | _ => false end)
         (new_events w w')
       = [Popen (stream_control.command c) (next_pid w)]
    /\ procs w' !! next_pid w
       = Some {| pgid := next_pid w; permitted := true; ignores_term := false |}
    /\ (forall q, q <> next_pid w -> procs w' !! q = procs w !! q)
    /\ fs w' !! stream_control.pid_file c = Some text
    /\ int_of_str (strip text) = Some (next_pid w).
Proof.
  intros Hfree Hinst Hpos.
  destruct (start_stream_fresh c w Hfree Hinst) as (w' & Hrun & Hfs & Hprocs & Hev).
  exists w', (str_of_int (next_pid w)).
  split; [exact Hrun |]. split; [now rewrite Hev |].
  split; [now rewrite Hprocs, lookup_insert_eq |].
  split; [intros q Hq; now rewrite Hprocs, lookup_insert_ne |].
  split; [now rewrite Hfs, lookup_insert_eq |].
  now apply int_of_str_of_pid.
Qed.

Lemma start_stream_records_child_witness :
  exists w' text,
    stream_control.start_stream stream_control.defaults idle_world = (Done tt, w')
    /\ List.filter (fun e => match e with Popen _ _ => true | _ => false end)
         (new_events idle_world w')
       = [Popen (stream_control.command stream_control.defaults) (next_pid idle_world)]
    /\ procs w' !! next_pid idle_world
       = Some {| pgid := next_pid idle_world; permitted := true;
                 ignores_term := false |}
    /\ (forall q, q <> next_pid idle_world -> procs w' !! q = procs idle_world !! q)
    /\ fs w' !! stream_control.pid_file stream_control.defaults = Some text
    /\ int_of_str (strip text) = Some (next_pid idle_world).
Proof.
  apply (start_stream_records_child stream_control.defaults idle_world).
  - vm_compute. reflexivity.
  - reflexivity.
  - vm_compute. reflexivity.
Defined.

(** X3: when rpicam-vid cannot be launched, [start_stream] raises
    [FileNotFoundError] before it writes anything: no lock file appears
    and no process is added, so a later call tries again. *)
Theorem start_stream_not_installed (c : stream_control.config) (w : world) :
  fs w !! stream_control.pid_file c = None ->
  installed w = false ->
  exists w',
    stream_control.start_stream c w = (Raise FileNotFoundError, w')
    /\ fs w' = fs w
    /\ procs w' = procs w
    /\ new_events w w' = [Call "start_stream"].
Proof.
  intros Hfree Hinst. eexists. unfold stream_control.start_stream.
  rewrite (bind_Done _ _ w tt (log (Call "start_stream") w)) by reflexivity.
  rewrite (bind_Done _ _ _ false (log (Call "start_stream") w)).
  2:{ unfold path_exists. cbn [fs log]. rewrite bool_decide_eq_false_2;
        [reflexivity |]. rewrite Hfree. now intros [? ?]. }
  cbv beta iota.
  rewrite (bind_Raise _ _ _ FileNotFoundError (log (Call "start_stream") w)).
  2:{ unfold popen. cbn [installed log]. now rewrite Hinst. }
  split; [reflexivity |]. repeat split.
  apply new_events_app. reflexivity.
Qed.

Lemma start_stream_not_installed_witness :
  exists w',
    stream_control.start_stream stream_control.defaults
      {| fs := ∅; procs := ∅; next_pid := 4242; installed := false;
         self_pgid := 100; trace := [] |}
    = (Raise FileNotFoundError, w')
    /\ fs w' = ∅
    /\ procs w' = ∅
    /\ new_events
         {| fs := ∅; procs := ∅; next_pid := 4242; installed := false;
            self_pgid := 100; trace := [] |} w'
       = [Call "start_stream"].
Proof.
  apply (start_stream_not_installed stream_control.defaults
           {| fs := ∅; procs := ∅; next_pid := 4242; installed := false;
              self_pgid := 100; trace := [] |}).
  - vm_compute. reflexivity.
  - reflexivity.
Defined.

(** [stop_stream] on the lock file of a live process it may signal. *)
Lemma stop_stream_live (pid_file text : pystr) (pid : Z) (p : process) (w : world) :
  fs w !! pid_file = Some text ->
  int_of_str (strip text) = Some pid ->
  (0 < pid < 2 ^ 31)%Z ->
  procs w !! pid = Some p ->
  permitted p = true ->
  exists w',
    stream_control.stop_stream pid_file w = (Done tt, w')
    /\ fs w' = delete pid_file (fs w)
    /\ procs w' = (if ignores_term p then procs w else delete pid (procs w))
    /\ new_events w w'
       = [Call "stop_stream"; Kill pid SIGTERM; Print (py "Stopped stream.");
          RemoveFile pid_file].
Proof.
  intros Hfile Hpid Hrange Hlive Hperm. eexists.
  rewrite (stop_stream_locked pid_file text pid w Hfile Hpid).
  set (w1 := log (Call "stop_stream") w).
  pose proof (os_kill_live w1 pid SIGTERM p Hrange Hlive Hperm) as Hkill.
  erewrite (bind_Done _ _ w1 tt).
  2:{ apply try_except_Done. erewrite (bind_Done _ _ w1 tt); [reflexivity |].
      exact Hkill. }
  rewrite remove_lock. split; [reflexivity |]. subst w1. cbn.
  split; [reflexivity |]. split.
  - unfold dies. rewrite Hperm. cbn. now destruct (ignores_term p).
  - apply new_events_app. cbn. rewrite <- !app_assoc. reflexivity.
Qed.

(** X4: [stop_stream] does not check that the process ended.  On the
    lock file of a live process it may signal, it sends SIGTERM, prints
    "Stopped stream.", removes the lock file and returns normally; the
    process is gone afterwards only if it reacts to SIGTERM, and keeps
    running otherwise. *)
Theorem stop_stream_reports_success
    (pid_file text : pystr) (pid : Z) (p : process) (w : world) :
  fs w !! pid_file = Some text ->
  int_of_str (strip text) = Some pid ->
  (0 < pid < 2 ^ 31)%Z ->
  procs w !! pid = Some p ->
  permitted p = true ->
  exists w',
    stream_control.stop_stream pid_file w = (Done tt, w')
    /\ fs w' !! pid_file = None
    /\ procs w' !! pid = (if ignores_term p then Some p else None)
    /\ (forall q, q <> pid -> procs w' !! q = procs w !! q)
    /\ new_events w w'
       = [Call "stop_stream"; Kill pid SIGTERM; Print (py "Stopped stream.");
          RemoveFile pid_file].
Proof.
  intros Hfile Hpid Hrange Hlive Hperm.
  destruct (stop_stream_live pid_file text pid p w Hfile Hpid Hrange Hlive Hperm)
    as (w' & Hrun & Hfs & Hprocs & Hev).
  exists w'. split; [exact Hrun |].
  split; [rewrite Hfs; apply lookup_delete_eq |].
  split; [| split; [| exact Hev]].
  - rewrite Hprocs. destruct (ignores_term p); [exact Hlive | apply lookup_delete_eq].
  - intros q Hq. rewrite Hprocs.
    destruct (ignores_term p); [reflexivity | now apply lookup_delete_ne].
Qed.

Lemma stop_stream_reports_success_witness :
  exists w',
    stream_control.stop_stream stream_control.DEFAULT_PID hung_world = (Done tt, w')
    /\ fs w' !! stream_control.DEFAULT_PID = None
    /\ procs w' !! 4242%Z
       = (if ignores_term {| pgid := 4242; permitted := true; ignores_term := true |}
          then Some {| pgid := 4242; permitted := true; ignores_term := true |}
          else None)
    /\ (forall q, q <> 4242%Z -> procs w' !! q = procs hung_world !! q)
    /\ new_events hung_world w'
       = [Call "stop_stream"; Kill 4242 SIGTERM; Print (py "Stopped stream.");
          RemoveFile stream_control.DEFAULT_PID].
Proof.
  apply (stop_stream_reports_success stream_control.DEFAULT_PID (py "4242") 4242
           {| pgid := 4242; permitted := true; ignores_term := true |} hung_world).
  - vm_compute. reflexivity.
  - vm_compute. reflexivity.
  - lia.
  - vm_compute. reflexivity.
  - reflexivity.
Defined.

(** [stop_stream] on the lock file that a start has written for a child
    that is alive: the lock file goes, one SIGTERM is sent to the child
    and nothing else, and the child is gone afterwards unless it ignores
    the signal. *)
Lemma stop_stream_started (c : stream_control.config) (w w1 : world) (p : process) :
  fs w !! stream_control.pid_file c = None ->
  (0 < next_pid w < 2 ^ 31)%Z ->
  fs w1 = <[stream_control.pid_file c := str_of_int (next_pid w)]> (fs w) ->
  procs w1 !! next_pid w = Some p ->
  permitted p = true ->
  exists w2,
    stream_control.stop_stream (stream_control.pid_file c) w1 = (Done tt, w2)
    /\ fs w2 = fs w
    /\ (forall q, q <> next_pid w -> procs w2 !! q = procs w1 !! q)
    /\ procs w2 !! next_pid w = (if ignores_term p then Some p else None)
    /\ new_events w1 w2
       = [Call "stop_stream"; Kill (next_pid w) SIGTERM;
          Print (py "Stopped stream.");
          RemoveFile (stream_control.pid_file c)].
Proof.
  intros Hfree Hrange Hfs1 Hchild Hmay.
  destruct (stop_stream_live (stream_control.pid_file c)
              (str_of_int (next_pid w)) (next_pid w) p w1)
    as (w2 & Hstop & Hfs2 & Hprocs2 & Hev).
  - now rewrite Hfs1, lookup_insert_eq.
  - apply int_of_str_of_pid. lia.
  - exact Hrange.
  - exact Hchild.
  - exact Hmay.
  - exists w2. split; [exact Hstop |]. split; [| split; [| split; [| exact Hev]]].
    + rewrite Hfs2, Hfs1. now apply delete_insert_id.
    + intros q Hq. rewrite Hprocs2. destruct (ignores_term p); [reflexivity |].
      now apply lookup_delete_ne.
    + rewrite Hprocs2. destruct (ignores_term p); [exact Hchild |].
      apply lookup_delete_eq.
Qed.

(** X5: start followed by stop, on a machine without lock file.
    [start_stream] leaves a lock file that reads back as the id of the
    child it started; [stop_stream] then sends that child one SIGTERM and
    nothing else and removes the lock file, so the files are as before
    the start and no other process is touched.  Whether the child is gone
    afterwards is the child's affair: it is gone if it ends on SIGTERM and
    still there if it ignores the signal, since the code neither waits
    nor sends anything stronger. *)
Theorem start_stop_round_trip (c : stream_control.config) (w : world) :
  fs w !! stream_control.pid_file c = None ->
  installed w = true ->
  (0 < next_pid w < 2 ^ 31)%Z ->
  exists w1 p,
    stream_control.start_stream c w = (Done tt, w1)
    /\ (exists text, fs w1 !! stream_control.pid_file c = Some text
                     /\ int_of_str (strip text) = Some (next_pid w))
    /\ procs w1 !! next_pid w = Some p
    /\ (exists w2,
          stream_control.stop_stream (stream_control.pid_file c) w1 = (Done tt, w2)
          /\ fs w2 = fs w
          /\ (forall q, q <> next_pid w -> procs w2 !! q = procs w !! q)
          /\ procs w2 !! next_pid w = (if ignores_term p then Some p else None)
          /\ new_events w1 w2
             = [Call "stop_stream"; Kill (next_pid w) SIGTERM;
                Print (py "Stopped stream.");
                RemoveFile (stream_control.pid_file c)])
    /\ (forall stubborn : bool,
          exists w2,
            stream_control.stop_stream (stream_control.pid_file c)
              (answering_term (next_pid w) stubborn w1) = (Done tt, w2)
            /\ fs w2 = fs w
            /\ (forall q, q <> next_pid w -> procs w2 !! q = procs w !! q)
            /\ (procs w2 !! next_pid w = None <-> stubborn = false)
            /\ new_events w1 w2
               = [Call "stop_stream"; Kill (next_pid w) SIGTERM;
                  Print (py "Stopped stream.");
                  RemoveFile (stream_control.pid_file c)]).
Proof.
  intros Hfree Hinst Hrange.
  destruct (start_stream_fresh c w Hfree Hinst)
    as (w1 & Hstart & Hfs1 & Hprocs1 & _).
  assert (Hchild : exists p, procs w1 !! next_pid w = Some p /\ permitted p = true).
  { eexists. split; [rewrite Hprocs1; apply lookup_insert_eq | reflexivity]. }
  destruct Hchild as (p & Hchild & Hmay).
  assert (Hothers : forall q, q <> next_pid w -> procs w1 !! q = procs w !! q).
  { intros q Hq. rewrite Hprocs1. apply lookup_insert_ne. congruence. }
  exists w1, p. split; [exact Hstart |]. split; [| split; [exact Hchild | split]].
  - exists (str_of_int (next_pid w)). split.
    + now rewrite Hfs1, lookup_insert_eq.
    + apply int_of_str_of_pid. lia.
  - destruct (stop_stream_started c w w1 p Hfree Hrange Hfs1 Hchild Hmay)
      as (w2 & Hstop & Hfs2 & Hrest & Hgone & Hev).
    exists w2. split; [exact Hstop |]. split; [exact Hfs2 |].
    split; [| split; [exact Hgone | exact Hev]].
    intros q Hq. rewrite Hrest by exact Hq. now apply Hothers.
  - intros stubborn.
    destruct (stop_stream_started c w (answering_term (next_pid w) stubborn w1)
                {| pgid := pgid p; permitted := permitted p;
                   ignores_term := stubborn |} Hfree Hrange Hfs1)
      as (w2 & Hstop & Hfs2 & Hrest & Hgone & Hev).
    + cbn. now rewrite lookup_alter_eq, Hchild.
    + exact Hmay.
    + exists w2. split; [exact Hstop |]. split; [exact Hfs2 |].
      split; [| split; [| exact Hev]].
      * intros q Hq. rewrite Hrest by exact Hq. cbn.
        rewrite lookup_alter_ne by congruence. now apply Hothers.
      * rewrite Hgone. cbn. destruct stubborn; split; congruence.
Qed.

(** The round trip on the idle machine, with a child that ends on SIGTERM
    and with one that ignores it. *)
Lemma start_stop_round_trip_witness :
  exists w1 p,
    stream_control.start_stream stream_control.defaults idle_world = (Done tt, w1)
    /\ procs w1 !! next_pid idle_world = Some p
    /\ (exists w2,
          stream_control.stop_stream
            (stream_control.pid_file stream_control.defaults) w1 = (Done tt, w2)
          /\ fs w2 = fs idle_world
          /\ procs w2 !! next_pid idle_world
             = (if ignores_term p then Some p else None))
    /\ (exists w2,
          stream_control.stop_stream
            (stream_control.pid_file stream_control.defaults)
            (answering_term (next_pid idle_world) true w1) = (Done tt, w2)
          /\ fs w2 = fs idle_world
          /\ procs w2 !! next_pid idle_world <> None).
Proof.
  destruct (start_stop_round_trip stream_control.defaults idle_world)
    as (w1 & p & Hstart & _ & Hchild & Hplain & Hany).
  - vm_compute. reflexivity.
  - reflexivity.
  - cbn. lia.
  - exists w1, p. split; [exact Hstart |]. split; [exact Hchild |]. split.
    + destruct Hplain as (w2 & Hstop & Hfs & _ & Hgone & _).
      exists w2. split; [exact Hstop |]. split; [exact Hfs | exact Hgone].
    + destruct (Hany true) as (w2 & Hstop & Hfs & _ & Hgone & _).
      exists w2. split; [exact Hstop |]. split; [exact Hfs |].
      intros Hnone. apply Hgone in Hnone. discriminate.
Defined.

Lemma stop_stream_garbled (pid_file text : pystr) (w : world) :
  fs w !! pid_file = Some text ->
  int_of_str (strip text) = None ->
  stream_control.stop_stream pid_file w
  = (Raise ValueError, log (Call "stop_stream") w).
Proof.
  intros Hfile Hbad. unfold stream_control.stop_stream.
  rewrite (bind_Done _ _ w tt (log (Call "stop_stream") w)) by reflexivity.
  rewrite (bind_Done _ _ _ true (log (Call "stop_stream") w)).
  2:{ unfold path_exists. cbn [fs log]. rewrite bool_decide_eq_true_2;
        [reflexivity | now rewrite Hfile]. }
  cbn [negb].
  rewrite (bind_Done _ _ _ text (log (Call "stop_stream") w)).
  2:{ unfold read_file. cbn [fs log]. now rewrite Hfile. }
  rewrite Hbad.
  now rewrite (bind_Raise _ _ _ ValueError (log (Call "stop_stream") w)).
Qed.

Lemma stop_stream_absent (pid_file : pystr) (w : world) :
  fs w !! pid_file = None ->
  stream_control.stop_stream pid_file w
  = (Done tt,
     log (Print (py "No stream running (pid file missing)."))
       (log (Call "stop_stream") w)).
Proof.
  intros Hnone. unfold stream_control.stop_stream.
  rewrite (bind_Done _ _ w tt (log (Call "stop_stream") w)) by reflexivity.
  rewrite (bind_Done _ _ _ false (log (Call "stop_stream") w)); [reflexivity |].
  unfold path_exists. cbn [fs log]. rewrite bool_decide_eq_false_2;
    [reflexivity |]. rewrite Hnone. now intros [? ?].
Qed.

(** X6: a lock file that does not hold an integer makes [stop_stream]
    raise [ValueError] before it signals anybody or removes anything: the
    lock file stays where it is. *)
Theorem stop_stream_corrupt_lock (pid_file text : pystr) (w : world) :
  fs w !! pid_file = Some text ->
  Forall (fun c => (c < 128)%N) text ->
  int_of_str (strip text) = None ->
  exists w',
    stream_control.stop_stream pid_file w = (Raise ValueError, w')
    /\ fs w' = fs w
    /\ procs w' = procs w
    /\ new_events w w' = [Call "stop_stream"].
Proof.
  intros Hfile _ Hbad. eexists.
  split; [now apply (stop_stream_garbled pid_file text) |].
  repeat split. apply new_events_app. reflexivity.
Qed.

Lemma stop_stream_corrupt_lock_witness :
  exists w',
    stream_control.stop_stream stream_control.DEFAULT_PID corrupt_world
    = (Raise ValueError, w')
    /\ fs w' = fs corrupt_world
    /\ procs w' = procs corrupt_world
    /\ new_events corrupt_world w' = [Call "stop_stream"].
Proof.
  apply (stop_stream_corrupt_lock stream_control.DEFAULT_PID [] corrupt_world).
  - vm_compute. reflexivity.
  - constructor.
  - reflexivity.
Defined.

(** X7: only [ProcessLookupError] is handled.  When the lock file names
    a live process the caller may not signal, [stop_stream] raises
    [PermissionError] and the lock file is not removed. *)
Theorem stop_stream_not_permitted
    (pid_file text : pystr) (pid : Z) (p : process) (w : world) :
  fs w !! pid_file = Some text ->
  int_of_str (strip text) = Some pid ->
  (0 < pid < 2 ^ 31)%Z ->
  procs w !! pid = Some p ->
  permitted p = false ->
  exists w',
    stream_control.stop_stream pid_file w = (Raise PermissionError, w')
    /\ fs w' = fs w
    /\ procs w' = procs w
    /\ new_events w w' = [Call "stop_stream"; Kill pid SIGTERM].
Proof.
  intros Hfile Hpid Hrange Hlive Hperm. eexists.
  rewrite (stop_stream_locked pid_file text pid w Hfile Hpid).
  set (w1 := log (Call "stop_stream") w).
  rewrite (bind_Raise _ _ w1 PermissionError (log (Kill pid SIGTERM) w1)).
  2:{ apply try_except_passed; [| reflexivity]. apply bind_Raise.
      now apply (os_kill_forbidden w1 pid SIGTERM p). }
  split; [reflexivity |]. repeat split.
  apply new_events_app. subst w1. cbn. now rewrite <- app_assoc.
Qed.

Lemma stop_stream_not_permitted_witness :
  exists w',
    stream_control.stop_stream stream_control.DEFAULT_PID foreign_world
    = (Raise PermissionError, w')
    /\ fs w' = fs foreign_world
    /\ procs w' = procs foreign_world
    /\ new_events foreign_world w' = [Call "stop_stream"; Kill 4242 SIGTERM].
Proof.
  apply (stop_stream_not_permitted stream_control.DEFAULT_PID (py "4242") 4242
           {| pgid := 4000; permitted := false; ignores_term := false |}
           foreign_world).
  - vm_compute. reflexivity.
  - vm_compute. reflexivity.
  - lia.
  - vm_compute. reflexivity.
  - reflexivity.
Defined.

(** X8: after a [stop_stream] that returned, the lock file is gone, and a
    second [stop_stream] is a no-op that reports that no stream is
    running. *)
Theorem stop_stream_twice (pid_file : pystr) (w w1 : world) :
  stream_control.stop_stream pid_file w = (Done tt, w1) ->
  fs w1 !! pid_file = None
  /\ exists w2,
       stream_control.stop_stream pid_file w1 = (Done tt, w2)
       /\ fs w2 = fs w1
       /\ procs w2 = procs w1
       /\ new_events w1 w2
          = [Call "stop_stream";
             Print (py "No stream running (pid file missing).")].
Proof.
  intros Hrun.
  assert (Hgone : fs w1 !! pid_file = None).
  { destruct (fs w !! pid_file) as [text |] eqn:Hfile.
    - destruct (int_of_str (strip text)) as [pid |] eqn:Hpid.
      + rewrite (stop_stream_locked pid_file text pid w Hfile Hpid) in Hrun.
        bind_inv Hrun. rewrite remove_lock in Hrun. injection Hrun as <-.
        cbn. apply lookup_delete_eq.
      + rewrite (stop_stream_garbled pid_file text w Hfile Hpid) in Hrun.
        discriminate Hrun.
    - rewrite (stop_stream_absent pid_file w Hfile) in Hrun.
      injection Hrun as <-. exact Hfile. }
  split; [exact Hgone |]. eexists.
  split; [now apply stop_stream_absent |]. repeat split.
  apply new_events_app. cbn. now rewrite <- app_assoc.
Qed.

Lemma stop_stream_twice_witness :
  fs (stream_control.stop_stream stream_control.DEFAULT_PID stale_world).2
    !! stream_control.DEFAULT_PID = None
  /\ exists w2,
       stream_control.stop_stream stream_control.DEFAULT_PID
         (stream_control.stop_stream stream_control.DEFAULT_PID stale_world).2
       = (Done tt, w2)
       /\ fs w2 = fs (stream_control.stop_stream stream_control.DEFAULT_PID stale_world).2
       /\ procs w2
          = procs (stream_control.stop_stream stream_control.DEFAULT_PID stale_world).2
       /\ new_events
            (stream_control.stop_stream stream_control.DEFAULT_PID stale_world).2 w2
          = [Call "stop_stream";
             Print (py "No stream running (pid file missing).")].
Proof.
  apply (stop_stream_twice stream_control.DEFAULT_PID stale_world).
  vm_compute. reflexivity.
Defined.

Lemma start_stream_fresh_system (c : stream_control.config) (w : world) :
  fs w !! stream_control.pid_file c = None -> installed w = true ->
  exists w',
    stream_control.start_stream c w = (Done tt, w')
    /\ fs w' = <[stream_control.pid_file c := str_of_int (next_pid w)]> (fs w)
    /\ procs w'
       = <[next_pid w := {| pgid := next_pid w; permitted := true;
                            ignores_term := false |}]> (procs w)
    /\ next_pid w' = (next_pid w + 1)%Z
    /\ installed w' = true
    /\ List.filter (fun e => match e with Popen _ _ => true | _ => false end)
         (new_events w w')
       = [Popen (stream_control.command c) (next_pid w)].
Proof.
  intros Hfree Hinst. eexists. unfold stream_control.start_stream.
  rewrite (bind_Done _ _ w tt (log (Call "start_stream") w)) by reflexivity.
  rewrite (bind_Done _ _ _ false (log (Call "start_stream") w)).
  2:{ unfold path_exists. cbn [fs log]. rewrite bool_decide_eq_false_2;
        [reflexivity |]. rewrite Hfree. now intros [? ?]. }
  cbv beta iota. unfold popen, mbind, M_bind. cbn [installed log].
  rewrite Hinst. cbn. split; [reflexivity |]. repeat split.
  erewrite new_events_app; [| cbn; rewrite <- !app_assoc; reflexivity].
  reflexivity.
Qed.

(** X9: the lock is per lock-file path.  Two calls of [start_stream]
    with different lock files, on a machine that has neither, launch two
    children side by side, each with its own lock file. *)
Theorem start_stream_two_locks (c1 c2 : stream_control.config) (w : world) :
  stream_control.pid_file c1 <> stream_control.pid_file c2 ->
  fs w !! stream_control.pid_file c1 = None ->
  fs w !! stream_control.pid_file c2 = None ->
  installed w = true ->
  exists w1 w2,
    stream_control.start_stream c1 w = (Done tt, w1)
    /\ stream_control.start_stream c2 w1 = (Done tt, w2)
    /\ is_Some (procs w2 !! next_pid w)
    /\ is_Some (procs w2 !! (next_pid w + 1)%Z)
    /\ fs w2 !! stream_control.pid_file c1 = Some (str_of_int (next_pid w))
    /\ fs w2 !! stream_control.pid_file c2 = Some (str_of_int (next_pid w + 1))
    /\ List.filter (fun e => match e with Popen _ _ => true | _ => false end)
         (new_events w w1 ++ new_events w1 w2)
       = [Popen (stream_control.command c1) (next_pid w);
          Popen (stream_control.command c2) (next_pid w + 1)].
Proof.
  intros Hdiff Hfree1 Hfree2 Hinst.
  destruct (start_stream_fresh_system c1 w Hfree1 Hinst)
    as (w1 & Hrun1 & Hfs1 & Hprocs1 & Hnext1 & Hinst1 & Hev1).
  destruct (start_stream_fresh_system c2 w1)
    as (w2 & Hrun2 & Hfs2 & Hprocs2 & _ & _ & Hev2).
  { rewrite Hfs1, lookup_insert_ne by exact Hdiff. exact Hfree2. }
  { exact Hinst1. }
  rewrite Hnext1 in *.
  exists w1, w2. split; [exact Hrun1 |]. split; [exact Hrun2 |].
  split; [| split; [| split; [| split]]].
  - rewrite Hprocs2, Hprocs1, lookup_insert_ne by lia.
    rewrite lookup_insert_eq. now eexists.
  - rewrite Hprocs2, lookup_insert_eq. now eexists.
  - rewrite Hfs2, Hfs1, lookup_insert_ne by congruence. apply lookup_insert_eq.
  - rewrite Hfs2. apply lookup_insert_eq.
  - now rewrite List.filter_app, Hev1, Hev2.
Qed.

Lemma start_stream_two_locks_witness :
  exists w1 w2,
    stream_control.start_stream stream_control.defaults idle_world = (Done tt, w1)
    /\ stream_control.start_stream second_stream w1 = (Done tt, w2)
    /\ is_Some (procs w2 !! next_pid idle_world)
    /\ is_Some (procs w2 !! (next_pid idle_world + 1)%Z)
    /\ fs w2 !! stream_control.pid_file stream_control.defaults
       = Some (str_of_int (next_pid idle_world))
    /\ fs w2 !! stream_control.pid_file second_stream
       = Some (str_of_int (next_pid idle_world + 1))
    /\ List.filter (fun e => match e with Popen _ _ => true | _ => false end)
         (new_events idle_world w1 ++ new_events w1 w2)
       = [Popen (stream_control.command stream_control.defaults) (next_pid idle_world);
          Popen (stream_control.command second_stream) (next_pid idle_world + 1)].
Proof.
  apply (start_stream_two_locks stream_control.defaults second_stream idle_world).
  - vm_compute. discriminate.
  - vm_compute. reflexivity.
  - vm_compute. reflexivity.
  - reflexivity.
Defined.

(** ** Statements that only display *)

#[global] Instance same_system_quiet : Quiet same_system.
Proof.
  split.
  - intros w. repeat split.
  - intros w1 w2 w3 (H1 & H2 & H3 & H4 & H5) (K1 & K2 & K3 & K4 & K5).
    repeat split; congruence.
  - intros e w. repeat split.
Qed.

#[global] Instance saves_views_quiet : Quiet saves_views.
Proof.
  split.
  - intros w. repeat split.
  - intros w1 w2 w3 [(H1 & H2 & H3 & H4) Hf] [(K1 & K2 & K3 & K4) Kf].
    split; [repeat split; congruence |].
    intros path Hpath. now rewrite Kf, Hf.
  - intros e w. repeat split.
Qed.

Section Keeps.
Context {sys : world -> world -> Prop} `{!Quiet sys} (Q : event -> Prop).

Lemma display_ret {A} (R : A -> Prop) (a : A) : R a -> keeps sys Q R (mret a).
Proof.
  intros Ha w. cbn. split; [apply quiet_refl |]. split.
  - exists []. split; [now rewrite app_nil_r | constructor].
  - intros a' [= <-]. exact Ha.
Qed.

Lemma display_raise {A} (R : A -> Prop) (e : exn) : keeps sys Q R (raise e).
Proof.
  intros w. cbn. split; [apply quiet_refl |]. split.
  - exists []. split; [now rewrite app_nil_r | constructor].
  - discriminate.
Qed.

Lemma display_starve {A} (R : A -> Prop) : keeps sys Q R starve.
Proof.
  intros w. cbn. split; [apply quiet_refl |]. split.
  - exists []. split; [now rewrite app_nil_r | constructor].
  - discriminate.
Qed.

Lemma display_emit (R : unit -> Prop) (e : event) :
  Q e -> R tt -> keeps sys Q R (emit e).
Proof.
  intros He Ht w. cbn. split; [apply quiet_log |]. split.
  - exists [e]. split; [reflexivity | now constructor].
  - now intros [] _.
Qed.

Lemma display_bind {A B} (R : A -> Prop) (S : B -> Prop) (m : M A) (f : A -> M B) :
  keeps sys Q R m -> (forall a, R a -> keeps sys Q S (f a)) ->
  keeps sys Q S (m ≫= f).
Proof.
  intros Hm Hf w. destruct (Hm w) as (Hsys & (evs & Htr & Hq) & Hr).
  unfold mbind, M_bind. destruct (m w) as [[a | e |] w1]; cbn in *.
  - destruct (Hf a (Hr a eq_refl) w1) as (Hsys' & (evs' & Htr' & Hq') & Hs).
    split; [eapply quiet_trans; eassumption |]. split; [| exact Hs].
    exists (evs ++ evs'). rewrite Htr', Htr, app_assoc.
    split; [reflexivity | now apply Forall_app].
  - split; [exact Hsys |]. split; [now exists evs | discriminate].
  - split; [exact Hsys |]. split; [now exists evs | discriminate].
Qed.

Lemma display_weaken {A} (R R' : A -> Prop) (m : M A) :
  (forall a, R a -> R' a) -> keeps sys Q R m -> keeps sys Q R' m.
Proof.
  intros Himp Hm w. destruct (Hm w) as (Hsys & Hev & Hr).
  split; [exact Hsys |]. split; [exact Hev |]. intros a Ha. now apply Himp, Hr.
Qed.

Lemma display_fallible (R : unit -> Prop) (e : event) (fault : option exn) :
  Q e -> R tt -> keeps sys Q R (fallible e fault).
Proof.
  intros He Ht. unfold fallible.
  apply (display_bind (fun _ => True)); [now apply display_emit |].
  intros [] _. destruct fault; [apply display_raise | now apply display_ret].
Qed.

End Keeps.

(** Saving a view changes the file of that name and nothing else. *)
Lemma display_imwrite (Q : event -> Prop) (name content : pystr) :
  saved_view name -> Q (Imwrite name) ->
  keeps saves_views Q (fun _ => True) (cv2_imwrite name content).
Proof.
  intros Hname Hq w. cbn. split; [| split].
  - split; [repeat split |]. intros path Hpath.
    apply lookup_insert_ne. intros <-. contradiction.
  - exists [Imwrite name]. split; [reflexivity | now constructor].
  - easy.
Qed.

Lemma lock_file_not_a_view : ~ saved_view stream_control.DEFAULT_PID.
Proof. intros [stamp Heq]. discriminate Heq. Qed.

(** ** ocr_reader.py: what the capture loop shows *)

Lemma stable_member (hist : list pystr) :
  ocr_reader.stable hist <> [] -> ocr_reader.stable hist ∈ hist.
Proof.
  intros Hval. destruct (stable_cases hist) as [[Hnone _] | [Hge _]];
    [contradiction |].
  apply occurrences_elem_of. unfold ocr_reader.REQUIRED in Hge. lia.
Qed.

Lemma window_ok_empty : window_ok [].
Proof. split; [cbn; lia | constructor]. Qed.

Lemma display_flush_frames {sys} `{!Quiet sys} (Q : event -> Prop) (n : nat) :
  Q Grab -> keeps sys Q (fun _ => True) (ocr_reader.flush_frames n).
Proof.
  intros Hg. induction n as [| n IH]; cbn [ocr_reader.flush_frames].
  - now apply display_ret.
  - apply (display_bind Q (fun _ => True)); [now apply display_emit |].
    intros _ _. exact IH.
Qed.

Lemma display_offer {sys} `{!Quiet sys} (Q : event -> Prop)
    (hist : list pystr) (plate : pystr) :
  (forall msg, Q (Print msg)) ->
  window_ok hist -> Forall (fun c => is_plate_char c = true) plate ->
  keeps sys Q window_ok (ocr_reader.offer hist plate).
Proof.
  intros Hq [Hlen Hall] Hplate. unfold ocr_reader.offer.
  destruct (ocr_reader.accepts plate) eqn:Hacc; [| now apply display_ret].
  apply (display_bind Q (fun _ => True)); [now apply display_emit |].
  intros _ _. apply display_ret. split.
  - now apply deque_append_length.
  - apply deque_append_Forall; [exact Hall |].
    split; [now apply accepts_plate_length | exact Hplate].
Qed.

Lemma ocr_best_alphabet unicode_upper (txt_a txt_b : pystr) :
  Forall (fun c => is_plate_char c = true)
    (ocr_reader.ocr_best unicode_upper txt_a txt_b).
Proof.
  unfold ocr_reader.ocr_best.
  destruct (_ <=? _)%nat; apply normalize_plate_alphabet.
Qed.

Lemma label_of_window (hist : list pystr) :
  window_ok hist ->
  reader_event
    (Imshow (py "LPR (low latency)")
       (match ocr_reader.stable hist with
        | [] => py "(reading...)"
        | _ => ocr_reader.stable hist
        end)).
Proof.
  intros [_ Hall]. cbn. split; [reflexivity |].
  destruct (ocr_reader.stable hist) as [| c r] eqn:Hst; [now left |]. right.
  assert (Hin : ocr_reader.stable hist ∈ hist)
    by (apply stable_member; now rewrite Hst).
  rewrite Hst in Hin. rewrite Forall_forall in Hall. now apply Hall.
Qed.

Lemma loop_displays unicode_upper
    (ts : list ocr_reader.tick) (hist : list pystr) (frame_id : Z) :
  window_ok hist ->
  keeps saves_views reader_event window_ok
    (ocr_reader.loop unicode_upper ts hist frame_id).
Proof.
  revert hist frame_id.
  induction ts as [| t rest IH]; intros hist frame_id Hwin;
    cbn [ocr_reader.loop]; [apply display_starve |].
  destruct t as [e | | txt_a txt_b key now].
  - apply (display_bind _ (fun _ => True));
      [now apply display_flush_frames |]. intros _ _. apply display_raise.
  - apply (display_bind _ (fun _ => True));
      [now apply display_flush_frames |]. intros _ _.
    apply (display_bind _ (fun _ => True));
      [now apply display_fallible |]. intros _ _.
    now apply IH.
  - apply (display_bind _ (fun _ => True));
      [now apply display_flush_frames |]. intros _ _.
    apply (display_bind _ window_ok).
    { destruct (_ =? 0)%Z; [| now apply display_ret].
      apply display_offer; [easy | exact Hwin | apply ocr_best_alphabet]. }
    intros hist1 Hwin1.
    apply (display_bind _ (fun _ => True)).
    { apply display_emit; [now apply label_of_window | exact I]. }
    intros _ _. destruct (Z.land key 255 =? 113)%Z; [now apply display_ret |].
    apply (display_bind _ (fun _ => True)).
    { destruct (Z.land key 255 =? 115)%Z; [| now apply display_ret].
      apply (display_bind _ (fun _ => True)); [| intros _ _; now apply display_emit].
      apply display_imwrite; [now exists now | now exists now]. }
    intros _ _. now apply IH.
Qed.

(** X10: the capture loop of ocr_reader.py only displays and saves
    views.  From a window of accepted samples it touches no process and
    no file other than the views it saves as lpr_<time>.jpg, so never the
    lock file of the stream; all it adds to the trace are frame grabs,
    10 ms sleeps, prints, saved views and views whose label is
    "(reading...)" or a string of PLATE_MIN to PLATE_MAX characters over
    A-Z and 0-9; and the window it ends with is again such a window of at
    most HISTORY samples. *)
Theorem reader_loop_displays unicode_upper
    (ts : list ocr_reader.tick) (hist : list pystr) (frame_id : Z) :
  window_ok hist ->
  keeps saves_views reader_event window_ok
    (ocr_reader.loop unicode_upper ts hist frame_id)
  /\ (forall w,
        fs (ocr_reader.loop unicode_upper ts hist frame_id w).2
          !! stream_control.DEFAULT_PID
        = fs w !! stream_control.DEFAULT_PID).
Proof.
  intros Hwin.
  pose proof (loop_displays unicode_upper ts hist frame_id Hwin) as Hloop.
  split; [exact Hloop |]. intros w.
  destruct (Hloop w) as ([_ Hfiles] & _ & _).
  apply Hfiles, lock_file_not_a_view.
Qed.

(** A run in which the s key saves a view while a lock file is there. *)
Lemma reader_loop_displays_witness :
  keeps saves_views reader_event window_ok
    (ocr_reader.loop no_table
       [ocr_reader.NoFrame;
        ocr_reader.Frame (py "ab12cd") (py "a8") 115 (py "t")] [] 4)
  /\ (forall w,
        fs (ocr_reader.loop no_table
              [ocr_reader.NoFrame;
               ocr_reader.Frame (py "ab12cd") (py "a8") 115 (py "t")] [] 4 w).2
          !! stream_control.DEFAULT_PID
        = fs w !! stream_control.DEFAULT_PID).
Proof.
  apply (reader_loop_displays no_table
           [ocr_reader.NoFrame;
            ocr_reader.Frame (py "ab12cd") (py "a8") 115 (py "t")] [] 4).
  split; [cbn; lia | constructor].
Defined.

(** In that run the saved view is a new file, and the lock file stays. *)
Example reader_loop_saves_view :
  let w' := (ocr_reader.loop no_table
               [ocr_reader.NoFrame;
                ocr_reader.Frame (py "ab12cd") (py "a8") 115 (py "t")] [] 4
               stale_world).2 in
  is_Some (fs w' !! py "lpr_t.jpg")
  /\ fs stale_world !! py "lpr_t.jpg" = None
  /\ fs w' !! stream_control.DEFAULT_PID = Some (py "4242").
Proof.
  cbv zeta. split; [| split]; vm_compute; [eexists |..]; reflexivity.
Qed.

Lemma deque_append_grows_by_one {K : Type} (maxlen : nat) (d : list K) (x : K) :
  length (deque_append maxlen d x) <= length d + 1.
Proof.
  unfold deque_append. destruct (maxlen <? length (d ++ [x]))%nat.
  - destruct d as [| y d]; cbn; [lia |]. rewrite length_app. cbn. lia.
  - rewrite length_app. cbn. lia.
Qed.

Lemma stable_needs_required (hist : list pystr) :
  length hist < ocr_reader.REQUIRED -> ocr_reader.stable hist = [].
Proof.
  intros Hshort. destruct (stable_cases hist) as [[Hnone _] | [Hge _]];
    [exact Hnone |].
  pose proof (occurrences_le_length (ocr_reader.stable hist) hist). lia.
Qed.

Lemma frames_cons (t : ocr_reader.tick) (ts : list ocr_reader.tick) :
  frames (t :: ts)
  = ((match t with ocr_reader.Frame _ _ _ _ => 1 | _ => 0 end) + frames ts)%Z.
Proof. unfold frames. cbn [List.filter]. destruct t; cbn [length]; lia. Qed.

(** The loop offers a candidate on every OCR_EVERY-th frame only, so the
    window cannot hold more samples than that many frames allow; as long
    as it holds fewer than REQUIRED, nothing but the placeholder is
    shown. *)
Lemma reader_loop_warming unicode_upper
    (ts : list ocr_reader.tick) (hist : list pystr) (frame_id : Z) :
  (ocr_reader.OCR_EVERY * Z.of_nat (length hist) <= frame_id)%Z ->
  (frame_id + frames ts < Z.of_nat ocr_reader.REQUIRED * ocr_reader.OCR_EVERY)%Z ->
  keeps saves_views no_plate_shown (fun _ => True)
    (ocr_reader.loop unicode_upper ts hist frame_id).
Proof.
  revert hist frame_id.
  induction ts as [| t rest IH]; intros hist frame_id Hfew Hearly;
    cbn [ocr_reader.loop]; [apply display_starve |].
  rewrite frames_cons in Hearly.
  destruct t as [e | | txt_a txt_b key now].
  - apply (display_bind _ (fun _ => True));
      [now apply display_flush_frames |]. intros _ _. apply display_raise.
  - apply (display_bind _ (fun _ => True));
      [now apply display_flush_frames |]. intros _ _.
    apply (display_bind _ (fun _ => True));
      [now apply display_fallible |]. intros _ _.
    apply IH; [exact Hfew | lia].
  - apply (display_bind _ (fun _ => True));
      [now apply display_flush_frames |]. intros _ _.
    assert (Hframes : (0 <= frames rest)%Z) by (unfold frames; lia).
    apply (display_bind _
             (fun h => (ocr_reader.OCR_EVERY * Z.of_nat (length h)
                        <= frame_id + 1)%Z)).
    { destruct (Z.eqb_spec ((frame_id + 1) mod ocr_reader.OCR_EVERY) 0)
        as [Hdue | _]; [| apply display_ret; lia].
      unfold ocr_reader.offer.
      destruct (ocr_reader.accepts _); [| apply display_ret; lia].
      apply (display_bind _ (fun _ => True)); [now apply display_emit |].
      intros _ _. apply display_ret.
      pose proof (deque_append_grows_by_one ocr_reader.HISTORY hist
                    (ocr_reader.ocr_best unicode_upper txt_a txt_b)) as Hone.
      unfold ocr_reader.OCR_EVERY in *.
      pose proof (Z.div_mod (frame_id + 1) 5 ltac:(lia)) as Hdm.
      rewrite Hdue in Hdm. lia. }
    intros hist1 Hfew1.
    assert (Hnone : ocr_reader.stable hist1 = []).
    { apply stable_needs_required.
      unfold ocr_reader.OCR_EVERY, ocr_reader.REQUIRED in *. lia. }
    rewrite Hnone.
    apply (display_bind _ (fun _ => True)); [now apply display_emit |].
    intros _ _. destruct (Z.land key 255 =? 113)%Z; [now apply display_ret |].
    apply (display_bind _ (fun _ => True)).
    { destruct (Z.land key 255 =? 115)%Z; [| now apply display_ret].
      apply (display_bind _ (fun _ => True)); [| intros _ _; now apply display_emit].
      apply display_imwrite; [now exists now | exact I]. }
    intros _ _. apply IH; [exact Hfew1 | lia].
Qed.

(** X11: no plate is shown during the first REQUIRED * OCR_EVERY - 1
    frames.  Started with an empty window, the capture loop recognises
    only every OCR_EVERY-th frame, so whatever the recogniser reads and
    whatever keys are pressed, every view shown in a run with fewer than
    REQUIRED * OCR_EVERY = 20 frames is labelled "(reading...)"; such a
    run changes no process and no file other than the views it saves. *)
Theorem reader_first_frames_show_placeholder unicode_upper
    (ts : list ocr_reader.tick) :
  (frames ts < Z.of_nat ocr_reader.REQUIRED * ocr_reader.OCR_EVERY)%Z ->
  keeps saves_views no_plate_shown (fun _ => True)
    (ocr_reader.loop unicode_upper ts [] 0).
Proof.
  intros Hfew. apply reader_loop_warming; [cbn; lia | lia].
Qed.

Lemma reader_first_frames_show_placeholder_witness :
  keeps saves_views no_plate_shown (fun _ => True)
    (ocr_reader.loop no_table
       (repeat (ocr_reader.Frame (py "AB12CD") (py "AB12CD") 115 (py "t")) 19)
       [] 0).
Proof.
  apply (reader_first_frames_show_placeholder no_table
           (repeat (ocr_reader.Frame (py "AB12CD") (py "AB12CD") 115 (py "t")) 19)).
  vm_compute. reflexivity.
Defined.

(** The bound is met: with the same reading on every frame, the
    twentieth frame shows the plate. *)
Example reader_twentieth_frame_shows_plate :
  Imshow (py "LPR (low latency)") (py "AB12CD")
  ∈ trace (ocr_reader.loop no_table
             (repeat (ocr_reader.Frame (py "AB12CD") (py "AB12CD") (-1) (py "t")) 20)
             [] 0 idle_world).2.
Proof. apply (bool_decide_unpack _). vm_compute. exact I. Qed.

(** ** Witnesses for the teardown and the double start *)

Lemma reader_exit_stops_witness :
  Call "stop_stream" ∈ trace (ocr_reader.main no_table failing_reader idle_world).2.
Proof.
  apply (reader_exit_stops no_table failing_reader idle_world).
  - left. reflexivity.
  - reflexivity.
  - exists true. reflexivity.
  - reflexivity.
  - reflexivity.
  - vm_compute. discriminate.
Defined.

Lemma detector_exit_stops_witness :
  Call "stop_stream" ∈ trace (detector.main quitting_detector idle_world).2.
Proof.
  apply (detector_exit_stops quitting_detector idle_world).
  - left. reflexivity.
  - reflexivity.
  - exists true. reflexivity.
  - reflexivity.
  - reflexivity.
  - vm_compute. discriminate.
Defined.

Lemma start_stream_twice_witness :
  exists w1 w2,
    stream_control.start_stream stream_control.defaults idle_world = (Done tt, w1)
    /\ stream_control.start_stream stream_control.defaults w1 = (Done tt, w2)
    /\ fs w2
       = <[stream_control.pid_file stream_control.defaults
             := str_of_int (next_pid idle_world)]> (fs idle_world)
    /\ procs w2 = procs w1
    /\ new_events w1 w2
       = [Call "start_stream";
          Print (py "Stream already running (pid file exists).")].
Proof.
  apply (start_stream_twice stream_control.defaults idle_world).
  - vm_compute. reflexivity.
  - reflexivity.
Defined.

(** ** The loops end on q or on an exception only *)

Lemma offer_returns (hist : list pystr) (plate : pystr) (w : world) :
  exists hist' w', ocr_reader.offer hist plate w = (Done hist', w').
Proof.
  unfold ocr_reader.offer. destruct (ocr_reader.accepts plate).
  - rewrite (bind_Done _ _ w tt (log (Print (py "OCR: " ++ plate)) w))
      by reflexivity.
    now eexists _, _.
  - now eexists _, _.
Qed.

(** X15: the capture loop of ocr_reader.py ends on the q key or on an
    exception only.  Failed reads (the stream has ended) and frames with
    any other key keep it running: over any number of such turns the loop
    has not returned. *)
Theorem reader_loop_goes_on unicode_upper
    (ts : list ocr_reader.tick) (hist : list pystr) (frame_id : Z) (w : world) :
  Forall reader_goes_on ts ->
  (ocr_reader.loop unicode_upper ts hist frame_id w).1 = Starved.
Proof.
  intros Hts. revert hist frame_id w.
  induction Hts as [| t rest Ht _ IH]; intros hist frame_id w; [reflexivity |].
  cbn [ocr_reader.loop].
  destruct t as [e | | txt_a txt_b key now]; [destruct Ht | |].
  - destruct (flush_frames_returns 4 w) as [w1 Hflush].
    rewrite (bind_Done _ _ w tt w1 Hflush).
    rewrite (bind_Done _ _ w1 tt (log (Sleep 10) w1)) by reflexivity.
    apply IH.
  - destruct (flush_frames_returns 4 w) as [w1 Hflush].
    rewrite (bind_Done _ _ w tt w1 Hflush).
    assert (Hoffer : exists hist1 w2,
              (if ((frame_id + 1) mod ocr_reader.OCR_EVERY =? 0)%Z
               then ocr_reader.offer hist (ocr_reader.ocr_best unicode_upper txt_a txt_b)
               else mret hist) w1 = (Done hist1, w2)).
    { destruct (_ =? 0)%Z; [apply offer_returns | now eexists _, _]. }
    destruct Hoffer as (hist1 & w2 & Hoffer).
    rewrite (bind_Done _ _ w1 hist1 w2 Hoffer).
    erewrite (bind_Done _ _ w2 tt) by reflexivity.
    cbn in Ht. destruct (Z.eqb_spec (Z.land key 255) 113) as [Hq | _];
      [contradiction |].
    destruct (Z.land key 255 =? 115)%Z.
    + erewrite (bind_Done _ _ _ tt).
      2:{ erewrite (bind_Done _ _ _ tt) by reflexivity. reflexivity. }
      apply IH.
    + erewrite (bind_Done _ _ _ tt) by reflexivity. apply IH.
Qed.

Lemma reader_loop_goes_on_witness :
  (ocr_reader.loop no_table
     [ocr_reader.NoFrame; ocr_reader.Frame (py "ab12cd") (py "a8") 115 (py "t");
      ocr_reader.NoFrame] [] 4 idle_world).1 = Starved.
Proof.
  apply (reader_loop_goes_on no_table
           [ocr_reader.NoFrame;
            ocr_reader.Frame (py "ab12cd") (py "a8") 115 (py "t");
            ocr_reader.NoFrame] [] 4 idle_world).
  repeat constructor; vm_compute; discriminate.
Defined.

(** X16: the same for the loop of detector.py: it ends on the q key or
    on an exception only; failed reads and other keys keep it running. *)
Theorem detector_loop_goes_on (ts : list detector.tick) (w : world) :
  Forall detector_goes_on ts -> (detector.loop ts w).1 = Starved.
Proof.
  intros Hts. revert w.
  induction Hts as [| t rest Ht _ IH]; intros w; [reflexivity |].
  cbn [detector.loop]. destruct t as [e | | key]; [destruct Ht | |].
  - rewrite (bind_Done _ _ w tt (log (Sleep 20) w)) by reflexivity. apply IH.
  - erewrite (bind_Done _ _ w tt) by reflexivity.
    cbn in Ht. destruct (Z.eqb_spec (Z.land key 255) 113) as [Hq | _];
      [contradiction | apply IH].
Qed.

Lemma detector_loop_goes_on_witness :
  (detector.loop [detector.NoFrame; detector.Frame (-1); detector.NoFrame]
     idle_world).1 = Starved.
Proof.
  apply (detector_loop_goes_on
           [detector.NoFrame; detector.Frame (-1); detector.NoFrame] idle_world).
  repeat constructor; vm_compute; discriminate.
Defined.

(** ** More on normalisation and candidate selection *)

Section NormaliseFacts.
Variable unicode_upper : N -> pystr.

Local Abbreviation normalize_plate := (ocr_reader.normalize_plate unicode_upper).
Local Abbreviation ocr_best := (ocr_reader.ocr_best unicode_upper).

Lemma normalized_char_out (c : N) :
  Forall (fun d => is_plate_char d = true /\ d <> 0x4F%N) (normalized_char c).
Proof.
  unfold normalized_char.
  destruct (N.eqb_spec c 0x4F); [repeat constructor; discriminate |].
  destruct (N.eqb_spec c 0x7C); [repeat constructor; discriminate |].
  destruct (is_plate_char c) eqn:Hc; repeat constructor; assumption.
Qed.

Lemma normalize_plate_out (s : pystr) :
  Forall (fun d => is_plate_char d = true /\ d <> 0x4F%N) (normalize_plate s).
Proof.
  rewrite normalize_plate_by_char.
  induction (upper unicode_upper s) as [| c r IH]; [constructor |].
  cbn [flat_map]. apply Forall_app. split; [apply normalized_char_out | exact IH].
Qed.

Lemma plate_char_fixed (c : N) :
  is_plate_char c = true -> c <> 0x4F%N ->
  upper_char unicode_upper c = [c] /\ normalized_char c = [c].
Proof.
  intros Hc Hno. unfold upper_char, normalized_char. rewrite Hc.
  unfold is_plate_char in Hc.
  destruct (N.eqb_spec c 0x4F); [contradiction |].
  assert (Hrange : (0x41 <= c <= 0x5A \/ 0x30 <= c <= 0x39)%N).
  { apply orb_true_iff in Hc as [Hc | Hc];
      apply andb_true_iff in Hc as [H1 H2];
      apply N.leb_le in H1; apply N.leb_le in H2; lia. }
  destruct (N.eqb_spec c 0x7C); [lia |].
  destruct (N.leb_spec 0x61 c); [lia |]. cbn [andb].
  destruct (N.ltb_spec c 0x80); [| lia]. split; reflexivity.
Qed.

Lemma normal_form_fixed (t : pystr) :
  Forall (fun d => is_plate_char d = true /\ d <> 0x4F%N) t ->
  normalize_plate t = t.
Proof.
  intros Ht. rewrite normalize_plate_by_char. unfold upper.
  induction Ht as [| c r [Hc Hno] _ IH]; [reflexivity |].
  destruct (plate_char_fixed c Hc Hno) as [Hup Hnorm].
  cbn [flat_map]. rewrite Hup. cbn [flat_map app].
  rewrite Hnorm. cbn [app]. f_equal. exact IH.
Qed.

(** X17: normalising twice is normalising once, and a normalised text
    never holds the letter O (it has become the digit 0). *)
Theorem normalize_plate_idempotent (s : pystr) :
  normalize_plate (normalize_plate s) = normalize_plate s
  /\ (0x4F%N ∉ normalize_plate s).
Proof.
  pose proof (normalize_plate_out s) as Hout. split.
  - now apply normal_form_fixed.
  - intros Hin. rewrite Forall_forall in Hout. now destruct (Hout _ Hin).
Qed.

(** X18: normalisation works character by character: the normal form of
    a concatenation is the concatenation of the normal forms, so white
    space between or around the parts does not matter. *)
Theorem normalize_plate_app (s1 s2 : pystr) :
  normalize_plate (s1 ++ s2) = normalize_plate s1 ++ normalize_plate s2.
Proof.
  rewrite !normalize_plate_by_char. unfold upper.
  now rewrite !List.flat_map_app.
Qed.

(** X19: [ocr_best] returns one of the two normalised readings, and its
    length is the greater of their lengths; when they are equally long it
    is the reading of the first variant. *)
Theorem ocr_best_max (txt_a txt_b : pystr) :
  (ocr_best txt_a txt_b = normalize_plate txt_a
   \/ ocr_best txt_a txt_b = normalize_plate txt_b)
  /\ length (ocr_best txt_a txt_b)
     = Nat.max (length (normalize_plate txt_a)) (length (normalize_plate txt_b))
  /\ (length (normalize_plate txt_a) = length (normalize_plate txt_b) ->
      ocr_best txt_a txt_b = normalize_plate txt_a).
Proof.
  unfold ocr_reader.ocr_best.
  destruct (Nat.leb_spec (length (normalize_plate txt_b))
                         (length (normalize_plate txt_a))) as [Hle | Hlt].
  - split; [now left |]. split; [lia | reflexivity].
  - split; [now right |]. split; [lia | lia].
Qed.

End NormaliseFacts.

Lemma ocr_best_max_witness :
  ocr_reader.ocr_best no_table (py "ab12cd") (py "xy99zz")
  = ocr_reader.normalize_plate no_table (py "ab12cd").
Proof.
  apply (proj2 (proj2 (ocr_best_max no_table (py "ab12cd") (py "xy99zz")))).
  vm_compute. reflexivity.
Defined.

(** ** video_stream.py: stopping through the handle *)

(** A signal to a process group that has a member the caller may signal:
    it is delivered to the members, and those it ends are gone. *)
Lemma os_killpg_group (w : world) (g : Z) (sig : signal) (q0 : Z) (x0 : process) :
  (1 < g < 2 ^ 31)%Z ->
  procs w !! q0 = Some x0 -> pgid x0 = g -> permitted x0 = true ->
  exists w',
    os_killpg g sig w = (Done tt, w')
    /\ trace w' = trace w ++ [Killpg g sig]
    /\ fs w' = fs w
    /\ (forall q,
          procs w' !! q
          = match procs w !! q with
            | Some x => if (pgid x =? g)%Z && dies sig x then None else Some x
            | None => None
            end).
Proof.
  intros Hrange Hq0 Hg Hperm. unfold os_killpg.
  assert (Hok : pid_t_ok g = true).
  { unfold pid_t_ok. apply andb_true_iff.
    split; [apply Z.leb_le | apply Z.ltb_lt]; lia. }
  rewrite Hok. unfold signal_all. cbn [procs log].
  assert (Haddr : forall q x,
            addressed (log (Killpg g sig) w) (- g) q x = (pgid x =? g)%Z).
  { intros q x. unfold addressed.
    destruct (Z.ltb_spec 0 (- g)); [lia |].
    destruct (Z.eqb_spec (- g) 0); [lia |].
    destruct (Z.eqb_spec (- g) (-1)); [lia |].
    now rewrite Z.opp_involutive. }
  assert (Hhit : filter (fun qp : Z * process =>
                   addressed (log (Killpg g sig) w) (- g) qp.1 qp.2 = true)
                   (procs w) !! q0 = Some x0).
  { apply map_lookup_filter_Some. split; [exact Hq0 |]. cbn.
    rewrite Haddr. now apply Z.eqb_eq. }
  rewrite bool_decide_eq_false_2.
  2:{ intros Hempty. rewrite Hempty, lookup_empty in Hhit. discriminate. }
  rewrite bool_decide_eq_false_2.
  2:{ intros Hempty. apply (f_equal (fun m => m !! q0)) in Hempty.
      rewrite lookup_empty in Hempty.
      apply map_lookup_filter_None in Hempty as [Hnone | Hnot]; [congruence |].
      now apply (Hnot x0 Hhit). }
  eexists. split; [reflexivity |]. cbn. split; [reflexivity |].
  split; [reflexivity |]. intros q.
  destruct (procs w !! q) as [x |] eqn:Hq.
  - destruct ((pgid x =? g)%Z && dies sig x) eqn:Hend.
    + apply map_lookup_filter_None. right. intros y Hy.
      assert (y = x) by congruence. subst y. cbn. now rewrite Haddr, Hend.
    + apply map_lookup_filter_Some. split; [exact Hq |]. cbn.
      now rewrite Haddr, Hend.
  - apply map_lookup_filter_None. now left.
Qed.

Lemma video_stop_stream_run (pid : Z) (p : process) (w : world) :
  procs w !! pid = Some p -> pgid p = pid -> permitted p = true ->
  (1 < pid < 2 ^ 31)%Z ->
  exists w',
    video_stream.stop_stream (Some pid) w = (Done tt, w')
    /\ trace w'
       = trace w ++ [Killpg pid SIGTERM; Sleep 300]
         ++ (if ignores_term p then [Killpg pid SIGKILL] else [])
    /\ procs w' !! pid = None
    /\ (forall q x, procs w !! q = Some x -> pgid x <> pid ->
                    procs w' !! q = Some x)
    /\ fs w' = fs w.
Proof.
  intros Hlive Hlead Hperm Hrange. unfold video_stream.stop_stream.
  rewrite (bind_Done _ _ w true w).
  2:{ unfold video_stream.poll_is_None. rewrite bool_decide_eq_true_2;
        [reflexivity | now rewrite Hlive]. }
  destruct (os_killpg_group w pid SIGTERM pid p Hrange Hlive Hlead Hperm)
    as (w1 & Hterm & Htr1 & Hfs1 & Hprocs1).
  assert (Hdies : dies SIGTERM p = negb (ignores_term p)).
  { unfold dies. now rewrite Hperm. }
  assert (Hpid1 : procs w1 !! pid = if ignores_term p then Some p else None).
  { rewrite Hprocs1, Hlive, Hlead, Z.eqb_refl, Hdies.
    now destruct (ignores_term p). }
  assert (Hothers1 : forall q x, procs w !! q = Some x -> pgid x <> pid ->
                                 procs w1 !! q = Some x).
  { intros q x Hq Hx. rewrite Hprocs1, Hq.
    destruct (Z.eqb_spec (pgid x) pid); [contradiction | reflexivity]. }
  set (w2 := log (Sleep 300) w1).
  destruct (ignores_term p) eqn:Hign.
  - destruct (os_killpg_group w2 pid SIGKILL pid p Hrange Hpid1 Hlead Hperm)
      as (w3 & Hkill & Htr3 & Hfs3 & Hprocs3).
    exists w3. split.
    + apply try_except_Done.
      rewrite (bind_Done _ _ w pid w)
        by (unfold os_getpgid; now rewrite Hlive, Hlead).
      rewrite (bind_Done _ _ w tt w1 Hterm).
      rewrite (bind_Done _ _ w1 tt w2) by reflexivity.
      rewrite (bind_Done _ _ w2 true w2).
      2:{ unfold video_stream.poll_is_None. rewrite bool_decide_eq_true_2;
            [reflexivity |]. cbn [procs log w2]. now rewrite Hpid1. }
      rewrite (bind_Done _ _ w2 pid w2).
      2:{ unfold os_getpgid. cbn [procs log w2]. now rewrite Hpid1, Hlead. }
      exact Hkill.
    + split; [| split; [| split]].
      * rewrite Htr3. subst w2. cbn. rewrite Htr1, <- !app_assoc. reflexivity.
      * rewrite Hprocs3. cbn [procs log w2]. rewrite Hpid1, Hlead, Z.eqb_refl.
        unfold dies. rewrite Hperm. reflexivity.
      * intros q x Hq Hx. rewrite Hprocs3. cbn [procs log w2].
        rewrite (Hothers1 q x Hq Hx).
        destruct (Z.eqb_spec (pgid x) pid); [contradiction | reflexivity].
      * rewrite Hfs3. subst w2. cbn. exact Hfs1.
  - exists w2. split.
    + apply try_except_Done.
      rewrite (bind_Done _ _ w pid w)
        by (unfold os_getpgid; now rewrite Hlive, Hlead).
      rewrite (bind_Done _ _ w tt w1 Hterm).
      rewrite (bind_Done _ _ w1 tt w2) by reflexivity.
      rewrite (bind_Done _ _ w2 false w2); [reflexivity |].
      unfold video_stream.poll_is_None. rewrite bool_decide_eq_false_2;
        [reflexivity |]. cbn [procs log w2]. rewrite Hpid1. now intros [? ?].
    + subst w2. cbn. split; [| split; [exact Hpid1 | split; [exact Hothers1 | exact Hfs1]]].
      rewrite Htr1, <- !app_assoc. reflexivity.
Qed.

(** X20: [stop_stream] of video_stream.py on a live child that leads its
    own process group: SIGTERM goes to the group, 300 ms pass, and if the
    child does not react to SIGTERM the group is sent SIGKILL; either way
    the child is gone when the call returns, processes of other groups
    are untouched, and the call returns normally. *)
Theorem video_stop_stream_protocol (pid : Z) (p : process) (w : world) :
  procs w !! pid = Some p -> pgid p = pid -> permitted p = true ->
  (1 < pid < 2 ^ 31)%Z ->
  exists w',
    video_stream.stop_stream (Some pid) w = (Done tt, w')
    /\ new_events w w'
       = [Killpg pid SIGTERM; Sleep 300]
         ++ (if ignores_term p then [Killpg pid SIGKILL] else [])
    /\ procs w' !! pid = None
    /\ (forall q x, procs w !! q = Some x -> pgid x <> pid ->
                    procs w' !! q = Some x)
    /\ fs w' = fs w.
Proof.
  intros Hlive Hlead Hperm Hrange.
  destruct (video_stop_stream_run pid p w Hlive Hlead Hperm Hrange)
    as (w' & Hrun & Htr & Hgone & Hothers & Hfs).
  exists w'. split; [exact Hrun |]. split; [now apply new_events_app |].
  split; [exact Hgone |]. split; [exact Hothers | exact Hfs].
Qed.

Lemma video_stop_stream_protocol_witness :
  exists w',
    video_stream.stop_stream (Some 4242%Z) hung_world = (Done tt, w')
    /\ new_events hung_world w'
       = [Killpg 4242 SIGTERM; Sleep 300]
         ++ (if ignores_term {| pgid := 4242; permitted := true; ignores_term := true |}
             then [Killpg 4242 SIGKILL] else [])
    /\ procs w' !! 4242%Z = None
    /\ (forall q x, procs hung_world !! q = Some x -> pgid x <> 4242%Z ->
                    procs w' !! q = Some x)
    /\ fs w' = fs hung_world.
Proof.
  apply (video_stop_stream_protocol 4242
           {| pgid := 4242; permitted := true; ignores_term := true |} hung_world).
  - vm_compute. reflexivity.
  - reflexivity.
  - reflexivity.
  - lia.
Defined.

(** X21: [stop_stream] of video_stream.py does nothing at all when it is
    given no handle or the child has already ended: no signal, no wait,
    no message. *)
Theorem video_stop_stream_idle (proc : option Z) (w : world) :
  (forall pid, proc = Some pid -> procs w !! pid = None) ->
  video_stream.stop_stream proc w = (Done tt, w).
Proof.
  intros Hended. unfold video_stream.stop_stream.
  destruct proc as [pid |]; [| reflexivity].
  rewrite (bind_Done _ _ w false w); [reflexivity |].
  unfold video_stream.poll_is_None. rewrite bool_decide_eq_false_2;
    [reflexivity |]. rewrite (Hended pid eq_refl). now intros [? ?].
Qed.

Lemma video_stop_stream_idle_witness :
  video_stream.stop_stream (Some 4242%Z) idle_world = (Done tt, idle_world).
Proof.
  apply (video_stop_stream_idle (Some 4242%Z) idle_world).
  intros pid [= <-]. vm_compute. reflexivity.
Defined.

(** ** video_stream.py: the whole script *)








(** The two runs behind that witness: the interrupt passes through
    [main] after the child was stopped; without camera [main] leaves with
    status 1 and signals nobody. *)
Example video_main_interrupted_run :
  (video_stream.main interrupted_preview idle_world).1 = Raise KeyboardInterrupt
  /\ procs (video_stream.main interrupted_preview idle_world).2 = ∅.
Proof. split; vm_compute; reflexivity. Qed.

Example video_main_no_camera_run :
  (video_stream.main no_camera_preview idle_world).1 = Done 1%Z
  /\ List.filter is_signal (trace (video_stream.main no_camera_preview idle_world).2)
     = [].
Proof. split; vm_compute; reflexivity. Qed.

(** ** The two gaps around the [try] block of ocr_reader.py and detector.py *)

Lemma start_stream_no_stop (c : stream_control.config) (w : world) :
  Call "stop_stream" ∉ trace w ->
  Call "stop_stream" ∉ trace (stream_control.start_stream c w).2.
Proof.
  intros Hnot. unfold stream_control.start_stream.
  rewrite (bind_Done _ _ w tt (log (Call "start_stream") w)) by reflexivity.
  unfold mbind at 1, M_bind at 1, path_exists. cbn [fs log].
  assert (Hw1 : Call "stop_stream" ∉ trace w ++ [Call "start_stream"]).
  { rewrite elem_of_app, list_elem_of_singleton. intros [? | ?]; [auto | discriminate]. }
  case_bool_decide.
  - cbn. rewrite elem_of_app, list_elem_of_singleton.
    intros [? | ?]; [auto | discriminate].
  - unfold mbind, M_bind, popen. cbn [installed log].
    destruct (installed w); cbn; [| exact Hw1].
    rewrite !elem_of_app, !list_elem_of_singleton.
    intros [[[[? | ?] | ?] | ?] | ?]; try discriminate; auto.
Qed.

(** X23: the first gap of [ocr_reader.main], in general.  The sleep
    after [start_stream] and the opening of the capture stand before the
    [try] block: an exception raised there (Ctrl-C during the sleep, an
    error of [open_capture]) ends [main] with that exception and without
    any call of [stop_stream], on every machine. *)
Theorem reader_setup_fault_skips_stop unicode_upper
    (e : ocr_reader.env) (x : exn) (w : world) :
  installed w = true \/ is_Some (fs w !! stream_control.DEFAULT_PID) ->
  ocr_reader.warmup e = Some x
    \/ (ocr_reader.warmup e = None /\ ocr_reader.capture e = inl x) ->
  Call "stop_stream" ∉ trace w ->
  (ocr_reader.main unicode_upper e w).1 = Raise x
  /\ (Call "stop_stream" ∉ trace (ocr_reader.main unicode_upper e w).2).
Proof.
  intros Hcan He Hnot. unfold ocr_reader.main.
  set (w0 := match ocr_reader.tesseract e with
             | Some v => log (Print (py "Tesseract: " ++ v)) w
             | None => log (Print (py "Tesseract check failed (continuing)...")) w
             end).
  assert (Hnot0 : Call "stop_stream" ∉ trace w0).
  { subst w0. destruct (ocr_reader.tesseract e); cbn;
      rewrite elem_of_app, list_elem_of_singleton;
      intros [? | ?]; try discriminate; auto. }
  rewrite (bind_Done _ _ w tt w0)
    by (subst w0; now destruct (ocr_reader.tesseract e)).
  destruct (start_stream_returns stream_control.defaults w0) as [w1 Hstart].
  { subst w0. now destruct (ocr_reader.tesseract e). }
  pose proof (start_stream_no_stop stream_control.defaults w0 Hnot0) as Hnot1.
  rewrite Hstart in Hnot1. cbn [snd] in Hnot1.
  rewrite (bind_Done _ _ w0 tt w1 Hstart).
  assert (Hnot2 : Call "stop_stream" ∉ trace (log (Sleep 700) w1)).
  { cbn. rewrite elem_of_app, list_elem_of_singleton.
    intros [? | ?]; [auto | discriminate]. }
  destruct He as [Hwarm | [Hwarm Hcap]]; rewrite Hwarm.
  - rewrite (bind_Raise _ _ w1 x (log (Sleep 700) w1)) by reflexivity.
    split; [reflexivity | exact Hnot2].
  - rewrite (bind_Done _ _ w1 tt (log (Sleep 700) w1)) by reflexivity.
    rewrite Hcap.
    rewrite (bind_Raise _ _ _ x (log (Sleep 700) w1)) by reflexivity.
    split; [reflexivity | exact Hnot2].
Qed.

Lemma reader_setup_fault_skips_stop_witness :
  (ocr_reader.main no_table interrupted_reader stale_world).1
    = Raise KeyboardInterrupt
  /\ (Call "stop_stream"
      ∉ trace (ocr_reader.main no_table interrupted_reader stale_world).2).
Proof.
  apply (reader_setup_fault_skips_stop no_table interrupted_reader
           KeyboardInterrupt stale_world).
  - left. reflexivity.
  - left. reflexivity.
  - apply not_elem_of_nil.
Defined.

(** X24: the first gap of [detector.main].  The sleep after
    [start_stream] and the opening of the capture stand before the [try]
    block: an exception raised there ends [main] with that exception and
    without any call of [stop_stream], on every machine. *)
Theorem detector_setup_fault_skips_stop
    (d : detector.env) (x : exn) (w : world) :
  installed w = true \/ is_Some (fs w !! stream_control.DEFAULT_PID) ->
  detector.warmup d = Some x
    \/ (detector.warmup d = None /\ detector.capture d = inl x) ->
  Call "stop_stream" ∉ trace w ->
  (detector.main d w).1 = Raise x
  /\ (Call "stop_stream" ∉ trace (detector.main d w).2).
Proof.
  intros Hcan Hd Hnot. unfold detector.main.
  destruct (start_stream_returns stream_control.defaults w Hcan) as [w1 Hstart].
  pose proof (start_stream_no_stop stream_control.defaults w Hnot) as Hnot1.
  rewrite Hstart in Hnot1. cbn [snd] in Hnot1.
  rewrite (bind_Done _ _ w tt w1 Hstart).
  assert (Hnot2 : Call "stop_stream" ∉ trace (log (Sleep 1000) w1)).
  { cbn. rewrite elem_of_app, list_elem_of_singleton.
    intros [? | ?]; [auto | discriminate]. }
  destruct Hd as [Hwarm | [Hwarm Hcap]]; rewrite Hwarm.
  - rewrite (bind_Raise _ _ w1 x (log (Sleep 1000) w1)) by reflexivity.
    split; [reflexivity | exact Hnot2].
  - rewrite (bind_Done _ _ w1 tt (log (Sleep 1000) w1)) by reflexivity.
    rewrite Hcap.
    rewrite (bind_Raise _ _ _ x (log (Sleep 1000) w1)) by reflexivity.
    split; [reflexivity | exact Hnot2].
Qed.

Lemma detector_setup_fault_skips_stop_witness :
  (detector.main interrupted_detector stale_world).1 = Raise KeyboardInterrupt
  /\ (Call "stop_stream" ∉ trace (detector.main interrupted_detector stale_world).2).
Proof.
  apply (detector_setup_fault_skips_stop interrupted_detector
           KeyboardInterrupt stale_world).
  - left. reflexivity.
  - left. reflexivity.
  - apply not_elem_of_nil.
Defined.

Lemma display_implies {A} (sys : world -> world -> Prop)
    (Q Q' : event -> Prop) (R : A -> Prop) (m : M A) :
  (forall e, Q e -> Q' e) -> keeps sys Q R m -> keeps sys Q' R m.
Proof.
  intros Himp Hm w. destruct (Hm w) as (Hsys & (evs & Htr & Hq) & Hr).
  split; [exact Hsys |]. split; [| exact Hr].
  exists evs. split; [exact Htr |]. eapply Forall_impl; eauto.
Qed.

(** X25: the second gap.  In the [finally] block of [ocr_reader.main],
    [stop_stream] comes after [cap.release()] and
    [cv2.destroyAllWindows()]: when one of these raises, whatever ended
    the loop, [main] ends with that exception and [stop_stream] is never
    called. *)
Theorem reader_teardown_fault_skips_stop unicode_upper
    (e : ocr_reader.env) (x : exn) (w : world) :
  installed w = true \/ is_Some (fs w !! stream_control.DEFAULT_PID) ->
  ocr_reader.warmup e = None ->
  ocr_reader.capture e = inr true ->
  ocr_reader.release_fault e = Some x
    \/ (ocr_reader.release_fault e = None /\ ocr_reader.destroy_fault e = Some x) ->
  (ocr_reader.main unicode_upper e w).1 <> Starved ->
  Call "stop_stream" ∉ trace w ->
  (ocr_reader.main unicode_upper e w).1 = Raise x
  /\ (Call "stop_stream" ∉ trace (ocr_reader.main unicode_upper e w).2).
Proof.
  intros Hcan Hwarm Hcap Hfault Hrun Hnot. revert Hrun. unfold ocr_reader.main.
  set (w0 := match ocr_reader.tesseract e with
             | Some v => log (Print (py "Tesseract: " ++ v)) w
             | None => log (Print (py "Tesseract check failed (continuing)...")) w
             end).
  assert (Hnot0 : Call "stop_stream" ∉ trace w0).
  { subst w0. destruct (ocr_reader.tesseract e); cbn;
      rewrite elem_of_app, list_elem_of_singleton;
      intros [? | ?]; try discriminate; auto. }
  rewrite (bind_Done _ _ w tt w0)
    by (subst w0; now destruct (ocr_reader.tesseract e)).
  destruct (start_stream_returns stream_control.defaults w0) as [w1 Hstart].
  { subst w0. now destruct (ocr_reader.tesseract e). }
  pose proof (start_stream_no_stop stream_control.defaults w0 Hnot0) as Hnot1.
  rewrite Hstart in Hnot1. cbn [snd] in Hnot1.
  rewrite (bind_Done _ _ w0 tt w1 Hstart). rewrite Hwarm, Hcap.
  rewrite (bind_Done _ _ w1 tt (log (Sleep 700) w1)) by reflexivity.
  rewrite (bind_Done _ _ _ true (log (Sleep 700) w1)) by reflexivity.
  cbn [negb].
  set (w2 := log (Print (py "Press 'q' to quit, 's' to save."))
               (log (Sleep 700) w1)).
  rewrite (bind_Done _ _ _ tt w2) by reflexivity.
  assert (Hnot2 : Call "stop_stream" ∉ trace w2).
  { subst w2. cbn. rewrite !elem_of_app, !list_elem_of_singleton.
    intros [[? | ?] | ?]; try discriminate; auto. }
  assert (Hbody : keeps saves_views (fun ev => ev <> Call "stop_stream") (fun _ => True)
                    (ocr_reader.loop unicode_upper (ocr_reader.ticks e) [] 0
                     ;; mret tt)).
  { apply (display_bind _ (fun _ => True)); [| intros; now apply display_ret].
    apply (display_weaken _ window_ok); [easy |].
    apply (display_implies saves_views reader_event);
      [| apply loop_displays, window_ok_empty].
    intros [] Hev; try discriminate; destruct Hev. }
  destruct (Hbody w2) as (_ & (evs & Htr & Hevs) & _).
  assert (Hnot3 : Call "stop_stream" ∉ trace w2 ++ evs).
  { rewrite elem_of_app. intros [? | Hin]; [auto |].
    rewrite Forall_forall in Hevs. now apply (Hevs _ Hin). }
  unfold try_finally.
  destruct ((ocr_reader.loop unicode_upper (ocr_reader.ticks e) [] 0 ;; mret tt) w2)
    as [[[] | x' |] w3]; cbn [snd] in Htr;
    [| | intros Hrun; now elim Hrun]; intros _.
  all: destruct Hfault as [Hrel | [Hrel Hdes]]; rewrite Hrel; try rewrite Hdes.
  all: first
    [ rewrite (bind_Raise _ _ w3 x (log Release w3)) by reflexivity
    | rewrite (bind_Done _ _ w3 tt (log Release w3)) by reflexivity;
      rewrite (bind_Raise _ _ _ x (log DestroyAllWindows (log Release w3)))
        by reflexivity ].
  all: cbn; split; [reflexivity |].
  all: rewrite elem_of_app in Hnot3.
  all: rewrite Htr, !elem_of_app, !list_elem_of_singleton.
  all: match goal with
       | |- ~ (((_ \/ _) \/ _) \/ _) => intros [[[? | ?] | ?] | ?]
       | |- ~ ((_ \/ _) \/ _) => intros [[? | ?] | ?]
       end; try discriminate; tauto.
Qed.

Lemma reader_teardown_fault_skips_stop_witness :
  (ocr_reader.main no_table headless_reader idle_world).1 = Raise cv2_error
  /\ (Call "stop_stream"
      ∉ trace (ocr_reader.main no_table headless_reader idle_world).2).
Proof.
  apply (reader_teardown_fault_skips_stop no_table headless_reader cv2_error
           idle_world).
  - left. reflexivity.
  - reflexivity.
  - reflexivity.
  - right. split; reflexivity.
  - vm_compute. discriminate.
  - apply not_elem_of_nil.
Defined.
